(** * FitMirror mobile screens: chat, workouts and profile

    A shallow embedding of the state-handling code of
    [FitMirrorApp/ChatScreen.tsx], [FitMirrorApp/WorkoutsScreen.tsx] and
    [FitMirrorApp/ProfileScreen.tsx].

    JavaScript strings are sequences of UTF-16 code units, values parsed
    from a response body are untyped JSON values, and an asynchronous
    handler is split at its [await] into the part that runs when the
    handler is invoked and the part that runs when the awaited promise
    settles.  React state is passed explicitly; a [setState(prev => ...)]
    updater acts on the state current at the time it runs, while a plain
    read of a state variable inside a handler sees the snapshot its closure
    captured. *)

From Stdlib Require Import List Bool Arith NArith ZArith Lia String Ascii.
From Stdlib Require Import Floats.SpecFloat DecimalString.
Import ListNotations.
Local Open Scope list_scope.

Set Implicit Arguments.

(* ================================================================== *)
(** ** JavaScript strings *)

Module Js.

(** A UTF-16 code unit. *)
Definition char16 := N.

(** A JavaScript string. *)
Definition jstring := list char16.

(** Literals are written as Rocq strings, whose bytes are the UTF-8
    encoding of the source text; [js] gives the UTF-16 code units the
    JavaScript engine holds for the same literal. *)
Fixpoint utf16_of_utf8 (bytes : list N) : jstring :=
  match bytes with
  | [] => []
  | b0 :: l1 =>
      if N.ltb b0 128 then b0 :: utf16_of_utf8 l1
      else if N.ltb b0 224 then
        match l1 with
        | b1 :: l2 => ((b0 - 192) * 64 + (b1 - 128))%N :: utf16_of_utf8 l2
        | [] => []
        end
      else if N.ltb b0 240 then
        match l1 with
        | b1 :: b2 :: l3 =>
            ((b0 - 224) * 4096 + (b1 - 128) * 64 + (b2 - 128))%N
              :: utf16_of_utf8 l3
        | _ => []
        end
      else
        match l1 with
        | b1 :: b2 :: b3 :: l4 =>
            let cp := ((b0 - 240) * 262144 + (b1 - 128) * 4096
                       + (b2 - 128) * 64 + (b3 - 128) - 65536)%N in
            (55296 + cp / 1024)%N :: (56320 + cp mod 1024)%N
              :: utf16_of_utf8 l4
        | _ => []
        end
  end.

Definition js (s : string) : jstring :=
  utf16_of_utf8 (map N_of_ascii (list_ascii_of_string s)).

Definition char_eqb (a b : char16) : bool := N.eqb a b.

Fixpoint jstring_eqb (a b : jstring) : bool :=
  match a, b with
  | [], [] => true
  | x :: a', y :: b' => char_eqb x y && jstring_eqb a' b'
  | _, _ => false
  end.

(** ECMAScript LineTerminator: LF, CR, LS, PS. *)
Definition isLineTerminator (c : char16) : bool :=
  existsb (N.eqb c) [10; 13; 8232; 8233]%N.

(** ECMAScript WhiteSpace: TAB, VT, FF, SP, NBSP, ZWNBSP and the code
    points of category Zs. *)
Definition isWhiteSpace (c : char16) : bool :=
  existsb (N.eqb c) [9; 11; 12; 32; 160; 5760; 8239; 8287; 12288; 65279]%N
  || (N.leb 8192 c && N.leb c 8202).

(** What [String.prototype.trim] strips and what the class [\s] matches. *)
Definition isSpace (c : char16) : bool :=
  isWhiteSpace c || isLineTerminator c.

Definition isDigit (c : char16) : bool :=
  N.leb 48 c && N.leb c 57.

Fixpoint dropWhile (p : char16 -> bool) (s : jstring) : jstring :=
  match s with
  | [] => []
  | c :: s' => if p c then dropWhile p s' else s
  end.

(** [s.trim()] *)
Definition trim (s : jstring) : jstring :=
  rev (dropWhile isSpace (rev (dropWhile isSpace s))).

(** [s.substring(n)] *)
Definition substring_from (n : nat) (s : jstring) : jstring := skipn n s.

End Js.

Import Js.

(* ================================================================== *)
(** ** Regular expressions

    A backtracking matcher in continuation-passing style for the fragment
    of ECMAScript regular expressions the screens use: literals, classes,
    sequence, alternation, greedy and lazy [*], capture groups,
    backreferences and the multiline assertions [^] and [$]. *)

Module Regex.

Inductive Regex : Type :=
| RChar (c : char16)
| RSet (p : char16 -> bool)
| RSeq (r1 r2 : Regex)
| RAlt (r1 r2 : Regex)
| RStar (greedy : bool) (r : Regex)
| RGroup (n : nat) (r : Regex)
| RBackref (n : nat)
| RBol
| REol.

(** [r+] *)
Definition RPlus (r : Regex) : Regex := RSeq r (RStar true r).

(** A position inside the subject string during one match attempt: the
    code unit before the position, the code units from the position on,
    how many code units the attempt has consumed, and the captures. *)
Record MatchState : Type := mkMatchState {
  ms_prev : option char16;
  ms_rest : jstring;
  ms_len  : nat;
  ms_caps : list (nat * jstring)
}.

Fixpoint cap_get (n : nat) (caps : list (nat * jstring)) : option jstring :=
  match caps with
  | [] => None
  | (k, s) :: caps' => if Nat.eqb k n then Some s else cap_get n caps'
  end.

Definition step_char (st : MatchState) (p : char16 -> bool)
    (k : MatchState -> option MatchState) : option MatchState :=
  match ms_rest st with
  | c :: rest' =>
      if p c
      then k (mkMatchState (Some c) rest' (S (ms_len st)) (ms_caps st))
      else None
  | [] => None
  end.

(** Consume the code units of [w] if the subject continues with them. *)
Fixpoint step_word (w : jstring) (st : MatchState) : option MatchState :=
  match w with
  | [] => Some st
  | a :: w' =>
      match ms_rest st with
      | c :: rest' =>
          if char_eqb a c
          then step_word w'
                 (mkMatchState (Some c) rest' (S (ms_len st)) (ms_caps st))
          else None
      | [] => None
      end
  end.

Definition at_bol (st : MatchState) : bool :=
  match ms_prev st with
  | None => true
  | Some c => isLineTerminator c
  end.

Definition at_eol (st : MatchState) : bool :=
  match ms_rest st with
  | [] => true
  | c :: _ => isLineTerminator c
  end.

Definition orElse (a : option MatchState) (b : option MatchState)
  : option MatchState :=
  match a with
  | Some x => Some x
  | None => b
  end.

Fixpoint m (r : Regex) (k : MatchState -> option MatchState)
    (st : MatchState) {struct r} : option MatchState :=
  match r with
  | RChar c => step_char st (char_eqb c) k
  | RSet p => step_char st p k
  | RSeq r1 r2 => m r1 (m r2 k) st
  | RAlt r1 r2 => orElse (m r1 k st) (m r2 k st)
  | RStar greedy r1 =>
      (fix loop (fuel : nat) (st0 : MatchState) {struct fuel}
         : option MatchState :=
         match fuel with
         | O => k st0
         | S fuel' =>
             let again :=
               m r1 (fun st1 =>
                       if Nat.eqb (ms_len st1) (ms_len st0)
                       then None
                       else loop fuel' st1) st0 in
             if greedy
             then orElse again (k st0)
             else orElse (k st0) again
         end) (S (List.length (ms_rest st))) st
  | RGroup n r1 =>
      m r1 (fun st1 =>
              k (mkMatchState (ms_prev st1) (ms_rest st1) (ms_len st1)
                   ((n, firstn (ms_len st1 - ms_len st) (ms_rest st))
                      :: ms_caps st1))) st
  | RBackref n =>
      match cap_get n (ms_caps st) with
      | None => k st
      | Some w =>
          match step_word w st with
          | Some st1 => k st1
          | None => None
          end
      end
  | RBol => if at_bol st then k st else None
  | REol => if at_eol st then k st else None
  end.

(** One match attempt at the position described by [prev] and [rest]. *)
Definition match_here (r : Regex) (prev : option char16) (rest : jstring)
  : option MatchState :=
  m r (fun st => Some st) (mkMatchState prev rest 0 []).

(** A replacement template: literal text and [$n] references. *)
Inductive TemplatePart : Type :=
| TText (s : jstring)
| TGroup (n : nat).

Definition expand (t : list TemplatePart) (caps : list (nat * jstring))
  : jstring :=
  flat_map (fun p =>
              match p with
              | TText s => s
              | TGroup n =>
                  match cap_get n caps with
                  | Some s => s
                  | None => []
                  end
              end) t.

(** [s.replace(/r/g, t)]: scan the subject from left to right; where the
    expression matches, emit the expanded template and go on after the
    match (one code unit further when the match is empty); elsewhere copy
    one code unit. *)
Fixpoint replace_from (fuel : nat) (r : Regex) (t : list TemplatePart)
    (prev : option char16) (rest : jstring) {struct fuel} : jstring :=
  match fuel with
  | O => rest
  | S fuel' =>
      let copy_one :=
        match rest with
        | [] => []
        | c :: rest' => c :: replace_from fuel' r t (Some c) rest'
        end in
      match match_here r prev rest with
      | Some st =>
          expand t (ms_caps st) ++
          match ms_len st with
          | O => copy_one
          | S _ => replace_from fuel' r t (ms_prev st) (ms_rest st)
          end
      | None => copy_one
      end
  end.

Definition replace_global (r : Regex) (t : list TemplatePart)
    (s : jstring) : jstring :=
  replace_from (S (List.length s)) r t None s.

Definition dot : Regex := RSet (fun c => negb (isLineTerminator c)).
Definition space : Regex := RSet isSpace.
Definition digit : Regex := RSet isDigit.

End Regex.

Import Regex.

(* ================================================================== *)
(** ** JavaScript values, exceptions and HTTP responses *)

Module Value.

(** A value as [JSON.parse] produces it, or [undefined].  Numbers are
    binary64 floating-point numbers. *)
#[local] Unset Elimination Schemes.
Inductive JsValue : Type :=
| JsUndefined
| JsNull
| JsBool (b : bool)
| JsNumber (x : spec_float)
| JsString (s : jstring)
| JsArray (items : list JsValue)
| JsObject (props : list (jstring * JsValue)).
#[local] Set Elimination Schemes.

(** A thrown [Error] object: its [name] and its [message]. *)
Record JsError : Type := mkError {
  err_name : jstring;
  err_message : jstring
}.

Inductive Result (A : Type) : Type :=
| Ok (a : A)
| Throw (e : JsError).

Arguments Ok {A} a.
Arguments Throw {A} e.

Definition TypeError (msg : string) : JsError :=
  mkError (js "TypeError") (js msg).

(** [new Error(msg)] *)
Definition newError (msg : jstring) : JsError :=
  mkError (js "Error") msg.

(** ECMAScript ToBoolean. *)
Definition truthy (v : JsValue) : bool :=
  match v with
  | JsUndefined | JsNull => false
  | JsBool b => b
  | JsNumber (S754_zero _) | JsNumber S754_nan => false
  | JsNumber _ => true
  | JsString [] => false
  | JsString _ => true
  | JsArray _ | JsObject _ => true
  end.

Fixpoint lookup (name : jstring) (props : list (jstring * JsValue))
  : JsValue :=
  match props with
  | [] => JsUndefined
  | (k, v) :: props' =>
      if jstring_eqb k name then v else lookup name props'
  end.

(** [v.name] for the property names the screens read, none of which is
    defined on a prototype: reading from [undefined] or [null] throws,
    an object gives its own property, every other value [undefined]. *)
Definition get (v : JsValue) (name : string) : Result JsValue :=
  match v with
  | JsUndefined | JsNull => Throw (TypeError "Cannot read property")
  | JsObject props => Ok (lookup (js name) props)
  | _ => Ok JsUndefined
  end.

(** [a || b] *)
Definition or_else (a b : JsValue) : JsValue :=
  if truthy a then a else b.

(** [a === b] where [b] is a string literal. *)
Definition strict_eq_string (a : JsValue) (b : jstring) : bool :=
  match a with
  | JsString s => jstring_eqb s b
  | _ => false
  end.

(** [Array.isArray(v)] *)
Definition isArray (v : JsValue) : bool :=
  match v with
  | JsArray _ => true
  | _ => false
  end.

(** What a settled [fetch] gives: the status line, and what reading the
    body as text or as JSON gives. *)
Record Response : Type := mkResponse {
  status : nat;
  text : Result jstring;
  json : Result JsValue
}.

(** [response.ok] *)
Definition ok (r : Response) : bool :=
  Nat.leb 200 (status r) && Nat.leb (status r) 299.

End Value.

Import Value.

(* ================================================================== *)
(** ** Numbers and platform functions *)

Module Number.

Definition prec : Z := 53.
Definition emax : Z := 1024.

(** The binary64 number with value [m * 2 ^ e]. *)
Definition ofZ2 (m e : Z) : spec_float := binary_normalize prec emax m e false.

Definition ofZ (n : Z) : spec_float := ofZ2 n 0.

Definition mul (x y : spec_float) : spec_float := SFmul prec emax x y.

Definition add (x y : spec_float) : spec_float := SFadd prec emax x y.

(** [a < b] and [a > b] *)
Definition lt (a b : spec_float) : bool := SFltb a b.
Definition gt (a b : spec_float) : bool := SFltb b a.

(** [Math.floor] *)
Definition floor (x : spec_float) : spec_float :=
  match x with
  | S754_finite s m e =>
      if (0 <=? e)%Z then x
      else binary_normalize prec emax
             (cond_Zopp s (Zpos m) / 2 ^ (- e))%Z 0 s
  | _ => x
  end.

(** What [Math.random()] may return: a binary64 number in [[0, 1)]. *)
Definition isRandom (x : spec_float) : bool :=
  valid_binary prec emax x && SFleb (ofZ 0) x && SFltb x (ofZ 1).

(** [n.toString()] for a list length or an HTTP status. *)
Definition decimal (n : nat) : jstring :=
  js (NilZero.string_of_uint (Nat.to_uint n)).

End Number.

(** Functions of the JavaScript platform that are not modelled. *)
Record Platform : Type := mkPlatform {
  numberToString : spec_float -> jstring;
  encodeURIComponent : jstring -> Result jstring;
  decodeURIComponent : jstring -> Result jstring
}.

(* ================================================================== *)
(** ** Handlers

    What a handler does besides updating the screen state, and the monad
    handlers are written in: screen state, a log of actions, and
    exceptions with [try]/[catch]/[finally].  Console output is not
    modelled. *)

Module Handler.

Inductive Body : Type :=
| BodyJson (v : JsValue)
| BodyForm (fields : list (jstring * JsValue)).

(** What a timer started with [setTimeout] does when it fires. *)
Inductive Timer : Type :=
| AbortRequest
| ShowMockResult (mockResult : JsValue).

Inductive Action : Type :=
| ActFetch (url : jstring) (method : jstring) (body : option Body)
| ActAlert (title : jstring) (message : JsValue)
| ActSetTimeout (callback : Timer) (ms : N)
| ActClearTimeout
| ActAbort.

Definition isFetch (a : Action) : bool :=
  match a with ActFetch _ _ _ => true | _ => false end.

Definition isAlert (a : Action) : bool :=
  match a with ActAlert _ _ => true | _ => false end.

Definition isAbort (a : Action) : bool :=
  match a with ActAbort => true | _ => false end.

Definition isTimer (a : Action) : bool :=
  match a with ActSetTimeout _ _ => true | _ => false end.

Definition isPost (a : Action) : bool :=
  match a with
  | ActFetch _ method _ => jstring_eqb method (js "POST")
  | _ => false
  end.

Definition count (p : Action -> bool) (log : list Action) : nat :=
  List.length (filter p log).

Definition isClearTimeout (a : Action) : bool :=
  match a with ActClearTimeout => true | _ => false end.

Section Monad.

Variable S : Type.

Definition M (A : Type) : Type := S -> Result A * S * list Action.

Definition ret {A : Type} (a : A) : M A :=
  fun s => (Ok a, s, []).

Definition bind {A B : Type} (c : M A) (f : A -> M B) : M B :=
  fun s =>
    match c s with
    | (Ok a, s1, t1) =>
        match f a s1 with
        | (r, s2, t2) => (r, s2, t1 ++ t2)
        end
    | (Throw e, s1, t1) => (Throw e, s1, t1)
    end.

Definition throw {A : Type} (e : JsError) : M A :=
  fun s => (Throw e, s, []).

(** [await] of a promise that has settled with [r], or the use of a
    result that may be an exception. *)
Definition settle {A : Type} (r : Result A) : M A :=
  fun s => (r, s, []).

(** A state setter called with an updater function. *)
Definition update (f : S -> S) : M unit :=
  fun s => (Ok tt, f s, []).

Definition perform (a : Action) : M unit :=
  fun s => (Ok tt, s, [a]).

Definition tryCatch {A : Type} (c : M A) (h : JsError -> M A) : M A :=
  fun s =>
    match c s with
    | (Ok a, s1, t1) => (Ok a, s1, t1)
    | (Throw e, s1, t1) =>
        match h e s1 with
        | (r, s2, t2) => (r, s2, t1 ++ t2)
        end
    end.

Definition tryFinally {A : Type} (c : M A) (f : M unit) : M A :=
  fun s =>
    match c s with
    | (r, s1, t1) =>
        match f s1 with
        | (Ok _, s2, t2) => (r, s2, t1 ++ t2)
        | (Throw e, s2, t2) => (Throw e, s2, t1 ++ t2)
        end
    end.

Definition outcome {A : Type} (x : Result A * S * list Action) : Result A :=
  fst (fst x).

Definition final {A : Type} (x : Result A * S * list Action) : S :=
  snd (fst x).

Definition actions {A : Type} (x : Result A * S * list Action)
  : list Action :=
  snd x.

End Monad.

Arguments ret {S A} a.
Arguments bind {S A B} c f.
Arguments throw {S A} e.
Arguments settle {S A} r.
Arguments update {S} f.
Arguments perform {S} a.
Arguments tryCatch {S A} c h.
Arguments tryFinally {S A} c f.
Arguments outcome {S A} x.
Arguments final {S A} x.
Arguments actions {S A} x.

Declare Scope handler_scope.
Delimit Scope handler_scope with handler.

Notation "x <- c ;; k" := (bind c (fun x => k))
  (at level 61, c at next level, right associativity) : handler_scope.
Notation "c ;; k" := (bind c (fun _ => k))
  (at level 61, right associativity) : handler_scope.

End Handler.

Import Handler.
Local Open Scope handler_scope.

(* ================================================================== *)
(** ** ChatScreen.tsx *)

Module Chat.

Definition API_BASE_URL : jstring := js "http://10.0.2.2:5000".

(** [interface ChatMessage]; an optional flag left out of an object
    literal is [None]. *)
Module Msg.
Record ChatMessage : Type := mkChatMessage {
  id : nat;
  sender : jstring;
  message : JsValue;
  timestamp : jstring;
  isError : option bool;
  isWarning : option bool;
  isLoading : option bool;
  renderAsPlainText : option bool
}.
End Msg.

Definition ChatMessage : Type := Msg.ChatMessage.

(** Truthiness of an optional flag. *)
Definition flag (f : option bool) : bool :=
  match f with
  | Some true => true
  | _ => false
  end.

(** The [useState] cells of the screen. *)
Record State : Type := mkState {
  message : jstring;
  isLoading : bool;
  apiAvailable : bool;
  chatHistory : list ChatMessage
}.

Definition setMessage (v : jstring) : M State unit :=
  update (fun s => mkState v (isLoading s) (apiAvailable s) (chatHistory s)).

Definition setIsLoading (v : bool) : M State unit :=
  update (fun s => mkState (message s) v (apiAvailable s) (chatHistory s)).

Definition setApiAvailable (v : bool) : M State unit :=
  update (fun s => mkState (message s) (isLoading s) v (chatHistory s)).

Definition setChatHistory (f : list ChatMessage -> list ChatMessage)
  : M State unit :=
  update (fun s =>
            mkState (message s) (isLoading s) (apiAvailable s)
              (f (chatHistory s))).

Definition welcome (now : jstring) : ChatMessage :=
  Msg.mkChatMessage 1 (js "bot")
    (JsString (js "你好！我是你的健身助手，可以为你提供健身指导和建议。请问你需要什么帮助？"))
    now None None None None.

(** The state of the first render; [now] is the clock reading. *)
Definition initialState (now : jstring) : State :=
  mkState [] false true [welcome now].

(** *** checkApiStatus

    The effect runs once after the first render, so the [chatHistory] its
    closure reads is the history of that render, passed as [snapshot]. *)

Definition checkApiStatus_begin : M State unit :=
  perform (ActFetch (API_BASE_URL ++ js "/health") (js "GET") None).

Definition checkApiStatus_resume (snapshot : list ChatMessage)
    (fetched : Result Response) (now : jstring) : M State unit :=
  tryCatch
    (response <- settle fetched ;;
     data <- settle (json response) ;;
     agent_status <- settle (get data "agent_status") ;;
     setApiAvailable (strict_eq_string agent_status (js "available")) ;;
     if negb (strict_eq_string agent_status (js "available")) then
       let systemMessage :=
         Msg.mkChatMessage (List.length snapshot + 1) (js "bot")
           (JsString (js "⚠️ 注意：FitMirror Agent当前不可用，聊天功能受限。您仍然可以使用动作分析功能。"))
           now None (Some true) None None in
       setChatHistory (fun prev => prev ++ [systemMessage])
     else ret tt)
    (fun error =>
       setApiAvailable false ;;
       let errorMessage :=
         Msg.mkChatMessage (List.length snapshot + 1) (js "bot")
           (JsString (js "⚠️ 无法连接到FitMirror服务器，请确保服务器已启动并且网络连接正常。聊天功能暂时不可用，但您可以尝试使用动作分析功能。"))
           now (Some true) None None None in
       setChatHistory (fun prev => prev ++ [errorMessage]) ;;
       perform (ActAlert (js "连接失败")
                  (JsString (js "无法连接到FitMirror服务器，请确保服务器已启动并且网络连接正常。")))).

(** *** sendMessage

    [closure] is the render whose [sendMessage] is invoked: the handler
    reads [message], [apiAvailable] and [chatHistory.length] from it.  The
    part up to [await fetch] returns the [tempId] the rest of the handler
    keeps, or [None] when the handler has returned early. *)

Definition userMessageOf (closure : State) : jstring :=
  trim (message closure).

Definition newMessage (closure : State) (now : jstring) : ChatMessage :=
  Msg.mkChatMessage (List.length (chatHistory closure) + 1) (js "user")
    (JsString (userMessageOf closure)) now None None None None.

Definition loadingMessage (tempId : nat) (now : jstring) : ChatMessage :=
  Msg.mkChatMessage tempId (js "bot") (JsString (js "正在思考..."))
    now None None (Some true) None.

Definition sendMessage_begin (closure : State) (now1 now2 : jstring)
  : M State (option nat) :=
  if jstring_eqb (trim (message closure)) (js "") then ret None
  else if negb (apiAvailable closure) then
    perform (ActAlert (js "服务不可用")
               (JsString (js "FitMirror服务器当前不可用，请稍后再试。"))) ;;
    ret None
  else
    setChatHistory (fun prev => prev ++ [newMessage closure now1]) ;;
    setMessage (js "") ;;
    let tempId := List.length (chatHistory closure) + 2 in
    setChatHistory (fun prev => prev ++ [loadingMessage tempId now2]) ;;
    setIsLoading true ;;
    perform (ActFetch (API_BASE_URL ++ js "/chat") (js "POST")
               (Some (BodyJson
                        (JsObject
                           [(js "message",
                             JsString (userMessageOf closure))])))) ;;
    ret (Some tempId).

(** The pattern "/[*_#`]/g". *)
Definition markdownChars : Regex :=
  RSet (fun c => existsb (char_eqb c) (js "*_#`")).

(** [errorMessage.replace(/[*_#`]/g, '')]; only a string has a [replace]
    method. *)
Definition sanitize (errorMessage : JsValue) : Result jstring :=
  match errorMessage with
  | JsString s => Ok (replace_global markdownChars [] s)
  | _ => Throw (TypeError "errorMessage.replace is not a function")
  end.

Definition botReply (tempId : nat) (text : JsValue) (now : jstring)
  : ChatMessage :=
  Msg.mkChatMessage tempId (js "bot") text now None None None None.

Definition errorReply (tempId : nat) (sanitizedErrorMessage : jstring)
    (now : jstring) : ChatMessage :=
  Msg.mkChatMessage tempId (js "bot")
    (JsString (js "抱歉，处理您的请求时出现问题: " ++ sanitizedErrorMessage))
    now (Some true) None None (Some true).

Definition connectionErrorReply (tempId : nat) (now : jstring)
  : ChatMessage :=
  Msg.mkChatMessage tempId (js "bot")
    (JsString (js "抱歉，连接服务器时出现问题，请检查网络连接或稍后再试。"))
    now (Some true) None None (Some true).

Definition removeLoading (tempId : nat) : M State unit :=
  setChatHistory
    (fun prev => filter (fun msg => negb (Nat.eqb (Msg.id msg) tempId)) prev).

Definition sendMessage_resume (tempId : nat) (fetched : Result Response)
    (now : jstring) : M State unit :=
  tryFinally
    (tryCatch
       (response <- settle fetched ;;
        data <- settle (json response) ;;
        removeLoading tempId ;;
        success <- settle (get data "success") ;;
        if truthy success then
          text <- settle (get data "message") ;;
          setChatHistory (fun prev => prev ++ [botReply tempId text now])
        else
          text <- settle (get data "message") ;;
          let errorMessage := or_else text (JsString (js "未知错误")) in
          sanitizedErrorMessage <- settle (sanitize errorMessage) ;;
          setChatHistory
            (fun prev =>
               prev ++ [errorReply tempId sanitizedErrorMessage now]))
       (fun error =>
          removeLoading tempId ;;
          setChatHistory
            (fun prev => prev ++ [connectionErrorReply tempId now])))
    (setIsLoading false).

(** The whole handler when nothing else runs while it awaits. *)
Definition sendMessage (closure : State) (now1 now2 : jstring)
    (fetched : Result Response) (now3 : jstring) : M State unit :=
  pending <- sendMessage_begin closure now1 now2 ;;
  match pending with
  | Some tempId => sendMessage_resume tempId fetched now3
  | None => ret tt
  end.

(** *** Rendering of one message *)

(** The pattern "/(\*\*|__)(.*?)\1/g". *)
Definition boldPattern : Regex :=
  RSeq (RGroup 1 (RAlt (RSeq (RChar 42%N) (RChar 42%N))
                       (RSeq (RChar 95%N) (RChar 95%N))))
    (RSeq (RGroup 2 (RStar false dot)) (RBackref 1)).

(** The pattern "/(\*|_)(.*?)\1/g". *)
Definition italicPattern : Regex :=
  RSeq (RGroup 1 (RAlt (RChar 42%N) (RChar 95%N)))
    (RSeq (RGroup 2 (RStar false dot)) (RBackref 1)).

(** The heading pattern, flags [g] and [m]: [^], group 1 [#+], [\s+],
    group 2 a greedy run of [.], [$]. *)
Definition headingPattern : Regex :=
  RSeq RBol
    (RSeq (RGroup 1 (RPlus (RChar 35%N)))
       (RSeq (RPlus space) (RSeq (RGroup 2 (RStar true dot)) REol))).

(** The list-item pattern, flags [g] and [m]: [^], one of [-], [*], [+],
    [\s+], group 1 a greedy run of [.], [$]. *)
Definition bulletPattern : Regex :=
  RSeq RBol
    (RSeq (RSet (fun c => existsb (char_eqb c) (js "-*+")))
       (RSeq (RPlus space) (RSeq (RGroup 1 (RStar true dot)) REol))).

(** The numbered-item pattern, flags [g] and [m]: [^], group 1 [\d+], a
    dot, [\s+], group 2 a greedy run of [.], [$]. *)
Definition orderedPattern : Regex :=
  RSeq RBol
    (RSeq (RGroup 1 (RPlus digit))
       (RSeq (RChar 46%N)
          (RSeq (RPlus space) (RSeq (RGroup 2 (RStar true dot)) REol)))).

(** The chain of [replace] calls inside the message [Text]. *)
Definition stripMarkdown (s : jstring) : jstring :=
  replace_global orderedPattern [TGroup 1; TText (js ". "); TGroup 2]
    (replace_global bulletPattern [TText (js "• "); TGroup 1]
       (replace_global headingPattern [TGroup 2]
          (replace_global italicPattern [TGroup 2]
             (replace_global boldPattern [TGroup 2] s)))).

(** What the bubble of a message shows: a spinner next to the message,
    or the message after the replacements. *)
Inductive Bubble : Type :=
| Spinner (child : JsValue)
| Plain (text : jstring).

Definition renderMessage (chat : ChatMessage) : Result Bubble :=
  if flag (Msg.isLoading chat) then Ok (Spinner (Msg.message chat))
  else
    match Msg.message chat with
    | JsString s => Ok (Plain (stripMarkdown s))
    | _ => Throw (TypeError "chat.message.replace is not a function")
    end.

(** *** The screen as a transition system

    Between two renders the user edits the input or presses send, a
    pending [/chat] request settles, or the health check settles. *)

Record Screen : Type := mkScreen {
  state : State;
  pending : list nat;
  healthPending : bool
}.

Definition mount (now : jstring) : Screen :=
  mkScreen (final (checkApiStatus_begin (initialState now))) []
    true.

Inductive step (now0 : jstring) : Screen -> Screen -> Prop :=
| step_edit : forall sc text,
    step now0 sc
      (mkScreen (final (setMessage text (state sc))) (pending sc)
         (healthPending sc))
| step_send : forall sc now1 now2,
    step now0 sc
      (let run := sendMessage_begin (state sc) now1 now2 (state sc) in
       mkScreen (final run)
         (match outcome run with
          | Ok (Some tempId) => tempId :: pending sc
          | _ => pending sc
          end)
         (healthPending sc))
| step_reply : forall sc tempId fetched now,
    In tempId (pending sc) ->
    step now0 sc
      (mkScreen (final (sendMessage_resume tempId fetched now (state sc)))
         (remove Nat.eq_dec tempId (pending sc))
         (healthPending sc))
| step_health : forall sc fetched now,
    healthPending sc = true ->
    step now0 sc
      (mkScreen
         (final (checkApiStatus_resume (chatHistory (initialState now0))
                   fetched now (state sc)))
         (pending sc) false).

Inductive reachable (now0 : jstring) : Screen -> Prop :=
| reach_mount : reachable now0 (mount now0)
| reach_step : forall sc sc',
    reachable now0 sc -> step now0 sc sc' -> reachable now0 sc'.

Definition errorCount (h : list ChatMessage) : nat :=
  List.length (filter (fun msg => flag (Msg.isError msg)) h).

Definition ids (h : list ChatMessage) : list nat := map Msg.id h.

End Chat.

(* ================================================================== *)
(** ** WorkoutsScreen.tsx *)

Module Workouts.

Definition API_BASE_URL : jstring := js "http://10.38.86.85:5000".

(** How the race between the timeout of [apiRequest] and its [fetch]
    ends. *)
Inductive Settled : Type :=
| TimerFires
| Fetched (r : Result Response).

(** The exception a [fetch] rejects with once its signal is aborted. *)
Definition AbortError : JsError :=
  mkError (js "AbortError") (js "Aborted").

(** [new Error('请求超时，请检查网络连接或服务器状态')] *)
Definition timeoutError : JsError :=
  newError (js "请求超时，请检查网络连接或服务器状态").

(** [apiRequest(endpoint, method, data, timeout)].  Request headers are
    left out of the logged [fetch]. *)
Definition apiRequest {S : Type} (endpoint method : jstring)
    (data : option Body) (timeout : N) (net : Settled) : M S JsValue :=
  perform (ActSetTimeout AbortRequest timeout) ;;
  tryCatch
    (perform (ActFetch (API_BASE_URL ++ endpoint) method data) ;;
     response <- match net with
                 | TimerFires => perform ActAbort ;; throw AbortError
                 | Fetched r => settle r
                 end ;;
     perform ActClearTimeout ;;
     if negb (ok response) then
       errorText <- settle (text response) ;;
       throw (newError (js "API错误 (" ++ Number.decimal (status response)
                          ++ js "): " ++ errorText))
     else settle (json response))
    (fun error =>
       perform ActClearTimeout ;;
       if jstring_eqb (err_name error) (js "AbortError")
       then throw timeoutError
       else throw error).

Fixpoint assoc {A : Type} (key : jstring) (table : list (jstring * A))
  : option A :=
  match table with
  | [] => None
  | (k, v) :: table' => if jstring_eqb k key then Some v else assoc key table'
  end.

Definition EXERCISE_NAMES : list (jstring * jstring) :=
  [ (js "squat", js "深蹲");
    (js "pushup", js "俯卧撑");
    (js "situp", js "仰卧起坐");
    (js "crunch", js "卷腹");
    (js "jumping_jack", js "开合跳");
    (js "plank", js "平板支撑") ].

Definition TEST_VIDEOS : list (jstring * jstring) :=
  [ (js "squat",
     js "https://storage.googleapis.com/gtv-videos-bucket/sample/ForBiggerBlazes.mp4");
    (js "pushup",
     js "https://storage.googleapis.com/gtv-videos-bucket/sample/ForBiggerEscapes.mp4");
    (js "situp",
     js "https://storage.googleapis.com/gtv-videos-bucket/sample/ForBiggerFun.mp4");
    (js "jumping_jack",
     js "https://storage.googleapis.com/gtv-videos-bucket/sample/ForBiggerJoyrides.mp4");
    (js "plank",
     js "https://storage.googleapis.com/gtv-videos-bucket/sample/ForBiggerMeltdowns.mp4") ].

(** [EXERCISE_NAMES[t] || t] *)
Definition exerciseName (t : jstring) : jstring :=
  match assoc t EXERCISE_NAMES with
  | Some (c :: n) => c :: n
  | _ => t
  end.

(** The [useState] cells of the screen. *)
Record State : Type := mkState {
  openWorkout : option jstring;
  isLoading : bool;
  modalVisible : bool;
  selectedExercise : jstring;
  analysisResult : JsValue;
  showResult : bool;
  reportHtml : option jstring;
  showReportModal : bool
}.

Definition initialState : State :=
  mkState None false false (js "squat") JsNull false None false.

Definition setIsLoading (v : bool) : M State unit :=
  update (fun s =>
            mkState (openWorkout s) v (modalVisible s) (selectedExercise s)
              (analysisResult s) (showResult s) (reportHtml s)
              (showReportModal s)).

Definition setModalVisible (v : bool) : M State unit :=
  update (fun s =>
            mkState (openWorkout s) (isLoading s) v (selectedExercise s)
              (analysisResult s) (showResult s) (reportHtml s)
              (showReportModal s)).

Definition setAnalysisResult (v : JsValue) : M State unit :=
  update (fun s =>
            mkState (openWorkout s) (isLoading s) (modalVisible s)
              (selectedExercise s) v (showResult s) (reportHtml s)
              (showReportModal s)).

Definition setShowResult (v : bool) : M State unit :=
  update (fun s =>
            mkState (openWorkout s) (isLoading s) (modalVisible s)
              (selectedExercise s) (analysisResult s) v (reportHtml s)
              (showReportModal s)).

Definition setReportHtml (v : option jstring) : M State unit :=
  update (fun s =>
            mkState (openWorkout s) (isLoading s) (modalVisible s)
              (selectedExercise s) (analysisResult s) (showResult s) v
              (showReportModal s)).

Definition setShowReportModal (v : bool) : M State unit :=
  update (fun s =>
            mkState (openWorkout s) (isLoading s) (modalVisible s)
              (selectedExercise s) (analysisResult s) (showResult s)
              (reportHtml s) v).

(** [error.message || fallback] *)
Definition messageOr (error : JsError) (fallback : jstring) : jstring :=
  match err_message error with
  | [] => fallback
  | c :: m => c :: m
  end.

Section WithPlatform.

Variable platform : Platform.

(** ECMAScript ToString, as a template literal applies it. *)
Fixpoint toString (v : JsValue) : jstring :=
  match v with
  | JsUndefined => js "undefined"
  | JsNull => js "null"
  | JsBool true => js "true"
  | JsBool false => js "false"
  | JsNumber x => numberToString platform x
  | JsString s => s
  | JsArray items =>
      (fix join (l : list JsValue) : jstring :=
         match l with
         | [] => []
         | x :: l' =>
             match x with
             | JsUndefined | JsNull => []
             | _ => toString x
             end ++
             match l' with
             | [] => []
             | _ :: _ => js "," ++ join l'
             end
         end) items
  | JsObject _ => js "[object Object]"
  end.

(** *** checkServerHealth *)

Definition checkServerHealth (net : Settled) : M State unit :=
  tryCatch
    (response <- apiRequest (js "/health") (js "GET") None 30000%N net ;;
     agent_status <- settle (get response "agent_status") ;;
     if negb (strict_eq_string agent_status (js "available")) then
       perform (ActAlert (js "服务器警告")
                  (JsString (js "动作分析功能可能不可用，请联系管理员检查服务器状态。")))
     else ret tt)
    (fun error =>
       perform (ActAlert (js "连接错误")
                  (JsString (js "无法连接到服务器 (" ++ API_BASE_URL
                               ++ js ")，动作分析功能将不可用。请检查网络连接或服务器状态。")))).

(** *** uploadVideo

    [closure] is the render whose handler runs; [fileInfo] is what
    [FileSystem.getInfoAsync] gives, [net] how the analysis request ends
    and [reportFetched] how the request for the report ends. *)

Definition videoForm (uri name exercise : jstring) : Body :=
  BodyForm
    [ (js "video",
       JsObject [ (js "uri", JsString uri);
                  (js "name", JsString name);
                  (js "type", JsString (js "video/mp4")) ]);
      (js "exercise_type", JsString exercise) ].

Definition loadReport (data : JsValue) (reportFetched : Result Response)
  : M State unit :=
  report_url <- settle (get data "report_url") ;;
  if truthy report_url then
    tryCatch
      (perform (ActFetch (toString report_url) (js "GET") None) ;;
       reportResponse <- settle reportFetched ;;
       if ok reportResponse then
         htmlContent <- settle (text reportResponse) ;;
         setReportHtml (Some htmlContent)
       else
         setReportHtml
           (Some (js "<html><body><h1>加载报告失败</h1><p>无法从 "
                    ++ toString report_url
                    ++ js " 加载报告内容。状态码: "
                    ++ Number.decimal (status reportResponse)
                    ++ js "</p></body></html>")))
      (fun reportError =>
         setReportHtml
           (Some (js "<html><body><h1>加载报告出错</h1><p>尝试从 "
                    ++ toString report_url
                    ++ js " 加载报告时发生错误: "
                    ++ err_message reportError
                    ++ js "</p></body></html>")))
  else
    report_path <- settle (get data "report_path") ;;
    if truthy report_path then
      setReportHtml
        (Some (js "<html><body><h1>报告已生成 (本地路径)</h1><p>报告文件位于服务器路径: "
                 ++ toString report_path
                 ++ js "</p><p>请联系管理员配置服务器以通过URL访问此报告，或在后续版本中实现应用内查看功能。</p></body></html>"))
    else ret tt.

Definition uploadVideo (closure : State) (videoUri : jstring)
    (fileInfo : Result bool) (net : Settled)
    (reportFetched : Result Response) : M State unit :=
  setIsLoading true ;;
  setModalVisible false ;;
  setReportHtml None ;;
  setShowReportModal false ;;
  tryFinally
    (tryCatch
       (exists_ <- settle fileInfo ;;
        (if negb exists_ then throw (newError (js "文件不存在"))
         else ret tt) ;;
        let formData :=
          videoForm videoUri (js "video.mp4") (selectedExercise closure) in
        data <- apiRequest (js "/analyze-exercise") (js "POST")
                  (Some formData) 120000%N net ;;
        success <- settle (get data "success") ;;
        if truthy success then
          setAnalysisResult data ;;
          setShowResult true ;;
          loadReport data reportFetched
        else
          text <- settle (get data "message") ;;
          perform (ActAlert (js "分析失败")
                     (or_else text (JsString (js "未知错误")))))
       (fun error =>
          perform (ActAlert (js "错误")
                     (JsString
                        (messageOr error
                           (js "上传或分析视频时出错，请检查网络连接和服务器状态"))))))
    (setIsLoading false).

(** *** simulateAnalysisResult

    [rnd i] is what the call number [i] of [Math.random()] returns. *)

Definition possibleErrors : list (jstring * list jstring) :=
  [ (js "squat", [js "膝盖内扣"; js "重心过于靠前"; js "下蹲不够深"]);
    (js "pushup", [js "肩部下沉"; js "臀部抬高"; js "手肘角度不正确"]);
    (js "situp", [js "躯干扭转"; js "头部前屈"; js "动作不完整"]);
    (js "jumping_jack", [js "动作不对称"; js "膝盖弯曲"; js "手臂抬起不够高"]);
    (js "plank", [js "臀部抬高"; js "肩部下沉"; js "身体不平直"]) ].

(** [Math.floor(Math.random() * n) + k] *)
Definition randomInt (r : spec_float) (n k : Z) : spec_float :=
  Number.add (Number.floor (Number.mul r (Number.ofZ n))) (Number.ofZ k).

(** The loop that pushes onto [mockResult.errors_detected]; [i] is the
    loop counter, [errors] the names from index [i] on. *)
Fixpoint pushErrors (rnd : nat -> spec_float) (numErrors : spec_float)
    (i : nat) (errors : list jstring) : list JsValue :=
  match errors with
  | [] => []
  | e :: errors' =>
      if Number.lt (Number.ofZ (Z.of_nat i)) numErrors then
        JsObject
          [ (js "type", JsString e);
            (js "count", JsNumber (randomInt (rnd (3 + 2 * i)) 5 1));
            (js "first_timestamp",
             JsNumber (Number.mul (rnd (4 + 2 * i)) (Number.ofZ 10))) ]
          :: pushErrors rnd numErrors (S i) errors'
      else []
  end.

Definition errors_detected (exerciseType : jstring)
    (rnd : nat -> spec_float) : list JsValue :=
  if Number.gt (rnd 1) (Number.ofZ2 1 (-1)) then
    match assoc exerciseType possibleErrors with
    | Some (e :: errors') =>
        pushErrors rnd (randomInt (rnd 2) 2 1) 0 (e :: errors')
    | _ => []
    end
  else [].

Definition quote : jstring := [34%N].

Definition errorItem (err : JsValue) : jstring :=
  js "<li>"
  ++ toString (match get err "type" with Ok v => v | Throw _ => JsUndefined end)
  ++ js " (出现 "
  ++ toString (match get err "count" with Ok v => v | Throw _ => JsUndefined end)
  ++ js " 次)</li>".

Definition simulatedHtml (exerciseType : jstring) (errors : list JsValue)
  : jstring :=
  js "<html><head><meta name=" ++ quote ++ js "viewport" ++ quote
  ++ js " content=" ++ quote
  ++ js "width=device-width, initial-scale=1.0" ++ quote
  ++ js "><style>body{font-family: sans-serif; padding: 15px;} h1{color: #333;} h2{color:#555;} ul{list-style-type: none; padding-left:0;} li{background-color:#f0f0f0; margin-bottom:5px; padding:8px; border-radius:4px;}</style></head><body><h1>模拟报告 ("
  ++ exerciseName exerciseType
  ++ js ")</h1><p>这是模拟生成的分析报告。</p><h2>检测到的问题:</h2>"
  ++ match errors with
     | [] => js "<p>动作标准，未检测到明显问题！</p>"
     | _ :: _ => js "<ul>" ++ flat_map errorItem errors ++ js "</ul>"
     end
  ++ js "</body></html>".

(** [mockResult] as it is when the timer is started. *)
Definition mockResult (exerciseType : jstring) (rnd : nat -> spec_float)
    (report_url : jstring) : JsValue :=
  JsObject
    [ (js "success", JsBool true);
      (js "message", JsString (js "分析完成，这是模拟数据。"));
      (js "exercise_type", JsString exerciseType);
      (js "counter", JsNumber (randomInt (rnd 0) 10 5));
      (js "processed_frames", JsNumber (Number.ofZ 300));
      (js "errors_detected", JsArray (errors_detected exerciseType rnd));
      (js "report_url", JsString report_url) ].

Definition simulateAnalysisResult (exerciseType : jstring)
    (rnd : nat -> spec_float) : M State unit :=
  setModalVisible false ;;
  setIsLoading true ;;
  setReportHtml None ;;
  setShowReportModal false ;;
  let html := simulatedHtml exerciseType (errors_detected exerciseType rnd) in
  encoded <- settle (encodeURIComponent platform html) ;;
  let report_url := js "data:text/html," ++ encoded in
  (match report_url with
   | _ :: _ =>
       decoded <- settle (decodeURIComponent platform
                            (substring_from
                               (List.length (js "data:text/html,"))
                               report_url)) ;;
       setReportHtml (Some decoded)
   | [] => ret tt
   end) ;;
  perform (ActSetTimeout
             (ShowMockResult (mockResult exerciseType rnd report_url))
             1500%N).

(** What a timer does when it fires. *)
Definition runTimer (t : Timer) : M State unit :=
  match t with
  | AbortRequest => perform ActAbort
  | ShowMockResult mock =>
      setAnalysisResult mock ;;
      setShowResult true ;;
      setIsLoading false
  end.

(** *** useTestVideo

    Each of the three calls of [simulateAnalysisResult] has its own
    sequence of random draws. *)

Definition useTestVideo (exerciseType : jstring) (net : Settled)
    (rnd1 rnd2 rnd3 : nat -> spec_float) : M State unit :=
  setModalVisible false ;;
  setIsLoading true ;;
  tryFinally
    (tryCatch
       (match assoc exerciseType TEST_VIDEOS with
        | None => simulateAnalysisResult exerciseType rnd1
        | Some videoUrl =>
            let formData :=
              videoForm videoUrl (exerciseType ++ js "_test.mp4")
                exerciseType in
            tryCatch
              (data <- apiRequest (js "/analyze-exercise") (js "POST")
                         (Some formData) 60000%N net ;;
               success <- settle (get data "success") ;;
               if truthy success then
                 setAnalysisResult data ;;
                 setShowResult true
               else simulateAnalysisResult exerciseType rnd1)
              (fun error => simulateAnalysisResult exerciseType rnd2)
        end)
       (fun error =>
          perform (ActAlert (js "错误")
                     (JsString (js "测试视频处理失败: " ++ err_message error))) ;;
          simulateAnalysisResult exerciseType rnd3))
    (setIsLoading false).

End WithPlatform.

(** *** The report button of the result panel *)

Definition htmlLoaded (html : option jstring) : bool :=
  match html with
  | Some (_ :: _) => true
  | _ => false
  end.

(** Whether the panel with the analysis result is rendered. *)
Definition resultPanelRendered (s : State) : bool :=
  showResult s && truthy (analysisResult s).

(** Whether the button labelled "查看分析报告" is rendered; reading a
    property of the result cannot throw where the panel is rendered. *)
Definition reportButtonRendered (s : State) : bool :=
  resultPanelRendered s &&
  match get (analysisResult s) "report_path",
        get (analysisResult s) "report_url" with
  | Ok report_path, Ok report_url =>
      truthy (or_else report_path report_url) && htmlLoaded (reportHtml s)
  | _, _ => false
  end.

(** *** The cards, the picker and the report modal *)

Definition setOpenWorkout (v : option jstring) : M State unit :=
  update (fun s =>
            mkState v (isLoading s) (modalVisible s) (selectedExercise s)
              (analysisResult s) (showResult s) (reportHtml s)
              (showReportModal s)).

Definition setSelectedExercise (v : jstring) : M State unit :=
  update (fun s =>
            mkState (openWorkout s) (isLoading s) (modalVisible s) v
              (analysisResult s) (showResult s) (reportHtml s)
              (showReportModal s)).

(** [toggleWorkout(workout)]; [closure] is the render whose handler
    runs. *)
Definition toggleWorkout (closure : State) (workout : jstring)
  : M State unit :=
  if match openWorkout closure with
     | Some w => jstring_eqb w workout
     | None => false
     end
  then setOpenWorkout None
  else setOpenWorkout (Some workout).

(** [openAnalysisModal(exercise)] *)
Definition openAnalysisModal (exercise : jstring) : M State unit :=
  setSelectedExercise exercise ;;
  setModalVisible true.




(** What the image picker or the camera resolves with; an asset is
    given by its [uri]. *)
Record PickerResult : Type := mkPickerResult {
  canceled : bool;
  assets : option (list jstring)
}.

Section Picker.

Variable platform : Platform.

(** The body shared by [pickVideo] and [recordVideo]; they differ in the
    text of the alert.  [uploadVideo] is called without [await]; it runs
    here to its end. *)
Definition withPickedVideo (failure : jstring) (closure : State)
    (picked : Result PickerResult) (fileInfo : Result bool)
    (net : Settled) (reportFetched : Result Response) : M State unit :=
  tryCatch
    (result <- settle picked ;;
     if negb (canceled result) then
       match assets result with
       | Some (videoUri :: _) =>
           uploadVideo platform closure videoUri fileInfo net reportFetched
       | _ => ret tt
       end
     else ret tt)
    (fun error => perform (ActAlert (js "错误") (JsString failure))).

Definition pickVideo : State -> Result PickerResult -> Result bool ->
                       Settled -> Result Response -> M State unit :=
  withPickedVideo (js "选择视频时出错").

Definition recordVideo : State -> Result PickerResult -> Result bool ->
                         Settled -> Result Response -> M State unit :=
  withPickedVideo (js "录制视频时出错").

End Picker.

(** The handler of the button labelled "查看分析报告". *)
Definition viewReport (closure : State) : M State unit :=
  if htmlLoaded (reportHtml closure) then setShowReportModal true
  else perform (ActAlert (js "报告不可用")
                  (JsString (js "分析报告内容尚未加载或无法加载。"))).

(** [handleWebViewError]; [description] is [nativeEvent.description]. *)
Definition handleWebViewError (description : option jstring)
  : M State unit :=
  perform (ActAlert (js "加载报告出错")
             (JsString (js "无法显示分析报告内容. "
                          ++ match description with
                             | Some d => d
                             | None => []
                             end))) ;;
  setShowReportModal false.

(** Whether the modal with the report is rendered. *)
Definition reportModalRendered (s : State) : bool :=
  truthy (analysisResult s) && htmlLoaded (reportHtml s)
  && showReportModal s.

End Workouts.

(* ================================================================== *)
(** ** ProfileScreen.tsx *)

Module Profile.

Definition API_BASE_URL : jstring := js "http://10.38.86.85:5000".

(** The [useState] cells of the screen.  The elements of [reports] are
    whatever the response body holds. *)
Record State : Type := mkState {
  reports : list JsValue;
  loading : bool;
  isReportModalVisible : bool;
  currentReportUrl : JsValue;
  isWebViewLoading : bool
}.

Definition initialState : State :=
  mkState [] true false JsNull false.

Definition setReports (v : list JsValue) : M State unit :=
  update (fun s =>
            mkState v (loading s) (isReportModalVisible s)
              (currentReportUrl s) (isWebViewLoading s)).

Definition setLoading (v : bool) : M State unit :=
  update (fun s =>
            mkState (reports s) v (isReportModalVisible s)
              (currentReportUrl s) (isWebViewLoading s)).

Definition setIsReportModalVisible (v : bool) : M State unit :=
  update (fun s =>
            mkState (reports s) (loading s) v (currentReportUrl s)
              (isWebViewLoading s)).

Definition setCurrentReportUrl (v : JsValue) : M State unit :=
  update (fun s =>
            mkState (reports s) (loading s) (isReportModalVisible s) v
              (isWebViewLoading s)).

(** *** fetchReports *)

Definition fetchReports (fetched : Result Response) : M State unit :=
  setLoading true ;;
  tryFinally
    (tryCatch
       (perform (ActFetch (API_BASE_URL ++ js "/get-analysis-reports")
                   (js "GET") None) ;;
        response <- settle fetched ;;
        (if negb (ok response) then
           errorText <- settle (text response) ;;
           throw (newError (js "HTTP error! status: "
                              ++ Number.decimal (status response)))
         else ret tt) ;;
        responseData <- settle (json response) ;;
        if truthy responseData then
          success <- settle (get responseData "success") ;;
          if truthy success then
            list <- settle (get responseData "reports") ;;
            match list with
            | JsArray items => setReports items
            | _ => setReports []
            end
          else setReports []
        else setReports [])
       (fun error => setReports []))
    (setLoading false).

(** *** handleReportItemPress *)

Definition handleReportItemPress (report : JsValue) : M State unit :=
  filename <- settle (get report "filename") ;;
  report_url <- settle (get report "report_url") ;;
  if truthy report_url then
    setCurrentReportUrl report_url ;;
    setIsReportModalVisible true
  else
    perform (ActAlert (js "无法打开报告")
               (JsString (js "此报告没有可用的URL。"))).

(** Whether the modal with the report is on screen. *)
Definition reportModalShown (s : State) : bool :=
  truthy (currentReportUrl s) && isReportModalVisible s.

(** In the words of the interface: the request succeeded when the
    response has a 2xx status and its body is an object with a true
    [success] and an array [reports]; this is that array. *)
Definition fetchedReports (fetched : Result Response)
  : option (list JsValue) :=
  match fetched with
  | Ok response =>
      if ok response then
        match json response with
        | Ok (JsObject props) =>
            if truthy (lookup (js "success") props) then
              match lookup (js "reports") props with
              | JsArray items => Some items
              | _ => None
              end
            else None
        | _ => None
        end
      else None
  | Throw _ => None
  end.

(** The handler of the close button of the report modal and of
    [onRequestClose]. *)
Definition closeReport : M State unit :=
  setIsReportModalVisible false ;;
  setCurrentReportUrl JsNull.




End Profile.

(* ================================================================== *)
(** ** Vocabulary of the properties *)

Module Props.

(** Every match of [r] starts by consuming a code unit that satisfies
    [p]. *)
Fixpoint leads (p : char16 -> bool) (r : Regex) : Prop :=
  match r with
  | RChar c => p c = true
  | RSet q => forall c, q c = true -> p c = true
  | RSeq r1 r2 => leads p r1 \/ (r1 = RBol /\ leads p r2)
  | RAlt r1 r2 => leads p r1 /\ leads p r2
  | RGroup _ r1 => leads p r1
  | RStar _ _ | RBackref _ | RBol | REol => False
  end.

(** The characters the sanitizer of error messages removes. *)
Definition isMarkdownChar (c : char16) : bool :=
  existsb (char_eqb c) (js "*_#`").

(** The code units one of the replacements of the message [Text] can
    start at: the markers of emphasis, headings and list items, and
    digits. *)
Definition startsMarkup (c : char16) : bool :=
  existsb (char_eqb c) (js "*_#-+") || isDigit c.

Definition noMarkup (s : jstring) : bool :=
  forallb (fun c => negb (startsMarkup c)) s.

(** The request of [sendMessage] failed before a body was parsed: the
    [fetch] rejected, or reading the body as JSON threw. *)
Definition fetchThrows (fetched : Result Response) : bool :=
  match fetched with
  | Throw _ => true
  | Ok response =>
      match json response with
      | Throw _ => true
      | Ok _ => false
      end
  end.

(** A request made through [apiRequest] failed: the timeout elapsed, the
    [fetch] rejected, the status is not 2xx, or the body is not JSON. *)
Definition requestFails (net : Workouts.Settled) : bool :=
  match net with
  | Workouts.TimerFires => true
  | Workouts.Fetched (Throw _) => true
  | Workouts.Fetched (Ok response) =>
      negb (ok response) ||
      match json response with
      | Throw _ => true
      | Ok _ => false
      end
  end.

(** The analysis request of [useTestVideo] gave a body with a true
    [success]. *)
Definition analysisSucceeds (net : Workouts.Settled) : bool :=
  match net with
  | Workouts.Fetched (Ok response) =>
      ok response &&
      match json response with
      | Ok data =>
          match get data "success" with
          | Ok v => truthy v
          | Throw _ => false
          end
      | Throw _ => false
      end
  | _ => false
  end.

(** The platform encodes the report of the mock result as a URI
    component and decodes it again. *)
Definition reportEncodes (platform : Platform) (exerciseType : jstring)
    (rnd : nat -> spec_float) : Prop :=
  exists encoded decoded,
    encodeURIComponent platform
      (Workouts.simulatedHtml platform exerciseType
         (Workouts.errors_detected exerciseType rnd)) = Ok encoded
    /\ decodeURIComponent platform encoded = Ok decoded.

Definition hasId (tempId : nat) (msg : Chat.ChatMessage) : bool :=
  Nat.eqb (Chat.Msg.id msg) tempId.

(** The history without the messages that carry [tempId]. *)
Definition keep (tempId : nat) (h : list Chat.ChatMessage)
  : list Chat.ChatMessage :=
  filter (fun msg => negb (Nat.eqb (Chat.Msg.id msg) tempId)) h.

(** What holds of the chat screen between any two steps: the history is
    never empty, no id exceeds its length, and each request still pending
    has a [tempId] of at least 3 carried by exactly one message, which is
    not flagged as an error. *)
Record Inv (sc : Chat.Screen) : Prop := mkInv {
  inv_nonempty : 1 <= List.length (Chat.chatHistory (Chat.state sc));
  inv_bound : forall msg,
      In msg (Chat.chatHistory (Chat.state sc)) ->
      Chat.Msg.id msg <= List.length (Chat.chatHistory (Chat.state sc));
  inv_nodup : NoDup (Chat.pending sc);
  inv_pending : forall tempId,
      In tempId (Chat.pending sc) ->
      3 <= tempId /\
      exists msg,
        filter (hasId tempId) (Chat.chatHistory (Chat.state sc)) = [msg] /\
        Chat.flag (Chat.Msg.isError msg) = false
}.

(** More of what holds of the chat screen between any two steps: the
    greeting stays first, ids are positive, every loading message
    belongs to a pending request, and each pending request has exactly
    one message, a loading one. *)
Record Tidy (now0 : jstring) (sc : Chat.Screen) : Prop := mkTidy {
  tidy_welcome : exists rest,
      Chat.chatHistory (Chat.state sc) = Chat.welcome now0 :: rest;
  tidy_positive : forall msg,
      In msg (Chat.chatHistory (Chat.state sc)) -> 1 <= Chat.Msg.id msg;
  tidy_loading : forall msg,
      In msg (Chat.chatHistory (Chat.state sc)) ->
      Chat.flag (Chat.Msg.isLoading msg) = true ->
      In (Chat.Msg.id msg) (Chat.pending sc);
  tidy_pending : forall tempId,
      In tempId (Chat.pending sc) ->
      exists msg,
        filter (hasId tempId) (Chat.chatHistory (Chat.state sc)) = [msg] /\
        Chat.flag (Chat.Msg.isLoading msg) = true
}.

(** The body of a chat response has a true [success]. *)
Definition chatSucceeds (fetched : Result Response) : bool :=
  match fetched with
  | Ok response =>
      match json response with
      | Ok data =>
          match get data "success" with
          | Ok v => truthy v
          | Throw _ => false
          end
      | Throw _ => false
      end
  | Throw _ => false
  end.

(** The message of a chat message is a string. *)
Definition isText (msg : Chat.ChatMessage) : bool :=
  match Chat.Msg.message msg with
  | JsString _ => true
  | _ => false
  end.

(** The messages shown with a spinner, and the others. *)
Definition spinners (h : list Chat.ChatMessage) : list Chat.ChatMessage :=
  filter (fun msg => Chat.flag (Chat.Msg.isLoading msg)) h.

Definition settledMessages (h : list Chat.ChatMessage)
  : list Chat.ChatMessage :=
  filter (fun msg => negb (Chat.flag (Chat.Msg.isLoading msg))) h.

(** What the health check learns: [Some b] when the body has an
    [agent_status], [b] telling whether it is the string "available";
    [None] when the request, the parsing or the property read throws. *)
Definition agentStatus (fetched : Result Response) : option bool :=
  match fetched with
  | Ok response =>
      match json response with
      | Ok data =>
          match get data "agent_status" with
          | Ok v => Some (strict_eq_string v (js "available"))
          | Throw _ => None
          end
      | Throw _ => None
      end
  | Throw _ => None
  end.

(** Any number of steps of the chat screen. *)
Inductive steps (now0 : jstring) : Chat.Screen -> Chat.Screen -> Prop :=
| steps_refl : forall sc, steps now0 sc sc
| steps_step : forall sc sc' sc'',
    steps now0 sc sc' -> Chat.step now0 sc' sc'' -> steps now0 sc sc''.

(** The request for the report gave a 2xx response with an empty
    text. *)
Definition emptyReport (reportFetched : Result Response) : bool :=
  match reportFetched with
  | Ok response =>
      ok response &&
      match text response with
      | Ok [] => true
      | _ => false
      end
  | Throw _ => false
  end.

(** The server of the workouts screen answered its health check with an
    agent that is "available". *)
Definition serverAvailable (net : Workouts.Settled) : bool :=
  match net with
  | Workouts.Fetched (Ok response) =>
      ok response &&
      match json response with
      | Ok data =>
          match get data "agent_status" with
          | Ok v => strict_eq_string v (js "available")
          | Throw _ => false
          end
      | Throw _ => false
      end
  | _ => false
  end.

End Props.

Import Props.

(* ================================================================== *)
(** ** Facts about strings and replacement *)

Module StringFacts.

Example trim_example :
  trim (js "  squat tips ") = js "squat tips".
Proof. vm_compute. reflexivity. Qed.

Example trim_line_terminators :
  trim ([10; 9; 8232; 104; 105; 12288; 13]%N) = js "hi".
Proof. vm_compute. reflexivity. Qed.

Example js_example :
  js "正在思考..." = [27491; 22312; 24605; 32771; 46; 46; 46]%N.
Proof. vm_compute. reflexivity. Qed.

Lemma dropWhile_all (p : char16 -> bool) (s : jstring) :
  Forall (fun c => p c = true) s -> dropWhile p s = [].
Proof.
  induction 1 as [|c s Hc _ IH]; simpl; [reflexivity|].
  now rewrite Hc.
Qed.

Lemma trim_blank (s : jstring) :
  Forall (fun c => isSpace c = true) s -> trim s = [].
Proof.
  intros H. unfold trim. now rewrite (dropWhile_all _ H).
Qed.

Lemma no_match_here (p : char16 -> bool) (r : Regex) :
  leads p r ->
  forall k st,
    match ms_rest st with
    | [] => True
    | c :: _ => p c = false
    end ->
    m r k st = None.
Proof.
  induction r as [c|q|r1 IH1 r2 IH2|r1 IH1 r2 IH2|g r1 IH1|n r1 IH1|n| |];
    simpl; intros L k st Hst; try contradiction.
  - unfold step_char. destruct (ms_rest st) as [|d rest]; [reflexivity|].
    unfold char_eqb. destruct (N.eqb_spec c d) as [->|_]; [|reflexivity].
    congruence.
  - unfold step_char. destruct (ms_rest st) as [|d rest]; [reflexivity|].
    destruct (q d) eqn:Hq; [|reflexivity].
    apply L in Hq. congruence.
  - destruct L as [L|[-> L]].
    + now apply IH1.
    + simpl. destruct (at_bol st); [now apply IH2|reflexivity].
  - destruct L as [L1 L2]. now rewrite IH1, IH2.
  - now apply IH1.
Qed.

(** Where no code unit of the subject can start a match, [replace]
    returns the subject. *)
Lemma replace_from_id (p : char16 -> bool) (r : Regex)
    (t : list TemplatePart) :
  leads p r ->
  forall fuel prev rest,
    forallb (fun c => negb (p c)) rest = true ->
    replace_from fuel r t prev rest = rest.
Proof.
  intros L. induction fuel as [|fuel IH]; intros prev rest H;
    [reflexivity|].
  simpl. unfold match_here.
  rewrite (no_match_here p r L); simpl.
  - destruct rest as [|c rest]; [reflexivity|].
    simpl in H. apply andb_true_iff in H as [_ H].
    now rewrite IH.
  - destruct rest as [|c rest]; [exact I|].
    simpl in H. apply andb_true_iff in H as [H _].
    now apply negb_true_iff in H.
Qed.

Lemma replace_global_id (p : char16 -> bool) (r : Regex)
    (t : list TemplatePart) (s : jstring) :
  leads p r ->
  forallb (fun c => negb (p c)) s = true ->
  replace_global r t s = s.
Proof.
  intros L H. unfold replace_global. now apply replace_from_id with p.
Qed.

(** Replacing every match of a one-character class by nothing filters
    the subject. *)
Lemma replace_from_class (q : char16 -> bool) :
  forall fuel prev rest,
    List.length rest < fuel ->
    replace_from fuel (RSet q) [] prev rest
    = filter (fun c => negb (q c)) rest.
Proof.
  induction fuel as [|fuel IH]; intros prev rest Hlen; [lia|].
  destruct rest as [|c rest]; [reflexivity|].
  simpl in Hlen.
  cbn [replace_from match_here m step_char ms_rest filter].
  destruct (q c); cbn.
  - apply IH. lia.
  - f_equal. apply IH. lia.
Qed.

Lemma replace_global_class (q : char16 -> bool) (s : jstring) :
  replace_global (RSet q) [] s = filter (fun c => negb (q c)) s.
Proof.
  unfold replace_global. apply replace_from_class. lia.
Qed.

Lemma filter_removes (q : char16 -> bool) (s : jstring) :
  forallb (fun c => negb (q c)) (filter (fun c => negb (q c)) s) = true.
Proof.
  induction s as [|c s IH]; [reflexivity|].
  simpl. destruct (q c) eqn:Hq; simpl; [exact IH|].
  now rewrite Hq.
Qed.

End StringFacts.

(* ================================================================== *)
(** ** Binary64 arithmetic of the mock result *)

Module NumberFacts.

#[local] Unset Implicit Arguments.
Local Open Scope Z_scope.

Example randomInt_largest_draw :
  Workouts.randomInt (S754_finite false 9007199254740991 (-53)) 10 5
  = Number.ofZ 14.
Proof. vm_compute. reflexivity. Qed.

Example randomInt_zero_draw :
  Workouts.randomInt (S754_zero false) 10 5 = Number.ofZ 5.
Proof. vm_compute. reflexivity. Qed.

Example floor_examples :
  Number.floor (Number.ofZ2 7 (-1)) = Number.ofZ 3
  /\ Number.floor (Number.ofZ2 (-3) (-1)) = Number.ofZ (-2)
  /\ Number.floor (Number.ofZ 300) = Number.ofZ 300.
Proof. vm_compute. repeat split. Qed.

Lemma digits2_pos_bounds (p : positive) :
  2 ^ (Zpos (digits2_pos p) - 1) <= Zpos p < 2 ^ Zpos (digits2_pos p).
Proof.
  induction p as [p IH|p IH|]; cbn [digits2_pos].
  - rewrite Pos2Z.inj_succ.
    replace (Z.succ (Zpos (digits2_pos p)) - 1) with (Z.succ (Zpos (digits2_pos p) - 1)) by lia.
    rewrite !Z.pow_succ_r by lia. lia.
  - rewrite Pos2Z.inj_succ.
    replace (Z.succ (Zpos (digits2_pos p)) - 1) with (Z.succ (Zpos (digits2_pos p) - 1)) by lia.
    rewrite !Z.pow_succ_r by lia. lia.
  - simpl. lia.
Qed.

Lemma shr_1_spec (mrs : shr_record) :
  0 <= shr_m mrs ->
  shr_m (shr_1 mrs) = Z.shiftr (shr_m mrs) 1
  /\ shr_r (shr_1 mrs) = Z.testbit (shr_m mrs) 0.
Proof.
  destruct mrs as [m r s]. cbn [shr_m]. intros Hm.
  destruct m as [|[p|p|]|p]; try lia; cbn; split; reflexivity.
Qed.

Lemma shr_iter_spec (p : positive) :
  forall mrs : shr_record,
    0 <= shr_m mrs ->
    shr_m (iter_pos shr_1 p mrs) = Z.shiftr (shr_m mrs) (Zpos p)
    /\ shr_r (iter_pos shr_1 p mrs) = Z.testbit (shr_m mrs) (Zpos p - 1).
Proof.
  induction p as [p IH|p IH|]; intros mrs Hm; cbn [iter_pos].
  - destruct (shr_1_spec mrs Hm) as [E1 R1].
    assert (H1 : 0 <= shr_m (shr_1 mrs)) by (rewrite E1; apply Z.shiftr_nonneg; lia).
    destruct (IH _ H1) as [E2 R2].
    assert (H2 : 0 <= shr_m (iter_pos shr_1 p (shr_1 mrs))) by (rewrite E2; apply Z.shiftr_nonneg; lia).
    destruct (IH _ H2) as [E3 R3].
    rewrite E3, R3, E2, E1. rewrite !Z.shiftr_shiftr by lia.
    split.
    + f_equal. lia.
    + rewrite Z.shiftr_spec by lia. f_equal. lia.
  - destruct (IH _ Hm) as [E2 R2].
    assert (H2 : 0 <= shr_m (iter_pos shr_1 p mrs)) by (rewrite E2; apply Z.shiftr_nonneg; lia).
    destruct (IH _ H2) as [E3 R3].
    rewrite E3, R3, E2. rewrite !Z.shiftr_shiftr by lia.
    split.
    + f_equal. lia.
    + rewrite Z.shiftr_spec by lia. f_equal. lia.
  - apply shr_1_spec. exact Hm.
Qed.


Lemma shr_fexp_exact_spec (m e : Z) :
  0 <= m ->
  let n := fexp 53 1024 (Zdigits2 m + e) - e in
  let res := shr_fexp 53 1024 m e loc_Exact in
  0 <= shr_m (fst res)
  /\ snd res = e + Z.max n 0
  /\ shr_m (fst res) = m / 2 ^ Z.max n 0
  /\ (shr_r (fst res) = true -> 0 < n /\ Z.testbit m (n - 1) = true).
Proof.
  intros Hm n res. subst res. unfold shr_fexp, shr. fold n.
  destruct n as [|p|p] eqn:En; cbn [fst snd shr_record_of_loc shr_m shr_r].
  - rewrite ?Z.div_1_r. repeat split; try lia; try discriminate.
  - destruct (shr_iter_spec p {| shr_m := m; shr_r := false; shr_s := false |} Hm)
      as [E R]. cbn [shr_m] in E, R.
    rewrite E, R, Z.shiftr_div_pow2 by lia.
    replace (Z.max (Z.pos p) 0) with (Z.pos p) by lia.
    repeat split; try lia.
    + apply Z.div_pos; [lia|]. apply Z.pow_pos_nonneg; lia.
    + assumption.
  - rewrite ?Z.div_1_r. repeat split; try lia; try discriminate.
Qed.

Lemma rne_cases (mrs : shr_record) :
  round_nearest_even (shr_m mrs) (loc_of_shr_record mrs) = shr_m mrs
  \/ (round_nearest_even (shr_m mrs) (loc_of_shr_record mrs) = shr_m mrs + 1
      /\ shr_r mrs = true).
Proof.
  destruct mrs as [m [|] [|]]; cbn; try (now left); try (now right).
  destruct (Z.even m); [now left|now right].
Qed.

Lemma round_up_bound (m n : Z) :
  0 <= m -> 0 < n -> Z.testbit m (n - 1) = true ->
  (m / 2 ^ n + 1) * 2 ^ n <= m + 2 ^ n / 2.
Proof.
  intros Hm Hn Hb.
  apply Z.testbit_true in Hb; [|lia].
  replace n with (Z.succ (n - 1)) at 1 2 3 by lia.
  rewrite Z.pow_succ_r by lia.
  set (H := 2 ^ (n - 1)) in *.
  assert (HH : 0 < H) by (apply Z.pow_pos_nonneg; lia).
  replace (2 * H / 2) with H by (rewrite Z.mul_comm, Z.div_mul; lia).
  replace (2 * H) with (H * 2) by lia.
  rewrite <- Z.div_div by lia.
  pose proof (Z.mul_div_le m H HH) as H1.
  pose proof (Z.div_mod (m / H) 2 ltac:(lia)) as H2.
  rewrite Hb in H2.
  set (a := m / H) in *. set (b := a / 2) in *. nia.
Qed.

Lemma first_stage (P : positive) (E : Z) :
  let n := fexp 53 1024 (Zdigits2 (Zpos P) + E) - E in
  let res := shr_fexp 53 1024 (Zpos P) E loc_Exact in
  let m2 := round_nearest_even (shr_m (fst res)) (loc_of_shr_record (fst res)) in
  0 <= m2
  /\ snd res = E + Z.max n 0
  /\ m2 * 2 ^ Z.max n 0 <= Zpos P + 2 ^ Z.max n 0 / 2.
Proof.
  intros n res m2.
  destruct (shr_fexp_exact_spec (Zpos P) E ltac:(lia)) as [H0 [He [Hm Hr]]].
  fold n in He, Hm, Hr. fold res in H0, He, Hm, Hr.
  assert (Hpow : 0 < 2 ^ Z.max n 0) by (apply Z.pow_pos_nonneg; lia).
  assert (Hhalf : 0 <= 2 ^ Z.max n 0 / 2) by (apply Z.div_pos; lia).
  split; [|split; [exact He|]].
  - destruct (rne_cases (fst res)) as [E1|[E1 _]]; subst m2;
      rewrite E1; lia.
  - destruct (rne_cases (fst res)) as [E1|[E1 R]]; subst m2; rewrite E1.
    + rewrite Hm. pose proof (Z.mul_div_le (Zpos P) _ Hpow) as Hq.
      set (K := 2 ^ Z.max n 0) in *. set (q := Z.pos P / K) in *.
      set (h := K / 2) in *. clearbody K q h. clear -Hq Hhalf. lia.
    + destruct (Hr R) as [Hn Hb]. rewrite Hm.
      rewrite (Z.max_l n 0) by (clear -Hn; lia).
      apply round_up_bound; [lia|exact Hn|exact Hb].
Qed.

Lemma second_stage (m2 e1 : Z) :
  0 <= m2 ->
  let res := shr_fexp 53 1024 m2 e1 loc_Exact in
  0 <= shr_m (fst res)
  /\ snd res = Z.max e1 (fexp 53 1024 (Zdigits2 m2 + e1))
  /\ shr_m (fst res) * 2 ^ (snd res - e1) <= m2.
Proof.
  intros Hm res.
  destruct (shr_fexp_exact_spec m2 e1 Hm) as [H0 [He [Hd _]]].
  fold res in H0, He, Hd.
  split; [exact H0|]. split; [lia|].
  rewrite He, Hd.
  replace (e1 + Z.max (fexp 53 1024 (Zdigits2 m2 + e1) - e1) 0 - e1)
    with (Z.max (fexp 53 1024 (Zdigits2 m2 + e1) - e1) 0) by lia.
  rewrite Z.mul_comm. apply Z.mul_div_le. apply Z.pow_pos_nonneg; lia.
Qed.

Lemma pow2_lt_exp (a b : Z) : 0 <= b -> 2 ^ a < 2 ^ b -> a < b.
Proof.
  intros Hb H. destruct (Z.lt_ge_cases a b) as [L|G]; [exact L|].
  exfalso. pose proof (Z.pow_le_mono_r 2 b a ltac:(lia) G). lia.
Qed.

Lemma digits_le (m k : Z) : 0 <= m -> 0 <= k -> m < 2 ^ k -> Zdigits2 m <= k.
Proof.
  intros Hm Hk H. destruct m as [|p|p]; simpl; try lia.
  pose proof (digits2_pos_bounds p) as [B _].
  assert (L : Z.pos (digits2_pos p) - 1 < k) by (apply pow2_lt_exp; lia).
  lia.
Qed.

Lemma mul10_bound (mx : positive) (ex : Z) :
  Zpos (digits2_pos mx) <= 53 ->
  -1074 <= ex <= -53 ->
  Number.mul (S754_finite false mx ex) (Number.ofZ 10) = S754_zero false
  \/ exists m e,
      Number.mul (S754_finite false mx ex) (Number.ofZ 10)
      = S754_finite false m e
      /\ e < 0 /\ Zpos m < 10 * 2 ^ (- e).
Proof.
  intros Hd Hex.
  replace (Number.ofZ 10) with (S754_finite false 5629499534213120 (-49))
    by (vm_compute; reflexivity).
  unfold Number.mul. cbn [SFmul xorb]. unfold Number.prec, Number.emax.
  assert (Hmx : Zpos mx < 2 ^ 53).
  { pose proof (digits2_pos_bounds mx) as [_ B].
    eapply Z.lt_le_trans; [exact B|]. apply Z.pow_le_mono_r; lia. }
  assert (HPeq : Zpos (mx * 5629499534213120) = Zpos mx * 5629499534213120)
    by apply Pos2Z.inj_mul.
  set (P := (mx * 5629499534213120)%positive) in *. clearbody P.
  set (E := ex + -49).
  change (2 ^ 53) with 9007199254740992 in Hmx.
  assert (HP : Zpos P < 2 ^ 106).
  { change (2 ^ 106) with (9007199254740992 * 9007199254740992). nia. }
  assert (HdP : Zdigits2 (Zpos P) <= 106) by (apply digits_le; lia).
  pose proof (first_stage P E) as F. cbv zeta in F.
  set (n := fexp 53 1024 (Zdigits2 (Z.pos P) + E) - E) in *.
  set (k := Z.max n 0) in *.
  assert (Hk : 0 <= k <= 53).
  { subst k n E. unfold fexp, emin. lia. }
  unfold binary_round_aux.
  destruct (shr_fexp 53 1024 (Z.pos P) E loc_Exact) as [mrs' e'] eqn:S1.
  cbn [fst snd] in F. destruct F as [Hm2 [He1 Hle]].
  set (m2 := round_nearest_even (shr_m mrs') (loc_of_shr_record mrs')) in *.
  pose proof (second_stage m2 e' Hm2) as G. cbv zeta in G.
  destruct (shr_fexp 53 1024 m2 e' loc_Exact) as [mrs'' e''] eqn:S2.
  cbn [fst snd] in G. destruct G as [Hm3 [He2 Hle2]].
  assert (Hhalf : 2 ^ k / 2 <= 4503599627370496).
  { change 4503599627370496 with (2 ^ 53 / 2). apply Z.div_le_mono; [lia|].
    apply Z.pow_le_mono_r; lia. }
  assert (Hk2 : 0 < 2 ^ k) by (apply Z.pow_pos_nonneg; lia).
  assert (Hsum : Zpos P + 2 ^ k / 2 < 9007199254740992 * 5629499534213120)
    by lia.
  assert (Hd2 : Zdigits2 m2 + k <= 106).
  { assert (m2 < 2 ^ (106 - k)).
    { apply Z.mul_lt_mono_pos_r with (2 ^ k); [exact Hk2|].
      rewrite <- Z.pow_add_r by lia.
      replace (106 - k + k) with 106 by lia.
      change (2 ^ 106) with (9007199254740992 * 9007199254740992).
      lia. }
    pose proof (digits_le m2 (106 - k) Hm2 ltac:(lia) H). lia. }
  assert (He'' : e'' <= -49).
  { rewrite He2, He1. subst E. unfold fexp, emin. lia. }
  destruct (shr_m mrs'') as [|m3|m3] eqn:M3.
  - now left.
  - right. exists m3, e''.
    replace (e'' <=? 1024 - 53) with true by (symmetry; apply Z.leb_le; lia).
    split; [reflexivity|]. split; [lia|].
    assert (He1' : e' <= e'') by lia.
    apply Z.mul_lt_mono_pos_r with (2 ^ (e'' - E)).
    { apply Z.pow_pos_nonneg; lia. }
    rewrite <- Z.mul_assoc, <- Z.pow_add_r by lia.
    replace (- e'' + (e'' - E)) with (- E) by lia.
    replace (e'' - E) with ((e'' - e') + k) by lia.
    rewrite Z.pow_add_r by lia.
    assert (H10 : 10 * 2 ^ (- E) = 5629499534213120 * 2 ^ (- ex)).
    { subst E. replace (- (ex + -49)) with (49 + - ex) by lia.
      rewrite Z.pow_add_r by lia.
      change (2 ^ 49) with 562949953421312. lia. }
    rewrite H10.
    assert (Hex2 : 9007199254740992 <= 2 ^ (- ex)).
    { change 9007199254740992 with (2 ^ 53). apply Z.pow_le_mono_r; lia. }
    set (A := 2 ^ (e'' - e')) in *. set (B := 2 ^ k) in *.
    set (U := 2 ^ (- ex)) in *. set (h := B / 2) in *.
    clearbody A B U h. clear -Hle Hle2 Hsum Hex2 Hm3 Hm2 Hk2.
    nia.
  - lia.
Qed.

Lemma add5_small (q : Z) :
  0 <= q <= 9 ->
  Number.add (binary_normalize 53 1024 q 0 false) (Number.ofZ 5)
  = Number.ofZ (q + 5).
Proof.
  intros Hq.
  assert (C : q = 0 \/ q = 1 \/ q = 2 \/ q = 3 \/ q = 4 \/ q = 5 \/ q = 6
              \/ q = 7 \/ q = 8 \/ q = 9) by lia.
  repeat (destruct C as [->|C]; [vm_compute; reflexivity|]).
  subst q. vm_compute. reflexivity.
Qed.

Lemma random_shape (r : spec_float) :
  Number.isRandom r = true ->
  (exists s, r = S754_zero s)
  \/ exists m e, r = S754_finite false m e
                 /\ Zpos (digits2_pos m) <= 53 /\ -1074 <= e <= -53.
Proof.
  unfold Number.isRandom. intros H.
  apply andb_true_iff in H as [H Hlt]. apply andb_true_iff in H as [Hv Hle].
  replace (Number.ofZ 0) with (S754_zero false) in Hle
    by (vm_compute; reflexivity).
  replace (Number.ofZ 1) with (S754_finite false 4503599627370496 (-52))
    in Hlt by (vm_compute; reflexivity).
  destruct r as [s|s| |s m e].
  - left. now exists s.
  - destruct s; [cbn in Hle|cbn in Hlt]; discriminate.
  - cbn in Hle. discriminate.
  - right. destruct s; [cbn in Hle; discriminate|].
    exists m, e. split; [reflexivity|].
    cbn [valid_binary] in Hv. unfold bounded, canonical_mantissa in Hv.
    apply andb_true_iff in Hv as [Hc _]. apply Z.eqb_eq in Hc.
    unfold fexp, emin, Number.prec, Number.emax in Hc.
    assert (Hd : Zpos (digits2_pos m) <= 53) by lia.
    split; [exact Hd|]. split; [lia|].
    unfold SFltb, SFcompare in Hlt.
    destruct (Z.compare_spec e (-52)) as [Ee|El|Eg]; try discriminate; [|lia].
    exfalso. subst e.
    assert (D : Zpos (digits2_pos m) = 53) by lia.
    pose proof (digits2_pos_bounds m) as [B _]. rewrite D in B.
    change (2 ^ (53 - 1)) with 4503599627370496 in B.
    rewrite Pos.compare_cont_spec in Hlt. cbn [Pos.switch_Eq] in Hlt.
    rewrite Pos2Z.inj_compare in Hlt.
    destruct (Z.compare_spec (Zpos m) 4503599627370496) as [Q|Q|Q].
    + discriminate Hlt.
    + clear -B Q. lia.
    + discriminate Hlt.
Qed.

(** [Math.floor(Math.random() * 10) + 5] is one of the integers 5 to 14. *)
Lemma randomInt_10_5 (r : spec_float) :
  Number.isRandom r = true ->
  exists n : Z, 5 <= n <= 14 /\ Workouts.randomInt r 10 5 = Number.ofZ n.
Proof.
  intros H. destruct (random_shape r H) as [[s ->]|[m [e [-> [Hd He]]]]].
  - exists 5. split; [lia|]. destruct s; vm_compute; reflexivity.
  - unfold Workouts.randomInt.
    destruct (mul10_bound m e Hd He) as [->|[m' [e' [-> [He' Hm']]]]].
    + exists 5. split; [lia|]. vm_compute. reflexivity.
    + unfold Number.floor.
      replace (0 <=? e') with false by (symmetry; apply Z.leb_gt; lia).
      cbn [cond_Zopp].
      assert (Hp : 0 < 2 ^ (- e')) by (apply Z.pow_pos_nonneg; lia).
      assert (Hq : 0 <= Zpos m' / 2 ^ (- e') <= 9).
      { split; [apply Z.div_pos; lia|].
        assert (Zpos m' / 2 ^ (- e') < 10); [|lia].
        apply Z.div_lt_upper_bound; [exact Hp|]. lia. }
      exists (Zpos m' / 2 ^ (- e') + 5). split; [lia|].
      unfold Number.prec, Number.emax. now apply add5_small.
Qed.

End NumberFacts.

(* ================================================================== *)
(** ** The chat screen *)

Module ChatFacts.

Import Chat StringFacts.

Ltac run :=
  unfold sendMessage, sendMessage_begin, sendMessage_resume,
    checkApiStatus_resume, checkApiStatus_begin, removeLoading,
    setChatHistory, setMessage, setIsLoading, setApiAvailable,
    tryFinally, tryCatch, bind, settle, ret, throw, update, perform,
    final, outcome, actions;
  cbn [fst snd app chatHistory message isLoading apiAvailable].

Ltac reduce := cbn -[or_else sanitize js].

Lemma keep_keep (tempId : nat) (h : list ChatMessage) :
  keep tempId (keep tempId h) = keep tempId h.
Proof.
  unfold keep. induction h as [|x h IH]; [reflexivity|].
  simpl. destruct (negb (Msg.id x =? tempId)) eqn:E; simpl;
    rewrite ?E, IH; reflexivity.
Qed.

Lemma keep_app (tempId : nat) (h1 h2 : list ChatMessage) :
  keep tempId (h1 ++ h2) = keep tempId h1 ++ keep tempId h2.
Proof. apply filter_app. Qed.

(** The rest of [sendMessage] when the request threw. *)
Lemma resume_throws (tempId : nat) (fetched : Result Response)
    (now : jstring) (s : State) :
  fetchThrows fetched = true ->
  sendMessage_resume tempId fetched now s
  = (Ok tt,
     mkState (message s) false (apiAvailable s)
       (keep tempId (chatHistory s) ++ [connectionErrorReply tempId now]),
     []).
Proof.
  unfold fetchThrows. intros H. run.
  destruct fetched as [response|e]; [|reflexivity].
  destruct (json response) as [data|e]; [discriminate|reflexivity].
Qed.

(** The rest of [sendMessage] when the body has a true [success]. *)
Lemma resume_success (tempId : nat) (response : Response)
    (data v text : JsValue) (now : jstring) (s : State) :
  json response = Ok data ->
  get data "success" = Ok v -> truthy v = true ->
  get data "message" = Ok text ->
  sendMessage_resume tempId (Ok response) now s
  = (Ok tt,
     mkState (message s) false (apiAvailable s)
       (keep tempId (chatHistory s) ++ [botReply tempId text now]),
     []).
Proof.
  intros Hj Hs Hv Ht. run. rewrite Hj. reduce. rewrite Hs. reduce.
  rewrite Hv, Ht. reflexivity.
Qed.

(** The rest of [sendMessage] when the body has no true [success] and
    the error message is a string. *)
Lemma resume_rejected (tempId : nat) (response : Response)
    (data v text : JsValue) (errorMessage : jstring) (now : jstring)
    (s : State) :
  json response = Ok data ->
  get data "success" = Ok v -> truthy v = false ->
  get data "message" = Ok text ->
  or_else text (JsString (js "未知错误")) = JsString errorMessage ->
  sendMessage_resume tempId (Ok response) now s
  = (Ok tt,
     mkState (message s) false (apiAvailable s)
       (keep tempId (chatHistory s)
          ++ [errorReply tempId
                (filter (fun c => negb (isMarkdownChar c)) errorMessage)
                now]),
     []).
Proof.
  intros Hj Hs Hv Ht He. run. rewrite Hj. reduce. rewrite Hs. reduce.
  rewrite Hv, Ht. reduce. rewrite He. unfold sanitize, markdownChars.
  rewrite replace_global_class. reflexivity.
Qed.

Lemma get_total (data v : JsValue) (a b : string) :
  get data a = Ok v -> exists w, get data b = Ok w.
Proof.
  destruct data; simpl; intros H; try discriminate; eauto.
Qed.

(** Whatever the request gives, the rest of [sendMessage] returns
    normally, performs nothing, clears the loading flag and replaces the
    messages carrying [tempId] by one reply carrying it. *)
Lemma resume_shape (tempId : nat) (fetched : Result Response)
    (now : jstring) (s : State) :
  exists reply,
    sendMessage_resume tempId fetched now s
    = (Ok tt,
       mkState (message s) false (apiAvailable s)
         (keep tempId (chatHistory s) ++ [reply]),
       [])
    /\ Msg.id reply = tempId.
Proof.
  destruct (fetchThrows fetched) eqn:F.
  { eexists. split; [now apply resume_throws|reflexivity]. }
  destruct fetched as [response|e]; [|discriminate]. simpl in F.
  destruct (json response) as [data|e] eqn:Hj; [|discriminate].
  destruct (get data "success") as [v|e] eqn:Hs.
  - destruct (get_total data "success" "message" Hs) as [text Ht].
    destruct (truthy v) eqn:Hv.
    + exists (botReply tempId text now). split; [|reflexivity].
      eapply resume_success; eassumption.
    + destruct (sanitize (or_else text (JsString (js "未知错误"))))
        as [shown|e] eqn:Hsan.
      * exists (errorReply tempId shown now). split; [|reflexivity].
        run. rewrite Hj. reduce. rewrite Hs. reduce. rewrite Hv, Ht.
        reduce. rewrite Hsan. reflexivity.
      * exists (connectionErrorReply tempId now). split; [|reflexivity].
        run. rewrite Hj. reduce. rewrite Hs. reduce. rewrite Hv, Ht.
        reduce. rewrite Hsan. reduce.
        fold (keep tempId (chatHistory s)).
        fold (keep tempId (keep tempId (chatHistory s))).
        now rewrite keep_keep.
  - exists (connectionErrorReply tempId now). split; [|reflexivity].
    run. rewrite Hj. reduce. rewrite Hs. reduce.
    fold (keep tempId (chatHistory s)).
    fold (keep tempId (keep tempId (chatHistory s))).
    now rewrite keep_keep.
Qed.

(** The first part of [sendMessage] returns early or appends the user's
    message and the loading message. *)
Lemma begin_cases (closure : State) (now1 now2 : jstring) (s : State) :
  (exists acts, sendMessage_begin closure now1 now2 s = (Ok None, s, acts)
                /\ existsb isFetch acts = false)
  \/ (jstring_eqb (trim (message closure)) (js "") = false
      /\ apiAvailable closure = true
      /\ exists acts,
        sendMessage_begin closure now1 now2 s
        = (Ok (Some (List.length (chatHistory closure) + 2)),
           mkState (js "") true (apiAvailable s)
             (chatHistory s
                ++ [newMessage closure now1;
                    loadingMessage (List.length (chatHistory closure) + 2)
                      now2]),
           acts)).
Proof.
  run. destruct (jstring_eqb (trim (message closure)) (js "")) eqn:E.
  - left. eexists. split; reflexivity.
  - destruct (apiAvailable closure) eqn:A; reduce.
    + right. repeat split. eexists. rewrite <- app_assoc. reflexivity.
    + left. eexists. split; reflexivity.
Qed.

(** C9. When the input is empty or consists of white space only,
    [sendMessage] returns before any state update: the screen state is
    the one it started in, history and loading flag included, and no
    request or alert is issued. *)
Theorem sendMessage_blank_input_noop :
  forall (closure : State) (now1 now2 : jstring)
         (fetched : Result Response) (now3 : jstring) (current : State),
    Forall (fun c => isSpace c = true) (message closure) ->
    sendMessage closure now1 now2 fetched now3 current
    = (Ok tt, current, []).
Proof.
  intros closure now1 now2 fetched now3 current H. run.
  rewrite (trim_blank H). reflexivity.
Qed.

Lemma sendMessage_blank_input_noop_witness :
  let s := mkState (js "  ") false true [welcome (js "09:00")] in
  sendMessage s (js "09:01") (js "09:01") (Throw (TypeError "Network request failed"))
    (js "09:02") s
  = (Ok tt, s, []).
Proof.
  intros s. apply sendMessage_blank_input_noop.
  vm_compute. repeat constructor.
Defined.

(** C8. When the body of the chat response has no true [success], the
    reply appended to the history is flagged as an error and its text
    holds none of the characters asterisk, underscore, hash sign and
    backquote.  When the [message] of the body is a string, that text is
    the fixed prefix followed by the message (by the default text when
    the message is empty) without these four characters. *)
Theorem error_reply_has_no_markdown_chars :
  forall (tempId : nat) (response : Response) (data v text : JsValue)
         (now : jstring) (s : State),
    json response = Ok data ->
    get data "success" = Ok v -> truthy v = false ->
    get data "message" = Ok text ->
    exists (reply : ChatMessage) (shown : jstring),
      chatHistory (final (sendMessage_resume tempId (Ok response) now s))
      = keep tempId (chatHistory s) ++ [reply]
      /\ Chat.flag (Msg.isError reply) = true
      /\ Msg.message reply = JsString shown
      /\ forallb (fun c => negb (isMarkdownChar c)) shown = true
      /\ (forall str, text = JsString str ->
          shown = js "抱歉，处理您的请求时出现问题: "
                  ++ filter (fun c => negb (isMarkdownChar c))
                       (match str with
                        | [] => js "未知错误"
                        | _ :: _ => str
                        end)).
Proof.
  intros tempId response data v text now s Hj Hs Hv Ht.
  assert (Hprefix : forall w,
             forallb (fun c => negb (isMarkdownChar c))
               (js "抱歉，处理您的请求时出现问题: "
                ++ filter (fun c => negb (isMarkdownChar c)) w) = true).
  { intros w. rewrite forallb_app. apply andb_true_iff. split.
    - vm_compute. reflexivity.
    - apply filter_removes. }
  destruct (sanitize (or_else text (JsString (js "未知错误"))))
    as [cleaned|e] eqn:Hsan.
  - (* the error message is a string *)
    unfold sanitize in Hsan.
    destruct (or_else text (JsString (js "未知错误")))
      as [| |b|x|w|l|l] eqn:Ho; try discriminate.
    rewrite (resume_rejected tempId response now s Hj Hs Hv Ht Ho).
    do 2 eexists. split; [reflexivity|]. split; [reflexivity|].
    split; [reflexivity|]. split; [apply Hprefix|].
    intros str ->. revert Ho. unfold or_else.
    destruct str; simpl; intros Ho; inversion Ho; reflexivity.
  - (* the error message has no [replace] method *)
    exists (connectionErrorReply tempId now). eexists.
    split; [|split; [reflexivity|split; [reflexivity|split;
               [vm_compute; reflexivity|]]]].
    + run. rewrite Hj. reduce. rewrite Hs. reduce. rewrite Hv, Ht. reduce.
      rewrite Hsan. reduce.
      fold (keep tempId (chatHistory s)).
      fold (keep tempId (keep tempId (chatHistory s))).
      now rewrite keep_keep.
    + intros str ->. revert Hsan. unfold or_else.
      destruct str; simpl; discriminate.
Qed.

Lemma error_reply_has_no_markdown_chars_witness :
  let data :=
    JsObject [(js "success", JsBool false);
              (js "message", JsString (js "no *agent* for `x`"))] in
  let response := mkResponse 500 (Ok []) (Ok data) in
  let s := mkState [] true true
             [welcome (js "09:00"); loadingMessage 3 (js "09:01")] in
  exists (reply : ChatMessage) (shown : jstring),
    chatHistory (final (sendMessage_resume 3 (Ok response) (js "09:02") s))
    = keep 3 (chatHistory s) ++ [reply]
    /\ Chat.flag (Msg.isError reply) = true
    /\ Msg.message reply = JsString shown
    /\ forallb (fun c => negb (isMarkdownChar c)) shown = true
    /\ (forall str,
        JsString (js "no *agent* for `x`") = JsString str ->
        shown = js "抱歉，处理您的请求时出现问题: "
                ++ filter (fun c => negb (isMarkdownChar c))
                     (match str with
                      | [] => js "未知错误"
                      | _ :: _ => str
                      end)).
Proof.
  intros data response s.
  exact (error_reply_has_no_markdown_chars 3 response
           (v := JsBool false) (text := JsString (js "no *agent* for `x`"))
           (js "09:02") s eq_refl eq_refl eq_refl eq_refl).
Defined.

(** *** What the bubble of a reply shows *)

Example stripMarkdown_bold :
  stripMarkdown (js "a **hi** b __c__ **d") = js "a hi b c d".
Proof. vm_compute. reflexivity. Qed.

Example stripMarkdown_italic :
  stripMarkdown (js "do *three* sets of snake_case_name")
  = js "do three sets of snakecasename".
Proof. vm_compute. reflexivity. Qed.

Example stripMarkdown_lines :
  stripMarkdown
    (js "# Plan" ++ [10%N] ++ js "- squat" ++ [10%N] ++ js "12.    rest #1")
  = js "Plan" ++ [10%N] ++ js "• squat" ++ [10%N] ++ js "12. rest #1".
Proof. vm_compute. reflexivity. Qed.

Example sanitize_example :
  sanitize (JsString (js "no *agent* for `x`_#"))
  = Ok (js "no agent for x").
Proof. vm_compute. reflexivity. Qed.

Lemma class_starts_markup (l : jstring) :
  forallb startsMarkup l = true ->
  forall c, existsb (char_eqb c) l = true -> startsMarkup c = true.
Proof.
  intros Hl c Hc. apply existsb_exists in Hc as [x [Hin Hx]].
  unfold char_eqb in Hx. apply N.eqb_eq in Hx. subst x.
  rewrite forallb_forall in Hl. now apply Hl.
Qed.

Lemma bold_leads : leads startsMarkup boldPattern.
Proof.
  unfold boldPattern. cbn [leads]. left. split; left; reflexivity.
Qed.

Lemma italic_leads : leads startsMarkup italicPattern.
Proof.
  unfold italicPattern. cbn [leads]. left. split; reflexivity.
Qed.

Lemma heading_leads : leads startsMarkup headingPattern.
Proof.
  unfold headingPattern, RPlus. cbn [leads].
  right. split; [reflexivity|]. left. left. reflexivity.
Qed.

Lemma bullet_leads : leads startsMarkup bulletPattern.
Proof.
  unfold bulletPattern. cbn [leads]. right. split; [reflexivity|]. left.
  apply class_starts_markup. vm_compute. reflexivity.
Qed.

Lemma ordered_leads : leads startsMarkup orderedPattern.
Proof.
  unfold orderedPattern, RPlus, digit. cbn [leads].
  right. split; [reflexivity|]. left. left.
  intros c Hc. unfold startsMarkup. rewrite Hc. apply orb_true_r.
Qed.

(** A message without markers and digits is shown as it is. *)
Lemma stripMarkdown_plain (s : jstring) :
  noMarkup s = true -> stripMarkdown s = s.
Proof.
  intros H. unfold stripMarkdown.
  rewrite (@replace_global_id startsMarkup _ _ _ bold_leads H).
  rewrite (@replace_global_id startsMarkup _ _ _ italic_leads H).
  rewrite (@replace_global_id startsMarkup _ _ _ heading_leads H).
  rewrite (@replace_global_id startsMarkup _ _ _ bullet_leads H).
  now rewrite (@replace_global_id startsMarkup _ _ _ ordered_leads H).
Qed.

(** C1, as stated, fails: the body
    [{success: true, message: "**hi**"}] is stored with its message
    field and displayed as [hi]. *)
Lemma bold_reply_not_displayed_verbatim :
  let data :=
    JsObject [(js "success", JsBool true);
              (js "message", JsString (js "**hi**"))] in
  let response := mkResponse 200 (Ok []) (Ok data) in
  let s := mkState [] true true
             [welcome (js "09:00");
              Msg.mkChatMessage 2 (js "user") (JsString (js "hello"))
                (js "09:01") None None None None;
              loadingMessage 3 (js "09:01")] in
  let h := chatHistory
             (final (sendMessage_resume 3 (Ok response) (js "09:02") s)) in
  get data "message" = Ok (JsString (js "**hi**"))
  /\ map renderMessage (skipn 2 h) = [Ok (Plain (js "hi"))]
  /\ Plain (js "hi") <> Plain (js "**hi**").
Proof.
  vm_compute. repeat split. discriminate.
Qed.

(** C1, amended. When the body of the chat response has a true
    [success], the reply appended to the history carries the body's
    message field unchanged and no flag; its bubble shows that field
    after the Markdown replacements, which leave it as it is when it
    holds no asterisk, underscore, hash sign, hyphen, plus sign or
    digit. *)
Theorem reply_stored_verbatim_displayed_stripped :
  forall (tempId : nat) (response : Response) (data v text : JsValue)
         (now : jstring) (s : State),
    json response = Ok data ->
    get data "success" = Ok v -> truthy v = true ->
    get data "message" = Ok text ->
    let reply := botReply tempId text now in
    chatHistory (final (sendMessage_resume tempId (Ok response) now s))
    = keep tempId (chatHistory s) ++ [reply]
    /\ Msg.message reply = text
    /\ Chat.flag (Msg.isError reply) = false
    /\ (forall str, text = JsString str ->
        renderMessage reply = Ok (Plain (stripMarkdown str)))
    /\ (forall str, text = JsString str -> noMarkup str = true ->
        renderMessage reply = Ok (Plain str)).
Proof.
  intros tempId response data v text now s Hj Hs Hv Ht reply.
  rewrite (resume_success tempId response now s Hj Hs Hv Ht).
  repeat split.
  - intros str ->. reflexivity.
  - intros str -> Hplain. unfold renderMessage. simpl.
    now rewrite stripMarkdown_plain.
Qed.

Lemma reply_stored_verbatim_displayed_stripped_witness :
  let data :=
    JsObject [(js "success", JsBool true);
              (js "message", JsString (js "Keep your back straight."))] in
  let response := mkResponse 200 (Ok []) (Ok data) in
  let s := mkState [] true true
             [welcome (js "09:00"); loadingMessage 3 (js "09:01")] in
  renderMessage
    (botReply 3 (JsString (js "Keep your back straight.")) (js "09:02"))
  = Ok (Plain (js "Keep your back straight.")).
Proof.
  intros data response s.
  refine (proj2 (proj2 (proj2 (proj2
            (reply_stored_verbatim_displayed_stripped 3 response
               (v := JsBool true)
               (text := JsString (js "Keep your back straight."))
               (js "09:02") s eq_refl eq_refl eq_refl eq_refl))))
            _ eq_refl _).
  vm_compute. reflexivity.
Defined.

(** *** The invariant of the screen *)

Lemma filter_none (t : nat) (h : list ChatMessage) :
  (forall msg, In msg h -> Msg.id msg <> t) -> filter (hasId t) h = [].
Proof.
  induction h as [|x h IH]; intros H; [reflexivity|].
  simpl. unfold hasId at 1.
  destruct (Nat.eqb_spec (Msg.id x) t) as [E|_].
  - exfalso. apply (H x); [now left|exact E].
  - apply IH. intros msg Hin. apply H. now right.
Qed.

Lemma filter_single (t : nat) (h : list ChatMessage) (x : ChatMessage) :
  filter (hasId t) h = [x] -> In x h /\ Msg.id x = t.
Proof.
  intros H. assert (Hin : In x (filter (hasId t) h)) by (rewrite H; now left).
  apply filter_In in Hin as [Hin Hid].
  split; [exact Hin|]. now apply Nat.eqb_eq in Hid.
Qed.

Lemma keep_In (t : nat) (h : list ChatMessage) (x : ChatMessage) :
  In x (keep t h) -> In x h /\ Msg.id x <> t.
Proof.
  unfold keep. intros H. apply filter_In in H as [Hin Hid].
  split; [exact Hin|]. apply negb_true_iff in Hid. now apply Nat.eqb_neq.
Qed.

Lemma keep_length (t : nat) (h : list ChatMessage) :
  List.length (filter (hasId t) h) + List.length (keep t h) = List.length h.
Proof.
  unfold keep, hasId. induction h as [|x h IH]; [reflexivity|].
  simpl. destruct (Msg.id x =? t); simpl; lia.
Qed.

Lemma keep_errorCount (t : nat) (h : list ChatMessage) :
  errorCount (filter (hasId t) h) + errorCount (keep t h) = errorCount h.
Proof.
  unfold keep, hasId, errorCount. induction h as [|x h IH]; [reflexivity|].
  simpl. destruct (Msg.id x =? t); simpl;
    destruct (Chat.flag (Msg.isError x)); simpl; lia.
Qed.

Lemma filter_keep_other (t t' : nat) (h : list ChatMessage) :
  t' <> t -> filter (hasId t') (keep t h) = filter (hasId t') h.
Proof.
  intros Hne. unfold keep, hasId. induction h as [|x h IH]; [reflexivity|].
  simpl. destruct (Nat.eqb_spec (Msg.id x) t) as [E|E]; simpl.
  - destruct (Nat.eqb_spec (Msg.id x) t') as [E'|_]; [congruence|exact IH].
  - now rewrite IH.
Qed.

Lemma keep_fresh (t : nat) (h : list ChatMessage) :
  (forall msg, In msg h -> Msg.id msg <> t) -> keep t h = h.
Proof.
  unfold keep. induction h as [|x h IH]; intros H; [reflexivity|].
  simpl. destruct (Nat.eqb_spec (Msg.id x) t) as [E|_].
  - exfalso. apply (H x); [now left|exact E].
  - simpl. rewrite IH; [reflexivity|].
    intros msg Hin. apply H. now right.
Qed.

Lemma NoDup_remove_nat (t : nat) (l : list nat) :
  NoDup l -> NoDup (remove Nat.eq_dec t l).
Proof.
  induction 1 as [|x l Hx Hl IH]; simpl; [constructor|].
  destruct (Nat.eq_dec t x); [exact IH|].
  constructor; [|exact IH].
  intros Hin. apply in_remove in Hin. tauto.
Qed.

(** What the health check does to the history: nothing, or one more
    message numbered from the snapshot. *)
Lemma health_shape (snapshot : list ChatMessage)
    (fetched : Result Response) (now : jstring) (s : State) :
  let run := checkApiStatus_resume snapshot fetched now s in
  outcome run = Ok tt
  /\ (chatHistory (final run) = chatHistory s
      \/ exists msg,
           chatHistory (final run) = chatHistory s ++ [msg]
           /\ Msg.id msg = List.length snapshot + 1).
Proof.
  run. destruct fetched as [response|e]; reduce.
  2:{ split; [reflexivity|]. right. eexists. split; reflexivity. }
  destruct (json response) as [data|e]; reduce.
  2:{ split; [reflexivity|]. right. eexists. split; reflexivity. }
  destruct (get data "agent_status") as [v|e]; reduce.
  2:{ split; [reflexivity|]. right. eexists. split; reflexivity. }
  destruct (strict_eq_string v (js "available")); reduce.
  - split; [reflexivity|]. now left.
  - split; [reflexivity|]. right. eexists. split; reflexivity.
Qed.

Lemma inv_pending_bound (sc : Screen) (t : nat) :
  Inv sc -> In t (pending sc) ->
  3 <= t <= List.length (chatHistory (state sc)).
Proof.
  intros I Hin. destruct (inv_pending I t Hin) as [H3 [msg [Hf _]]].
  apply filter_single in Hf as [Hm Hid].
  split; [exact H3|]. rewrite <- Hid. now apply (inv_bound I).
Qed.

Lemma Inv_mount (now0 : jstring) : Inv (mount now0).
Proof.
  constructor; simpl.
  - lia.
  - intros msg [<-|[]]. simpl. lia.
  - constructor.
  - intros t [].
Qed.

Lemma Inv_step (now0 : jstring) (sc sc' : Screen) :
  step now0 sc sc' -> Inv sc -> Inv sc'.
Proof.
  intros St I. destruct St as [sc text|sc now1 now2|sc t fetched now Hin
                              |sc fetched now Hp].
  - (* the input is edited *)
    destruct I as [I1 I2 I3 I4]. constructor; assumption.
  - (* send is pressed *)
    destruct (begin_cases (state sc) now1 now2 (state sc))
      as [[acts [E _]]|[_ [_ [acts E]]]]; cbv zeta; rewrite E;
      unfold final, outcome; cbn [fst snd].
    { destruct I as [I1 I2 I3 I4]. constructor; assumption. }
    set (h := chatHistory (state sc)) in *.
    set (t := List.length h + 2).
    assert (Hfresh : forall msg, In msg h -> Msg.id msg <> t).
    { intros msg Hm. pose proof (inv_bound I msg Hm). subst t h. lia. }
    constructor; cbn [state pending chatHistory].
    + rewrite length_app. simpl. lia.
    + intros msg Hm. rewrite length_app. simpl.
      apply in_app_or in Hm as [Hm|[<-|[<-|[]]]]; simpl.
      * pose proof (inv_bound I msg Hm). fold h in H. lia.
      * fold h. lia.
      * subst t. lia.
    + constructor; [|exact (inv_nodup I)].
      intros Hin. pose proof (@inv_pending_bound sc _ I Hin). fold h in H.
      subst t. lia.
    + intros t' [<-|Hin].
      * split; [pose proof (inv_nonempty I); fold h in H; subst t; lia|].
        exists (loadingMessage t now2). split; [|reflexivity].
        rewrite filter_app, (@filter_none t h Hfresh). simpl.
        unfold hasId, newMessage, loadingMessage. simpl. fold h.
        replace (List.length h + 1 =? t) with false
          by (symmetry; apply Nat.eqb_neq; subst t; lia).
        now rewrite Nat.eqb_refl.
      * pose proof (@inv_pending_bound sc _ I Hin) as Hb. fold h in Hb.
        destruct (inv_pending I t' Hin) as [H3 [msg [Hf He]]].
        split; [exact H3|]. exists msg. split; [|exact He].
        rewrite filter_app. fold h in Hf. rewrite Hf. simpl.
        unfold hasId, newMessage, loadingMessage. simpl. fold h.
        replace (List.length h + 1 =? t') with false
          by (symmetry; apply Nat.eqb_neq; lia).
        replace (t =? t') with false
          by (symmetry; apply Nat.eqb_neq; subst t; lia).
        reflexivity.
  - (* a chat request settles *)
    destruct (resume_shape t fetched now (state sc)) as [reply [E Hid]].
    rewrite E. unfold final. cbn [fst snd].
    set (h := chatHistory (state sc)) in *.
    pose proof (@inv_pending_bound sc _ I Hin) as Hb. fold h in Hb.
    destruct (inv_pending I t Hin) as [_ [old [Hold _]]]. fold h in Hold.
    pose proof (keep_length t h) as Hlen. rewrite Hold in Hlen.
    simpl in Hlen.
    constructor; cbn [state pending chatHistory].
    + rewrite length_app. simpl. lia.
    + intros msg Hm. rewrite length_app. simpl.
      apply in_app_or in Hm as [Hm|[<-|[]]].
      * apply keep_In in Hm as [Hm _].
        pose proof (inv_bound I msg Hm). fold h in H. lia.
      * lia.
    + apply NoDup_remove_nat. exact (inv_nodup I).
    + intros t' Hin'. apply in_remove in Hin' as [Hin' Hne].
      destruct (inv_pending I t' Hin') as [H3 [msg [Hf He]]].
      split; [exact H3|]. exists msg. split; [|exact He].
      rewrite filter_app, (@filter_keep_other t t' h Hne). fold h in Hf.
      rewrite Hf. simpl. unfold hasId. rewrite Hid.
      replace (t =? t') with false
        by (symmetry; apply Nat.eqb_neq; lia).
      reflexivity.
  - (* the health check settles *)
    destruct (health_shape (chatHistory (initialState now0)) fetched now
                (state sc)) as [_ H].
    set (h := chatHistory (state sc)) in *.
    destruct H as [E|[msg [E Hid]]].
    + destruct I as [I1 I2 I3 I4].
      constructor; cbn [state pending]; rewrite ?E; assumption.
    + simpl in Hid.
      constructor; cbn [state pending]; rewrite ?E.
      * rewrite length_app. simpl. lia.
      * intros x Hx. rewrite length_app. simpl.
        pose proof (inv_nonempty I) as Hn. fold h in Hn.
        apply in_app_or in Hx as [Hx|[<-|[]]].
        -- pose proof (inv_bound I x Hx). fold h in H. lia.
        -- lia.
      * exact (inv_nodup I).
      * intros t' Hin'.
        destruct (inv_pending I t' Hin') as [H3 [old [Hf He]]].
        split; [exact H3|]. exists old. split; [|exact He].
        rewrite filter_app. fold h in Hf. rewrite Hf. simpl.
        unfold hasId. rewrite Hid.
        replace (2 =? t') with false
          by (symmetry; apply Nat.eqb_neq; lia).
        reflexivity.
Qed.

Lemma reachable_Inv (now0 : jstring) (sc : Screen) :
  reachable now0 sc -> Inv sc.
Proof.
  induction 1 as [|sc sc' _ IH St].
  - apply Inv_mount.
  - exact (Inv_step St IH).
Qed.

Lemma errorCount_app (h1 h2 : list ChatMessage) :
  errorCount (h1 ++ h2) = errorCount h1 + errorCount h2.
Proof. unfold errorCount. now rewrite filter_app, length_app. Qed.

(** The whole of [sendMessage] once it has passed its two guards. *)
Lemma sendMessage_proceeds (closure : State) (now1 now2 : jstring)
    (fetched : Result Response) (now3 : jstring) (s : State) :
  jstring_eqb (trim (message closure)) (js "") = false ->
  apiAvailable closure = true ->
  let tempId := List.length (chatHistory closure) + 2 in
  final (sendMessage closure now1 now2 fetched now3 s)
  = final (sendMessage_resume tempId fetched now3
             (mkState (js "") true (apiAvailable s)
                (chatHistory s
                   ++ [newMessage closure now1;
                       loadingMessage tempId now2]))).
Proof.
  intros Hb Ha tempId.
  destruct (begin_cases closure now1 now2 s)
    as [[acts [E _]]|[_ [_ [acts E]]]].
  - exfalso. revert E. unfold sendMessage_begin. rewrite Hb, Ha.
    run. discriminate.
  - unfold sendMessage, bind at 1. rewrite E. fold tempId.
    destruct (sendMessage_resume tempId fetched now3 _) as [[r s2] a2].
    reflexivity.
Qed.

(** C2. In every state the screen can reach, when the request of a
    pending [sendMessage] throws (the [fetch] rejects or the body is not
    JSON), the rest of the handler removes the loading message and
    appends exactly one message, flagged as an error: afterwards no
    loading message carries the [tempId], the history is as long as
    before and holds exactly one more error-flagged message.  A whole
    call that nothing interleaves with turns the history [h] into [h]
    followed by the user's message and that error message. *)
Theorem failed_request_appends_one_error :
  forall (now0 : jstring) (sc : Screen),
    reachable now0 sc ->
    (forall (tempId : nat) (fetched : Result Response) (now : jstring),
        In tempId (pending sc) ->
        fetchThrows fetched = true ->
        let h := chatHistory (state sc) in
        let h' := chatHistory
                    (final (sendMessage_resume tempId fetched now
                              (state sc))) in
        h' = keep tempId h ++ [connectionErrorReply tempId now]
        /\ Chat.flag (Msg.isError (connectionErrorReply tempId now)) = true
        /\ (forall msg, In msg h' ->
                        Chat.flag (Msg.isLoading msg) = true ->
                        Msg.id msg <> tempId)
        /\ List.length h' = List.length h
        /\ errorCount h' = errorCount h + 1)
    /\
    (forall (now1 now2 : jstring) (fetched : Result Response)
            (now3 : jstring),
        jstring_eqb (trim (message (state sc))) (js "") = false ->
        apiAvailable (state sc) = true ->
        fetchThrows fetched = true ->
        let h := chatHistory (state sc) in
        let h' := chatHistory
                    (final (sendMessage (state sc) now1 now2 fetched now3
                              (state sc))) in
        h' = h ++ [newMessage (state sc) now1;
                   connectionErrorReply (List.length h + 2) now3]
        /\ errorCount h' = errorCount h + 1).
Proof.
  intros now0 sc R. pose proof (reachable_Inv R) as I. split.
  - intros tempId fetched now Hin Hf h h'.
    assert (E : h' = keep tempId h ++ [connectionErrorReply tempId now]).
    { subst h'. now rewrite (@resume_throws tempId fetched now (state sc) Hf). }
    destruct (inv_pending I tempId Hin) as [_ [old [Hold Herr]]].
    fold h in Hold.
    pose proof (keep_length tempId h) as Hlen.
    pose proof (keep_errorCount tempId h) as Hcnt.
    rewrite Hold in Hlen, Hcnt. simpl in Hlen.
    unfold errorCount at 1 in Hcnt. simpl in Hcnt. rewrite Herr in Hcnt.
    simpl in Hcnt.
    split; [exact E|]. split; [reflexivity|]. rewrite E. split; [|split].
    + intros msg Hm Hl. apply in_app_or in Hm as [Hm|[<-|[]]].
      * now apply keep_In in Hm.
      * discriminate.
    + rewrite length_app. simpl. lia.
    + rewrite errorCount_app. unfold errorCount at 2. simpl. lia.
  - intros now1 now2 fetched now3 Hb Ha Hf h h'.
    assert (Hfresh : forall msg, In msg h ->
                                 Msg.id msg <> List.length h + 2).
    { intros msg Hm. pose proof (inv_bound I msg Hm) as Hle.
      fold h in Hle. lia. }
    assert (E : h' = h ++ [newMessage (state sc) now1;
                           connectionErrorReply (List.length h + 2) now3]).
    { subst h'. rewrite (@sendMessage_proceeds (state sc) now1 now2 fetched
                           now3 (state sc) Hb Ha).
      fold h. rewrite (@resume_throws _ fetched now3 _ Hf). unfold final.
      cbn [fst snd chatHistory].
      rewrite keep_app, (@keep_fresh _ h Hfresh).
      unfold keep, newMessage, loadingMessage. simpl. fold h.
      replace (List.length h + 1 =? List.length h + 2) with false
        by (symmetry; apply Nat.eqb_neq; lia).
      rewrite Nat.eqb_refl. simpl. now rewrite <- app_assoc. }
    split; [exact E|]. rewrite E, errorCount_app. reflexivity.
Qed.

Lemma failed_request_appends_one_error_witness :
  let now0 := js "09:00" in
  let sc1 := mkScreen (final (setMessage (js "hi") (state (mount now0))))
               [] true in
  let sc2 := mkScreen
               (final (sendMessage_begin (state sc1) (js "09:01")
                         (js "09:01") (state sc1)))
               [3] true in
  errorCount
    (chatHistory
       (final (sendMessage_resume 3
                 (Throw (TypeError "Network request failed")) (js "09:02")
                 (state sc2))))
  = errorCount (chatHistory (state sc2)) + 1.
Proof.
  intros now0 sc1 sc2.
  assert (R : reachable now0 sc2).
  { apply reach_step with sc1.
    - apply reach_step with (mount now0).
      + apply reach_mount.
      + exact (step_edit now0 (mount now0) (js "hi")).
    - exact (step_send now0 sc1 (js "09:01") (js "09:01")). }
  refine (proj2 (proj2 (proj2 (proj2
            (proj1 (failed_request_appends_one_error R) 3
               (Throw (TypeError "Network request failed")) (js "09:02")
               _ eq_refl))))).
  simpl. now left.
Defined.

(** C7. Ids need not be unique: the screen can reach a state in which
    two messages of the history carry the same id.  Send is pressed
    while the health check is still pending, and the health check, which
    numbers its message from the history of the first render, then
    fails. *)
Theorem duplicate_ids_reachable :
  forall now0 : jstring,
    exists sc : Screen,
      reachable now0 sc /\ ~ NoDup (ids (chatHistory (state sc))).
Proof.
  intros now0.
  pose (sc1 := mkScreen (final (setMessage (js "hi") (state (mount now0))))
                 (pending (mount now0)) (healthPending (mount now0))).
  pose (run := sendMessage_begin (state sc1) (js "09:01") (js "09:01")
                 (state sc1)).
  pose (sc2 := mkScreen (final run)
                 (match outcome run with
                  | Ok (Some tempId) => tempId :: pending sc1
                  | _ => pending sc1
                  end)
                 (healthPending sc1)).
  pose (sc3 := mkScreen
                 (final (checkApiStatus_resume
                           (chatHistory (initialState now0))
                           (Throw (TypeError "Network request failed"))
                           (js "09:02") (state sc2)))
                 (pending sc2) false).
  exists sc3. split.
  - apply reach_step with sc2.
    + apply reach_step with sc1.
      * apply reach_step with (mount now0).
        -- apply reach_mount.
        -- exact (step_edit now0 (mount now0) (js "hi")).
      * exact (step_send now0 sc1 (js "09:01") (js "09:01")).
    + apply step_health. reflexivity.
  - assert (E : ids (chatHistory (state sc3)) = [1; 2; 3; 2])
      by (vm_compute; reflexivity).
    rewrite E. intros H.
    apply NoDup_cons_iff in H as [_ H].
    apply NoDup_cons_iff in H as [H _].
    apply H. simpl. auto.
Qed.

(** *** What the handlers of the chat screen perform *)

(** The health check when its request throws: one error-flagged message
    and one alert. *)
Lemma health_failure (snapshot : list ChatMessage)
    (fetched : Result Response) (now : jstring) (s : State) :
  fetchThrows fetched = true ->
  exists msg title text,
    checkApiStatus_resume snapshot fetched now s
    = (Ok tt,
       mkState (message s) (isLoading s) false (chatHistory s ++ [msg]),
       [ActAlert title text])
    /\ Chat.flag (Msg.isError msg) = true.
Proof.
  unfold fetchThrows. intros H. run.
  destruct fetched as [response|e]; reduce.
  - destruct (json response) as [data|e]; [discriminate|]. reduce.
    do 3 eexists. split; reflexivity.
  - do 3 eexists. split; reflexivity.
Qed.

(** The health check performs no request of its own after the first,
    sets no timer and aborts nothing. *)
Lemma health_log (snapshot : list ChatMessage)
    (fetched : Result Response) (now : jstring) (s : State) :
  let log := actions (checkApiStatus_resume snapshot fetched now s) in
  forallb (fun a => negb (isFetch a || isTimer a || isAbort a)) log = true.
Proof.
  run. destruct fetched as [response|e]; reduce; [|reflexivity].
  destruct (json response) as [data|e]; reduce; [|reflexivity].
  destruct (get data "agent_status") as [v|e]; reduce; [|reflexivity].
  destruct (strict_eq_string v (js "available")); reflexivity.
Qed.

(** [sendMessage] issues at most one request, sets no timer and aborts
    nothing. *)
Lemma sendMessage_log (closure : State) (now1 now2 : jstring)
    (fetched : Result Response) (now3 : jstring) (s : State) :
  let log := actions (sendMessage closure now1 now2 fetched now3 s) in
  forallb (fun a => negb (isTimer a || isAbort a)) log = true
  /\ List.length (filter isFetch log) <= 1.
Proof.
  unfold sendMessage, sendMessage_begin, setChatHistory, setMessage,
    setIsLoading, bind, ret, perform, update, actions.
  destruct (jstring_eqb (trim (message closure)) (js ""));
    [split; [reflexivity|simpl; lia]|].
  destruct (apiAvailable closure); cbn [negb fst snd];
    [|split; [reflexivity|simpl; lia]].
  match goal with
  | |- context [sendMessage_resume ?t fetched now3 ?s0] =>
      destruct (resume_shape t fetched now3 s0) as [reply [E _]];
      rewrite E
  end.
  cbn [fst snd app]. split; [reflexivity|simpl; lia].
Qed.

End ChatFacts.

(* ================================================================== *)
(** ** The workouts screen *)

Module WorkoutsFacts.

#[local] Unset Implicit Arguments.
Import Workouts.

Ltac reduce :=
  cbn -[js or_else toString Number.decimal count apiRequest loadReport
        simulateAnalysisResult].

Lemma count_app (p : Action -> bool) (l1 l2 : list Action) :
  count p (l1 ++ l2) = count p l1 + count p l2.
Proof. unfold count. now rewrite filter_app, length_app. Qed.

Lemma count_cons (p : Action -> bool) (a : Action) (l : list Action) :
  count p (a :: l) = (if p a then 1 else 0) + count p l.
Proof. unfold count. simpl. now destruct (p a). Qed.

Lemma count_none (p : Action -> bool) (l : list Action) :
  existsb p l = false -> count p l = 0.
Proof.
  unfold count. induction l as [|a l IH]; [reflexivity|].
  simpl. destruct (p a); [discriminate|exact IH].
Qed.

Ltac tally :=
  rewrite ?count_cons, ?count_app;
  rewrite ?count_none by assumption;
  first [reflexivity | vm_compute; lia].

Ltac finish :=
  repeat split; try discriminate; try reflexivity; try (intros _); tally.

(** [apiRequest] when its timeout elapses before the [fetch] settles:
    the timer aborts the request and the caller gets the timeout error. *)
Lemma apiRequest_timeout (S : Type) (endpoint method : jstring)
    (data : option Body) (timeout : N) (s : S) :
  apiRequest endpoint method data timeout TimerFires s
  = (Throw timeoutError, s,
     [ActSetTimeout AbortRequest timeout;
      ActFetch (API_BASE_URL ++ endpoint) method data;
      ActAbort; ActClearTimeout]).
Proof. reflexivity. Qed.

(** [apiRequest] in general: it starts one timer and one [fetch], leaves
    the state alone, and throws exactly when the request fails; only an
    elapsed timeout aborts the [fetch]. *)
Lemma apiRequest_shape (S : Type) (endpoint method : jstring)
    (data : option Body) (timeout : N) (net : Settled) (s : S) :
  exists (res : Result JsValue) (rest : list Action),
    apiRequest endpoint method data timeout net s
    = (res, s,
       ActSetTimeout AbortRequest timeout
         :: ActFetch (API_BASE_URL ++ endpoint) method data :: rest)
    /\ existsb isFetch rest = false
    /\ existsb isAlert rest = false
    /\ existsb isAbort rest = match net with
                              | TimerFires => true
                              | Fetched _ => false
                              end
    /\ match res with
       | Ok d =>
           exists response,
             net = Fetched (Ok response)
             /\ ok response = true /\ json response = Ok d
       | Throw _ => requestFails net = true
       end.
Proof.
  destruct net as [|[response|e]].
  - do 2 eexists. split; [apply apiRequest_timeout|]. repeat split.
  - unfold apiRequest, tryCatch, bind, settle, throw, perform. reduce.
    unfold requestFails.
    destruct (ok response) eqn:Hok; reduce.
    + destruct (json response) as [d|e] eqn:Hj; reduce.
      * do 2 eexists. split; [reflexivity|]. repeat split.
        exists response. rewrite Hj. repeat split.
        unfold ok. assumption.
      * destruct (jstring_eqb (err_name e) (js "AbortError"));
          do 2 eexists; (split; [reflexivity|]); repeat split.
    + destruct (text response) as [d|e]; reduce;
        destruct (jstring_eqb _ (js "AbortError"));
        do 2 eexists; (split; [reflexivity|]); repeat split.
  - unfold apiRequest, tryCatch, bind, settle, throw, perform. reduce.
    destruct (jstring_eqb (err_name e) (js "AbortError"));
      do 2 eexists; (split; [reflexivity|]); repeat split.
Qed.

Lemma requestFails_ok (net : Settled) (response : Response)
    (d : JsValue) :
  net = Fetched (Ok response) -> ok response = true ->
  json response = Ok d -> requestFails net = false.
Proof. intros -> Hok Hj. unfold requestFails. now rewrite Hok, Hj. Qed.

(** The health check catches every failure of its request and turns it
    into one alert. *)
Lemma checkServerHealth_caught (net : Settled) (s : State) :
  let run := checkServerHealth net s in
  outcome run = Ok tt
  /\ final run = s
  /\ count isFetch (actions run) = 1
  /\ (requestFails net = true -> count isAlert (actions run) = 1).
Proof.
  destruct (apiRequest_shape State (js "/health") (js "GET") None 30000 net s)
    as [res [rest [E [Hf [Ha [_ Hr]]]]]].
  unfold checkServerHealth, tryCatch, bind, settle, ret, perform,
    final, outcome, actions.
  rewrite E. cbn [fst snd].
  destruct res as [response|e].
  - destruct Hr as [r0 [Hn [Hok Hj]]].
    rewrite (requestFails_ok net r0 response Hn Hok Hj). reduce.
    destruct (get response "agent_status") as [v|e]; reduce.
    + destruct (strict_eq_string v (js "available")); reduce;
        repeat split; try discriminate; tally.
    + repeat split; try discriminate; tally.
  - reduce. repeat split; tally.
Qed.

Section WithPlatform.

Variable platform : Platform.

Lemma loadReport_caught (data v : JsValue) (reportFetched : Result Response) (s : State) :
  get data "success" = Ok v ->
  let run := loadReport platform data reportFetched s in
  outcome run = Ok tt
  /\ count isAlert (actions run) = 0
  /\ count isPost (actions run) = 0
  /\ analysisResult (final run) = analysisResult s
  /\ showResult (final run) = showResult s.
Proof.
  intros Hs.
  destruct (ChatFacts.get_total data "success" "report_url" Hs) as [u Hu].
  destruct (ChatFacts.get_total data "success" "report_path" Hs) as [p Hp].
  unfold loadReport, tryCatch, bind, settle, ret, perform, setReportHtml,
    update, final, outcome, actions.
  rewrite Hu. reduce.
  destruct (truthy u); reduce.
  - destruct reportFetched as [response|e]; reduce.
    + destruct (ok response); reduce.
      * destruct (text response); reduce; repeat split; tally.
      * repeat split; tally.
    + repeat split; tally.
  - rewrite Hp. reduce. destruct (truthy p); reduce; repeat split; tally.
Qed.

Lemma uploadVideo_caught (closure : State) (videoUri : jstring)
    (fileInfo : Result bool) (net : Settled)
    (reportFetched : Result Response) (s : State) :
  let run := uploadVideo platform closure videoUri fileInfo net
               reportFetched s in
  outcome run = Ok tt
  /\ count isPost (actions run) <= 1
  /\ isLoading (final run) = false
  /\ (requestFails net = true -> count isAlert (actions run) = 1).
Proof.
  destruct (apiRequest_shape State (js "/analyze-exercise") (js "POST")
              (Some (videoForm videoUri (js "video.mp4")
                       (selectedExercise closure)))
              120000 net
              (mkState (openWorkout s) true false (selectedExercise s)
                 (analysisResult s) (showResult s) None false))
    as [res [rest [E [Hf [Ha [_ Hr]]]]]].
  assert (Hp : existsb isPost rest = false).
  { clear -Hf. induction rest as [|a rest IH]; [reflexivity|].
    simpl in *. apply orb_false_iff in Hf as [H1 H2].
    rewrite (IH H2). destruct a; try reflexivity. discriminate. }
  unfold uploadVideo, setIsLoading, setModalVisible, setAnalysisResult,
    setShowResult, setReportHtml, setShowReportModal,
    tryFinally, tryCatch, bind, settle, ret, throw, update, perform,
    final, outcome, actions.
  cbn [fst snd].
  destruct fileInfo as [[|]|e]; reduce.
  2,3: finish.
  rewrite E. cbn [fst snd].
  destruct res as [data|e]; reduce.
  2: finish.
  destruct Hr as [r0 [Hn [Hok Hj]]].
  rewrite (requestFails_ok net r0 data Hn Hok Hj).
  destruct (get data "success") as [v|e] eqn:Hs; reduce.
  2: finish.
  destruct (truthy v); reduce.
  - match goal with
    | |- context [loadReport platform data reportFetched ?s0] =>
        pose proof (loadReport_caught data v reportFetched s0 Hs) as L;
        destruct (loadReport platform data reportFetched s0)
          as [[r s2] a2]
    end.
    unfold outcome, final, actions in L. cbn [fst snd] in L.
    destruct L as [-> [La [Lp _]]]. reduce.
    repeat split; try discriminate.
    rewrite ?count_cons, ?count_app, Lp.
    rewrite ?count_none by assumption.
    vm_compute. lia.
  - destruct (ChatFacts.get_total data "success" "message" Hs) as [t Ht].
    rewrite Ht. reduce. finish.
Qed.
Lemma simulate_runs (exerciseType : jstring) (rnd : nat -> spec_float)
    (s : State) :
  reportEncodes platform exerciseType rnd ->
  exists url html,
    simulateAnalysisResult platform exerciseType rnd s
    = (Ok tt,
       mkState (openWorkout s) true false (selectedExercise s)
         (analysisResult s) (showResult s) (Some html) false,
       [ActSetTimeout (ShowMockResult (mockResult exerciseType rnd url))
          1500]).
Proof.
  intros [encoded [decoded [He Hd]]].
  exists (js "data:text/html," ++ encoded), decoded.
  unfold simulateAnalysisResult, setModalVisible, setIsLoading,
    setReportHtml, setShowReportModal, bind, settle, ret, perform, update.
  cbn [fst snd]. rewrite He.
  change (js "data:text/html," ++ encoded)
    with (100%N :: (skipn 1 (js "data:text/html,") ++ encoded)).
  cbn [fst snd].
  replace (substring_from (List.length (js "data:text/html,"))
             (100%N :: (skipn 1 (js "data:text/html,") ++ encoded)))
    with encoded by reflexivity.
  rewrite Hd. reflexivity.
Qed.

Lemma mock_counter (exerciseType : jstring) (rnd : nat -> spec_float)
    (url : jstring) :
  get (mockResult exerciseType rnd url) "counter"
  = Ok (JsNumber (randomInt (rnd 0) 10 5)).
Proof. reflexivity. Qed.

(** [useTestVideo] when the analysis request fails or its body has no
    true [success]: no alert, and the mock result of one of the first two
    sequences of draws is scheduled. *)
Lemma useTestVideo_falls_back (exerciseType : jstring) (net : Settled)
    (rnd1 rnd2 rnd3 : nat -> spec_float) (s : State) :
  analysisSucceeds net = false ->
  reportEncodes platform exerciseType rnd1 ->
  reportEncodes platform exerciseType rnd2 ->
  exists rnd url html log,
    (rnd = rnd1 \/ rnd = rnd2)
    /\ useTestVideo platform exerciseType net rnd1 rnd2 rnd3 s
       = (Ok tt,
          mkState (openWorkout s) false false (selectedExercise s)
            (analysisResult s) (showResult s) (Some html) false,
          log ++ [ActSetTimeout
                    (ShowMockResult (mockResult exerciseType rnd url))
                    1500])
    /\ count isAlert log = 0
    /\ count isPost log <= 1.
Proof.
  intros Hfail E1 E2.
  unfold useTestVideo, setModalVisible, setIsLoading, setAnalysisResult,
    setShowResult, tryFinally, tryCatch, bind, settle, ret, perform, update.
  cbn -[js assoc TEST_VIDEOS apiRequest simulateAnalysisResult videoForm
        count mockResult].
  set (s0 := mkState (openWorkout s) true false (selectedExercise s)
               (analysisResult s) (showResult s) (reportHtml s)
               (showReportModal s)).
  destruct (simulate_runs exerciseType rnd1 s0 E1) as [u1 [h1 R1]].
  destruct (simulate_runs exerciseType rnd2 s0 E2) as [u2 [h2 R2]].
  destruct (assoc exerciseType TEST_VIDEOS) as [videoUrl|].
  - destruct (apiRequest_shape State (js "/analyze-exercise") (js "POST")
                (Some (videoForm videoUrl (exerciseType ++ js "_test.mp4")
                         exerciseType))
                60000 net s0) as [res [rest [E [Hf [Ha [_ Hr]]]]]].
    assert (Hp : existsb isPost rest = false).
    { clear -Hf. induction rest as [|a rest IH]; [reflexivity|].
      simpl in *. apply orb_false_iff in Hf as [H1 H2].
      rewrite (IH H2). destruct a; try reflexivity. discriminate. }
    rewrite E. cbn [fst snd].
    set (log := ActSetTimeout AbortRequest 60000
                  :: ActFetch (API_BASE_URL ++ js "/analyze-exercise")
                       (js "POST")
                       (Some (videoForm videoUrl
                                (exerciseType ++ js "_test.mp4")
                                exerciseType))
                  :: rest) in *.
    assert (Hlog : count isAlert log = 0 /\ count isPost log <= 1).
    { subst log. split; tally. }
    destruct res as [data|e].
    + destruct Hr as [response [-> [Hok Hj]]].
      unfold analysisSucceeds in Hfail. rewrite Hok, Hj in Hfail.
      cbn [andb] in Hfail.
      destruct (get data "success") as [v|e]; cbn [fst snd].
      * rewrite Hfail, R1. cbn [fst snd].
        exists rnd1, u1, h1, log. split; [now left|].
        split; [|exact Hlog].
        rewrite !app_nil_r. reflexivity.
      * rewrite R2. cbn [fst snd].
        exists rnd2, u2, h2, log. split; [now right|].
        split; [|exact Hlog].
        rewrite !app_nil_r. reflexivity.
    + cbn [fst snd]. rewrite R2. cbn [fst snd].
      exists rnd2, u2, h2, log. split; [now right|].
      split; [|exact Hlog].
      rewrite !app_nil_r. reflexivity.
  - rewrite R1. cbn [fst snd]. exists rnd1, u1, h1, []. 
    split; [now left|]. split; [reflexivity|]. split; [reflexivity|].
    vm_compute. lia.
Qed.

End WithPlatform.

(** C5. When the analysis request of [useTestVideo] fails, or its body
    has no true [success], the handler returns normally without an alert
    and schedules a locally generated mock result; when the timer fires
    that mock result becomes the displayed analysis result, and its
    [counter] is an integer from 5 to 14.  This holds in every state and
    for all draws of [Math.random()], so for every repetition of the
    call, provided the platform encodes and decodes the mock report. *)
Theorem useTestVideo_mock_counter :
  forall (platform : Platform) (exerciseType : jstring) (net : Settled)
         (rnd1 rnd2 rnd3 : nat -> spec_float) (s : State),
    analysisSucceeds net = false ->
    (forall i, Number.isRandom (rnd1 i) = true) ->
    (forall i, Number.isRandom (rnd2 i) = true) ->
    reportEncodes platform exerciseType rnd1 ->
    reportEncodes platform exerciseType rnd2 ->
    let run := useTestVideo platform exerciseType net rnd1 rnd2 rnd3 s in
    exists (mock : JsValue) (n : Z),
      outcome run = Ok tt
      /\ In (ActSetTimeout (ShowMockResult mock) 1500) (actions run)
      /\ count isAlert (actions run) = 0
      /\ analysisResult (final (runTimer (ShowMockResult mock) (final run)))
         = mock
      /\ showResult (final (runTimer (ShowMockResult mock) (final run)))
         = true
      /\ get mock "counter" = Ok (JsNumber (Number.ofZ n))
      /\ (5 <= n <= 14)%Z.
Proof.
  intros platform exerciseType net rnd1 rnd2 rnd3 s Hfail H1 H2 E1 E2 run.
  destruct (useTestVideo_falls_back platform exerciseType net rnd1 rnd2
              rnd3 s Hfail E1 E2)
    as [rnd [url [html [log [Hrnd [E [Ha _]]]]]]].
  assert (Hr : Number.isRandom (rnd 0) = true)
    by (destruct Hrnd as [->| ->]; auto).
  destruct (NumberFacts.randomInt_10_5 (rnd 0) Hr) as [n [Hn En]].
  exists (mockResult exerciseType rnd url), n.
  subst run. rewrite E. unfold outcome, actions, final. cbn [fst snd].
  split; [reflexivity|]. split; [apply in_or_app; right; now left|].
  split; [rewrite count_app, Ha; reflexivity|].
  split; [reflexivity|]. split; [reflexivity|].
  split; [|exact Hn].
  rewrite mock_counter, En. reflexivity.
Qed.

Lemma useTestVideo_mock_counter_witness :
  let platform :=
    mkPlatform (fun _ => js "0") (fun s => Ok s) (fun s => Ok s) in
  let half := fun _ : nat => S754_finite false 4503599627370496 (-53) in
  let run := useTestVideo platform (js "squat") TimerFires half half half
               initialState in
  exists (mock : JsValue) (n : Z),
    outcome run = Ok tt
    /\ In (ActSetTimeout (ShowMockResult mock) 1500) (actions run)
    /\ count isAlert (actions run) = 0
    /\ analysisResult (final (runTimer (ShowMockResult mock) (final run)))
       = mock
    /\ showResult (final (runTimer (ShowMockResult mock) (final run)))
       = true
    /\ get mock "counter" = Ok (JsNumber (Number.ofZ n))
    /\ (5 <= n <= 14)%Z.
Proof.
  intros platform half.
  apply useTestVideo_mock_counter.
  - reflexivity.
  - intros i. vm_compute. reflexivity.
  - intros i. vm_compute. reflexivity.
  - do 2 eexists. split; reflexivity.
  - do 2 eexists. split; reflexivity.
Defined.

(** C4. An analysis result without [report_url] and without
    [report_path] gets no button for viewing the report in the result
    panel of the workouts screen, and pressing a report of the profile
    screen that has no [report_url] only shows an alert: the state, the
    report modal included, stays as it was. *)
Theorem no_report_no_view_action :
  forall (s : State) (report : JsValue) (p : Profile.State),
    get (analysisResult s) "report_url" = Ok JsUndefined ->
    get (analysisResult s) "report_path" = Ok JsUndefined ->
    get report "report_url" = Ok JsUndefined ->
    reportButtonRendered s = false
    /\ Profile.handleReportItemPress report p
       = (Ok tt, p,
          [ActAlert (js "无法打开报告")
             (JsString (js "此报告没有可用的URL。"))]).
Proof.
  intros s report p Hu Hp Hr. split.
  - unfold reportButtonRendered. rewrite Hu, Hp.
    cbn [or_else truthy andb]. apply andb_false_r.
  - destruct (ChatFacts.get_total report "report_url" "filename" Hr)
      as [w Hw].
    unfold Profile.handleReportItemPress, bind, settle, perform.
    rewrite Hw, Hr. reflexivity.
Qed.

Lemma no_report_no_view_action_witness :
  let result :=
    JsObject [(js "success", JsBool true);
              (js "exercise_type", JsString (js "squat"));
              (js "counter", JsNumber (Number.ofZ 12))] in
  let s := mkState None false false (js "squat") result true
             (Some (js "<html></html>")) false in
  let report := JsObject [(js "filename", JsString (js "squat_1.html"))] in
  reportButtonRendered s = false
  /\ Profile.handleReportItemPress report Profile.initialState
     = (Ok tt, Profile.initialState,
        [ActAlert (js "无法打开报告")
           (JsString (js "此报告没有可用的URL。"))]).
Proof.
  intros result s report.
  apply no_report_no_view_action; reflexivity.
Defined.

End WorkoutsFacts.

(* ================================================================== *)
(** ** The profile screen *)

Module ProfileFacts.

#[local] Unset Implicit Arguments.
Import Profile.

(** [fetchReports] returns normally whatever the request gives, issues
    one request and no alert, clears the loading flag, and leaves in
    [reports] the fetched array, or the empty list when the request did
    not succeed. *)
Lemma fetchReports_run (fetched : Result Response) (s : State) :
  exists log,
    fetchReports fetched s
    = (Ok tt,
       mkState
         (match fetchedReports fetched with
          | Some items => items
          | None => []
          end)
         false (isReportModalVisible s) (currentReportUrl s)
         (isWebViewLoading s),
       ActFetch (API_BASE_URL ++ js "/get-analysis-reports") (js "GET") None
         :: log)
    /\ log = [].
Proof.
  exists []. split; [|reflexivity].
  unfold fetchReports, fetchedReports, tryFinally, tryCatch, bind, settle,
    ret, throw, perform, setReports, setLoading, update.
  cbn [fst snd].
  destruct fetched as [response|e]; [|reflexivity].
  cbn [fst snd]. destruct (ok response); cbn [negb fst snd].
  2:{ destruct (text response); reflexivity. }
  destruct (json response) as [data|e]; [|reflexivity].
  cbn [fst snd].
  destruct data as [| |b|x|str|items|props]; try reflexivity.
  - destruct b; reflexivity.
  - destruct x; reflexivity.
  - destruct str; reflexivity.
  - cbn [truthy get fst snd].
    destruct (truthy (lookup (js "success") props)); [|reflexivity].
    cbn [fst snd].
    destruct (lookup (js "reports") props); reflexivity.
Qed.

(** C10. [fetchReports] is not atomic on error.  Whenever the request
    does not succeed (the [fetch] rejects, the status is not 2xx, the
    body is not JSON, or it is not an object with a true [success] and an
    array [reports]) the list of reports becomes empty, whatever it held
    before; a request that succeeds replaces it by the fetched array; in
    every case the handler returns normally with [loading] false. *)
Theorem fetchReports_failure_clears_reports :
  forall (fetched : Result Response) (s : State),
    let run := fetchReports fetched s in
    outcome run = Ok tt
    /\ loading (final run) = false
    /\ (fetchedReports fetched = None -> reports (final run) = [])
    /\ (forall items, fetchedReports fetched = Some items ->
                      reports (final run) = items).
Proof.
  intros fetched s run. subst run.
  destruct (fetchReports_run fetched s) as [log [E _]]. rewrite E.
  unfold outcome, final. cbn [fst snd reports loading].
  repeat split.
  - now intros ->.
  - now intros items ->.
Qed.

Lemma fetchReports_failure_clears_reports_witness :
  let old := [JsObject [(js "filename", JsString (js "squat_1.html"))]] in
  let s := mkState old false false JsNull false in
  reports (final (fetchReports (Ok (mkResponse 500 (Ok []) (Ok JsNull))) s))
  = [].
Proof.
  intros old s.
  exact (proj1 (proj2 (proj2
           (fetchReports_failure_clears_reports
              (Ok (mkResponse 500 (Ok []) (Ok JsNull))) s))) eq_refl).
Defined.

End ProfileFacts.

(* ================================================================== *)
(** ** Failures of network calls across the screens *)

Module ScreenFacts.

#[local] Unset Implicit Arguments.

Lemma forallb_count (p q : Action -> bool) (log : list Action) :
  forallb (fun a => negb (q a)) log = true ->
  (forall a, p a = true -> q a = true) ->
  count p log = 0.
Proof.
  intros H Hpq. apply WorkoutsFacts.count_none.
  induction log as [|a log IH]; [reflexivity|].
  simpl in *. apply andb_true_iff in H as [Ha H].
  rewrite (IH H), orb_false_r.
  destruct (p a) eqn:E; [|reflexivity].
  rewrite (Hpq a E) in Ha. discriminate.
Qed.

(** C6, as stated, fails: when the timeout of the health check of the
    workouts screen elapses, its request is aborted. *)
Lemma health_check_timeout_aborts :
  count isAbort
    (actions (Workouts.checkServerHealth Workouts.TimerFires
                Workouts.initialState)) = 1.
Proof. vm_compute. reflexivity. Qed.

(** C6, amended. A request made through [apiRequest] of the workouts
    screen is cancelled on the client when its timeout elapses: the timer
    aborts the [fetch] and the caller gets the timeout error; when the
    [fetch] settles first nothing is aborted.  The requests of the chat
    screen and of the profile screen are plain [fetch] calls: they set no
    timer and are never aborted. *)
Theorem timeout_aborts_apiRequest_only :
  (forall (S : Type) (endpoint method : jstring) (data : option Body)
          (timeout : N) (s : S),
      Workouts.apiRequest endpoint method data timeout Workouts.TimerFires s
      = (Throw Workouts.timeoutError, s,
         [ActSetTimeout AbortRequest timeout;
          ActFetch (Workouts.API_BASE_URL ++ endpoint) method data;
          ActAbort; ActClearTimeout]))
  /\ (forall (S : Type) (endpoint method : jstring) (data : option Body)
             (timeout : N) (r : Result Response) (s : S),
         count isAbort
           (actions (Workouts.apiRequest endpoint method data timeout
                       (Workouts.Fetched r) s)) = 0)
  /\ (forall (closure : Chat.State) (now1 now2 : jstring)
             (fetched : Result Response) (now3 : jstring) (s : Chat.State),
         let log := actions (Chat.sendMessage closure now1 now2 fetched
                               now3 s) in
         count isTimer log = 0 /\ count isAbort log = 0)
  /\ (forall (snapshot : list Chat.ChatMessage) (fetched : Result Response)
             (now : jstring) (s : Chat.State),
         let log := actions (Chat.checkApiStatus_begin s)
                    ++ actions (Chat.checkApiStatus_resume snapshot fetched
                                  now s) in
         count isTimer log = 0 /\ count isAbort log = 0)
  /\ (forall (fetched : Result Response) (s : Profile.State),
         let log := actions (Profile.fetchReports fetched s) in
         count isTimer log = 0 /\ count isAbort log = 0).
Proof.
  split; [|split; [|split; [|split]]].
  - intros. apply WorkoutsFacts.apiRequest_timeout.
  - intros S endpoint method data timeout r s.
    destruct (WorkoutsFacts.apiRequest_shape S endpoint method data timeout
                (Workouts.Fetched r) s) as [res [rest [E [_ [_ [Hab _]]]]]].
    rewrite E. unfold actions. cbn [snd].
    rewrite !WorkoutsFacts.count_cons, (WorkoutsFacts.count_none _ _ Hab).
    reflexivity.
  - intros closure now1 now2 fetched now3 s log.
    destruct (ChatFacts.sendMessage_log closure now1 now2 fetched now3 s)
      as [H _]. fold log in H.
    split;
      (apply forallb_count with (q := fun a => isTimer a || isAbort a);
       [exact H|intros a Ha; rewrite Ha;
                first [reflexivity|apply orb_true_r]]).
  - intros snapshot fetched now s log.
    pose proof (ChatFacts.health_log snapshot fetched now s) as H.
    cbv zeta in H. subst log. rewrite !WorkoutsFacts.count_app.
    split;
      match goal with
      | |- count ?p (actions (Chat.checkApiStatus_begin s)) + _ = 0 =>
          change (count p (actions (Chat.checkApiStatus_begin s))) with 0
      end;
      rewrite Nat.add_0_l;
      (apply forallb_count
         with (q := fun a => isFetch a || isTimer a || isAbort a);
       [exact H|intros a Ha; rewrite Ha;
                first [reflexivity|apply orb_true_r
                      |rewrite orb_true_r; reflexivity]]).
  - intros fetched s log. subst log.
    destruct (ProfileFacts.fetchReports_run fetched s) as [log [E ->]].
    rewrite E. split; reflexivity.
Qed.

Lemma requestFails_analysis (net : Workouts.Settled) :
  requestFails net = true -> analysisSucceeds net = false.
Proof.
  destruct net as [|[response|e]]; try reflexivity.
  unfold requestFails, analysisSucceeds.
  destruct (ok response); [|reflexivity].
  destruct (json response); [discriminate|reflexivity].
Qed.

(** C3, as stated, fails: when the request of [fetchReports] is
    rejected the handler shows no alert (the profile screen has no chat
    history either); it only empties the list of reports. *)
Lemma failed_fetchReports_is_silent :
  let old := [JsObject [(js "filename", JsString (js "squat_1.html"))]] in
  let s := Profile.mkState old false false JsNull false in
  let run := Profile.fetchReports
               (Throw (TypeError "Network request failed")) s in
  outcome run = Ok tt
  /\ count isAlert (actions run) = 0
  /\ final run = Profile.mkState [] false false JsNull false.
Proof. vm_compute. repeat split. Qed.

(** C3, amended. Every handler that makes a network call returns
    normally whatever the call gives, and makes the call once.  A failed
    call becomes: in [sendMessage] (the [fetch] or the parsing of the
    body throws) one error-flagged chat message; in the health check of
    the chat screen one error-flagged chat message and one alert; in the
    health check and in [uploadVideo] of the workouts screen (timeout,
    rejection, status outside 2xx or body that is not JSON) one alert; in
    [useTestVideo] no alert but the mock result; in [fetchReports] no
    alert. *)
Theorem network_failures_are_caught :
  forall platform : Platform,
    (forall (tempId : nat) (fetched : Result Response) (now : jstring)
            (s : Chat.State),
        let run := Chat.sendMessage_resume tempId fetched now s in
        outcome run = Ok tt
        /\ actions run = []
        /\ (fetchThrows fetched = true ->
            exists reply,
              Chat.chatHistory (final run)
              = keep tempId (Chat.chatHistory s) ++ [reply]
              /\ Chat.flag (Chat.Msg.isError reply) = true))
    /\ (forall (snapshot : list Chat.ChatMessage)
               (fetched : Result Response) (now : jstring) (s : Chat.State),
           let run := Chat.checkApiStatus_resume snapshot fetched now s in
           outcome run = Ok tt
           /\ count isFetch (actions run) = 0
           /\ (fetchThrows fetched = true ->
               count isAlert (actions run) = 1
               /\ exists msg,
                    Chat.chatHistory (final run)
                    = Chat.chatHistory s ++ [msg]
                    /\ Chat.flag (Chat.Msg.isError msg) = true))
    /\ (forall (net : Workouts.Settled) (s : Workouts.State),
           let run := Workouts.checkServerHealth net s in
           outcome run = Ok tt
           /\ count isFetch (actions run) = 1
           /\ (requestFails net = true -> count isAlert (actions run) = 1))
    /\ (forall (closure : Workouts.State) (videoUri : jstring)
               (fileInfo : Result bool) (net : Workouts.Settled)
               (reportFetched : Result Response) (s : Workouts.State),
           let run := Workouts.uploadVideo platform closure videoUri
                        fileInfo net reportFetched s in
           outcome run = Ok tt
           /\ count isPost (actions run) <= 1
           /\ (requestFails net = true -> count isAlert (actions run) = 1))
    /\ (forall (exerciseType : jstring) (net : Workouts.Settled)
               (rnd1 rnd2 rnd3 : nat -> spec_float) (s : Workouts.State),
           requestFails net = true ->
           reportEncodes platform exerciseType rnd1 ->
           reportEncodes platform exerciseType rnd2 ->
           let run := Workouts.useTestVideo platform exerciseType net
                        rnd1 rnd2 rnd3 s in
           outcome run = Ok tt
           /\ count isPost (actions run) <= 1
           /\ count isAlert (actions run) = 0)
    /\ (forall (fetched : Result Response) (s : Profile.State),
           let run := Profile.fetchReports fetched s in
           outcome run = Ok tt
           /\ count isFetch (actions run) = 1
           /\ count isAlert (actions run) = 0).
Proof.
  intros platform. split; [|split; [|split; [|split; [|split]]]].
  - intros tempId fetched now s run. subst run.
    destruct (ChatFacts.resume_shape tempId fetched now s)
      as [reply [E _]].
    split; [now rewrite E|]. split; [now rewrite E|].
    intros Hf. rewrite (ChatFacts.resume_throws tempId fetched now s Hf).
    eexists. split; reflexivity.
  - intros snapshot fetched now s run. subst run.
    destruct (ChatFacts.health_shape snapshot fetched now s) as [Ho _].
    split; [exact Ho|]. split.
    + pose proof (ChatFacts.health_log snapshot fetched now s) as H.
      cbv zeta in H.
      apply forallb_count
        with (q := fun a => isFetch a || isTimer a || isAbort a);
        [exact H|intros a Ha; now rewrite Ha].
    + intros Hf.
      destruct (ChatFacts.health_failure snapshot fetched now s Hf)
        as [msg [title [text [E He]]]].
      rewrite E. split; [reflexivity|]. exists msg. now split.
  - intros net s run.
    destruct (WorkoutsFacts.checkServerHealth_caught net s)
      as [H1 [_ [H2 H3]]].
    repeat split; assumption.
  - intros closure videoUri fileInfo net reportFetched s run.
    destruct (WorkoutsFacts.uploadVideo_caught platform closure videoUri
                fileInfo net reportFetched s) as [H1 [H2 [_ H3]]].
    repeat split; assumption.
  - intros exerciseType net rnd1 rnd2 rnd3 s Hf E1 E2 run. subst run.
    destruct (WorkoutsFacts.useTestVideo_falls_back platform exerciseType
                net rnd1 rnd2 rnd3 s (requestFails_analysis net Hf) E1 E2)
      as [rnd [url [html [log [_ [E [Ha Hp]]]]]]].
    rewrite E. unfold outcome, actions. cbn [fst snd].
    rewrite !WorkoutsFacts.count_app, Ha.
    split; [reflexivity|]. split; [|reflexivity].
    unfold count at 2. simpl. lia.
  - intros fetched s run. subst run.
    destruct (ProfileFacts.fetchReports_run fetched s) as [log [E ->]].
    rewrite E. repeat split.
Qed.

Lemma network_failures_are_caught_witness :
  let platform :=
    mkPlatform (fun _ => js "0") (fun s => Ok s) (fun s => Ok s) in
  count isAlert
    (actions (Workouts.uploadVideo platform Workouts.initialState
                (js "file:///clip.mp4") (Ok true) Workouts.TimerFires
                (Throw (TypeError "Network request failed"))
                Workouts.initialState)) = 1.
Proof.
  intros platform.
  exact (proj2 (proj2
           (proj1 (proj2 (proj2 (proj2
              (network_failures_are_caught platform))))
              Workouts.initialState (js "file:///clip.mp4") (Ok true)
              Workouts.TimerFires
              (Throw (TypeError "Network request failed"))
              Workouts.initialState)) eq_refl).
Defined.

End ScreenFacts.
(* ================================================================== *)
(** ** More on the chat screen *)

Module ChatExtra.

Import Chat StringFacts ChatFacts.

#[local] Unset Implicit Arguments.








(** The rest of [sendMessage], with what it appends: the reply carries
    the [tempId], is not a loading message, and is flagged as an error
    exactly when the body has no true [success]. *)
Lemma resume_reply (tempId : nat) (fetched : Result Response)
    (now : jstring) (s : State) :
  exists reply,
    sendMessage_resume tempId fetched now s
    = (Ok tt,
       mkState (message s) false (apiAvailable s)
         (keep tempId (chatHistory s) ++ [reply]),
       [])
    /\ Msg.id reply = tempId
    /\ Chat.flag (Msg.isLoading reply) = false
    /\ Chat.flag (Msg.isError reply) = negb (chatSucceeds fetched)
    /\ (isText reply = false ->
        exists response data v text,
          fetched = Ok response /\ json response = Ok data
          /\ get data "success" = Ok v /\ truthy v = true
          /\ get data "message" = Ok text
          /\ reply = botReply tempId text now).
Proof.
  destruct (fetchThrows fetched) eqn:F.
  { exists (connectionErrorReply tempId now).
    split; [now apply resume_throws|]. split; [reflexivity|].
    split; [reflexivity|]. split; [|discriminate].
    unfold fetchThrows in F. unfold chatSucceeds.
    destruct fetched as [response|e]; [|reflexivity].
    destruct (json response); [discriminate|reflexivity]. }
  destruct fetched as [response|e]; [|discriminate]. simpl in F.
  destruct (json response) as [data|e] eqn:Hj; [|discriminate].
  unfold chatSucceeds. rewrite Hj.
  destruct (get data "success") as [v|e] eqn:Hs.
  - destruct (@get_total data v "success" "message" Hs) as [text Ht].
    destruct (truthy v) eqn:Hv.
    + exists (botReply tempId text now).
      split; [eapply resume_success; eassumption|].
      repeat split. intros _. exists response, data, v, text. repeat split; assumption.
    + destruct (sanitize (or_else text (JsString (js "未知错误"))))
        as [shown|e] eqn:Hsan.
      * exists (errorReply tempId shown now).
        split; [|repeat split; discriminate].
        ChatFacts.run. rewrite Hj. ChatFacts.reduce. rewrite Hs.
        ChatFacts.reduce. rewrite Hv, Ht. ChatFacts.reduce.
        rewrite Hsan. reflexivity.
      * exists (connectionErrorReply tempId now).
        split; [|repeat split; discriminate].
        ChatFacts.run. rewrite Hj. ChatFacts.reduce. rewrite Hs.
        ChatFacts.reduce. rewrite Hv, Ht. ChatFacts.reduce.
        rewrite Hsan. ChatFacts.reduce.
        fold (keep tempId (chatHistory s)).
        fold (keep tempId (keep tempId (chatHistory s))).
        now rewrite keep_keep.
  - exists (connectionErrorReply tempId now).
    split; [|repeat split; discriminate].
    ChatFacts.run. rewrite Hj. ChatFacts.reduce. rewrite Hs.
    ChatFacts.reduce.
    fold (keep tempId (chatHistory s)).
    fold (keep tempId (keep tempId (chatHistory s))).
    now rewrite keep_keep.
Qed.

(** What the rest of the health check does to the history. *)
Lemma health_appends (snapshot : list ChatMessage)
    (fetched : Result Response) (now : jstring) (s : State) :
  let run := checkApiStatus_resume snapshot fetched now s in
  message (final run) = message s
  /\ (chatHistory (final run) = chatHistory s
      \/ exists msg,
           chatHistory (final run) = chatHistory s ++ [msg]
           /\ Msg.id msg = List.length snapshot + 1
           /\ Chat.flag (Msg.isLoading msg) = false
           /\ isText msg = true).
Proof.
  ChatFacts.run. destruct fetched as [response|e]; ChatFacts.reduce.
  2:{ split; [reflexivity|]. right. eexists. repeat split. }
  destruct (json response) as [data|e]; ChatFacts.reduce.
  2:{ split; [reflexivity|]. right. eexists. repeat split. }
  destruct (get data "agent_status") as [v|e]; ChatFacts.reduce.
  2:{ split; [reflexivity|]. right. eexists. repeat split. }
  destruct (strict_eq_string v (js "available")); ChatFacts.reduce.
  - split; [reflexivity|]. now left.
  - split; [reflexivity|]. right. eexists. repeat split.
Qed.

(** Every step of the screen is one of four changes of the history. *)
Lemma step_cases (now0 : jstring) (sc sc' : Screen) :
  step now0 sc sc' ->
  let h := chatHistory (state sc) in
  let h' := chatHistory (state sc') in
  (h' = h /\ pending sc' = pending sc)
  \/ (exists now1 now2,
         h' = h ++ [newMessage (state sc) now1;
                    loadingMessage (List.length h + 2) now2]
         /\ pending sc' = (List.length h + 2) :: pending sc)
  \/ (exists t reply,
         In t (pending sc)
         /\ h' = keep t h ++ [reply]
         /\ Msg.id reply = t
         /\ Chat.flag (Msg.isLoading reply) = false
         /\ pending sc' = remove Nat.eq_dec t (pending sc))
  \/ (exists msg,
         healthPending sc = true
         /\ h' = h ++ [msg]
         /\ Msg.id msg = 2
         /\ Chat.flag (Msg.isLoading msg) = false
         /\ pending sc' = pending sc).
Proof.
  intros St. destruct St as [sc text|sc now1 now2|sc t fetched now Hin
                            |sc fetched now Hp]; cbv zeta.
  - left. split; reflexivity.
  - destruct (begin_cases (state sc) now1 now2 (state sc))
      as [[acts [E _]]|[_ [Ha [acts E]]]]; rewrite E;
      unfold final, outcome; cbn [fst snd state pending chatHistory].
    + left. split; reflexivity.
    + right. left. exists now1, now2. split; reflexivity.
  - destruct (resume_reply t fetched now (state sc))
      as [reply [E [Hid [Hl _]]]].
    rewrite E. unfold final. cbn [fst snd state pending chatHistory].
    right. right. left. exists t, reply. repeat split; assumption.
  - destruct (health_appends (chatHistory (initialState now0)) fetched now
                (state sc)) as [_ [E|[msg [E [Hid [Hl _]]]]]];
      cbn [state pending].
    + left. split; [exact E|reflexivity].
    + right. right. right. exists msg. repeat split; assumption.
Qed.

Lemma Tidy_mount (now0 : jstring) : Tidy now0 (mount now0).
Proof.
  constructor; simpl.
  - now exists [].
  - intros msg [<-|[]]. simpl. lia.
  - intros msg [<-|[]]. discriminate.
  - intros t [].
Qed.

Lemma Tidy_step (now0 : jstring) (sc sc' : Screen) :
  step now0 sc sc' -> Inv sc -> Tidy now0 sc -> Tidy now0 sc'.
Proof.
  intros St I T. pose proof (step_cases now0 sc sc' St) as C.
  cbv zeta in C. set (h := chatHistory (state sc)) in *.
  destruct T as [[rest Tw] Tp Tl Tq]. fold h in Tw, Tp, Tl, Tq.
  destruct C as [[E Ep]|[[now1 [now2 [E Ep]]]|[[t [reply [Hin [E [Hid [Hl Ep]]]]]]
                |[msg [Hh [E [Hid [Hl Ep]]]]]]]].
  - constructor; rewrite ?E, ?Ep; [now exists rest|assumption..].
  - set (t := List.length h + 2) in *.
    assert (Hfresh : forall msg, In msg h -> Msg.id msg <> t).
    { intros msg Hm. pose proof (inv_bound I msg Hm) as Hb. fold h in Hb.
      subst t. lia. }
    constructor; rewrite ?E, ?Ep.
    + exists (rest ++ [newMessage (state sc) now1; loadingMessage t now2]).
      now rewrite Tw.
    + intros msg Hm. apply in_app_or in Hm as [Hm|[<-|[<-|[]]]]; simpl.
      * now apply Tp.
      * lia.
      * subst t. lia.
    + intros msg Hm Hload. apply in_app_or in Hm as [Hm|[<-|[<-|[]]]].
      * right. now apply Tl.
      * discriminate.
      * now left.
    + intros t' [<-|Hin].
      * exists (loadingMessage t now2). split; [|reflexivity].
        rewrite filter_app, (@filter_none t h Hfresh). simpl.
        unfold hasId, newMessage, loadingMessage. simpl. fold h.
        replace (List.length h + 1 =? t) with false
          by (symmetry; apply Nat.eqb_neq; subst t; lia).
        now rewrite Nat.eqb_refl.
      * pose proof (@inv_pending_bound sc _ I Hin) as Hb. fold h in Hb.
        destruct (Tq t' Hin) as [msg [Hf Hload]].
        exists msg. split; [|exact Hload].
        rewrite filter_app, Hf. simpl.
        unfold hasId, newMessage, loadingMessage. simpl. fold h.
        replace (List.length h + 1 =? t') with false
          by (symmetry; apply Nat.eqb_neq; lia).
        replace (t =? t') with false
          by (symmetry; apply Nat.eqb_neq; subst t; lia).
        reflexivity.
  - pose proof (@inv_pending_bound sc _ I Hin) as Hb. fold h in Hb.
    constructor; rewrite ?E, ?Ep.
    + rewrite Tw. unfold keep. cbn [filter].
      replace (Msg.id (welcome now0) =? t) with false
        by (symmetry; apply Nat.eqb_neq; simpl; lia).
      cbn [negb app]. eexists. reflexivity.
    + intros msg Hm. apply in_app_or in Hm as [Hm|[<-|[]]].
      * apply keep_In in Hm as [Hm _]. now apply Tp.
      * lia.
    + intros msg Hm Hload. apply in_app_or in Hm as [Hm|[<-|[]]].
      * apply keep_In in Hm as [Hm Hne]. apply in_in_remove.
        -- exact Hne.
        -- now apply Tl.
      * rewrite Hl in Hload. discriminate.
    + intros t' Hin'. apply in_remove in Hin' as [Hin' Hne].
      destruct (Tq t' Hin') as [msg [Hf Hload]].
      exists msg. split; [|exact Hload].
      rewrite filter_app, (@filter_keep_other t t' h Hne), Hf. simpl.
      unfold hasId. rewrite Hid.
      replace (t =? t') with false by (symmetry; apply Nat.eqb_neq; lia).
      reflexivity.
  - constructor; rewrite ?E, ?Ep.
    + exists (rest ++ [msg]). now rewrite Tw.
    + intros x Hx. apply in_app_or in Hx as [Hx|[<-|[]]].
      * now apply Tp.
      * lia.
    + intros x Hx Hload. apply in_app_or in Hx as [Hx|[<-|[]]].
      * now apply Tl.
      * rewrite Hl in Hload. discriminate.
    + intros t' Hin'.
      pose proof (@inv_pending_bound sc _ I Hin') as Hb.
      destruct (Tq t' Hin') as [old [Hf Hload]].
      exists old. split; [|exact Hload].
      rewrite filter_app, Hf. simpl. unfold hasId. rewrite Hid.
      replace (2 =? t') with false by (symmetry; apply Nat.eqb_neq; lia).
      reflexivity.
Qed.

Lemma reachable_Tidy (now0 : jstring) (sc : Screen) :
  reachable now0 sc -> Tidy now0 sc.
Proof.
  induction 1 as [|sc sc' R IH St].
  - apply Tidy_mount.
  - exact (Tidy_step now0 sc sc' St (reachable_Inv R) IH).
Qed.

Lemma steps_reachable (now0 : jstring) (sc sc' : Screen) :
  steps now0 sc sc' -> reachable now0 sc -> reachable now0 sc'.
Proof.
  induction 1 as [|sc sc' sc'' _ IH St]; intros R; [exact R|].
  exact (reach_step (IH R) St).
Qed.

Lemma step_available (now0 : jstring) (sc sc' : Screen) :
  step now0 sc sc' ->
  healthPending sc = false ->
  healthPending sc' = false
  /\ apiAvailable (state sc') = apiAvailable (state sc)
  /\ (apiAvailable (state sc) = false -> incl (pending sc') (pending sc)).
Proof.
  intros St Hh. destruct St as [sc text|sc now1 now2|sc t fetched now Hin
                               |sc fetched now Hp]; cbv zeta.
  - repeat split; [exact Hh|]. intros _. apply incl_refl.
  - destruct (begin_cases (state sc) now1 now2 (state sc))
      as [[acts [E _]]|[_ [Ha [acts E]]]]; rewrite E;
      unfold final, outcome; cbn [fst snd state pending healthPending].
    + repeat split; [exact Hh|]. intros _. apply incl_refl.
    + repeat split; [exact Hh|]. intros Hf. rewrite Ha in Hf. discriminate.
  - destruct (resume_reply t fetched now (state sc)) as [reply [E _]].
    rewrite E. unfold final. cbn [fst snd state pending healthPending].
    repeat split; [exact Hh|]. intros _ x Hx.
    now apply in_remove in Hx.
  - rewrite Hp in Hh. discriminate.
Qed.

Lemma spinner_ids_unique (h : list ChatMessage) :
  (forall x, In x (spinners h) ->
             List.length (filter (hasId (Msg.id x)) h) = 1) ->
  NoDup (map Msg.id (spinners h)).
Proof.
  induction h as [|a h IH]; intros H; [constructor|].
  assert (Hin : forall y t, In y h -> Msg.id y = t ->
                            1 <= List.length (filter (hasId t) h)).
  { intros y t Hy Ht.
    assert (Hf : In y (filter (hasId t) h)).
    { apply filter_In. split; [exact Hy|]. unfold hasId.
      now apply Nat.eqb_eq. }
    destruct (filter (hasId t) h); [destruct Hf|simpl; lia]. }
  assert (Hrest : NoDup (map Msg.id (spinners h))).
  { apply IH. intros x Hx.
    assert (Hx' : In x (spinners (a :: h))).
    { unfold spinners in *. simpl.
      destruct (Chat.flag (Msg.isLoading a)); [now right|exact Hx]. }
    pose proof (H x Hx') as Hlen. simpl in Hlen.
    apply filter_In in Hx as [Hx _].
    pose proof (Hin x (Msg.id x) Hx eq_refl) as H1.
    destruct (hasId (Msg.id x) a); simpl in Hlen; lia. }
  unfold spinners in *. simpl.
  destruct (Chat.flag (Msg.isLoading a)) eqn:La; [|exact Hrest].
  simpl. constructor; [|exact Hrest].
  intros Hdup. apply in_map_iff in Hdup as [y [Hid Hy]].
  apply filter_In in Hy as [Hy _].
  assert (Ha : In a (filter (fun msg => Chat.flag (Msg.isLoading msg))
                       (a :: h))).
  { simpl. rewrite La. now left. }
  pose proof (H a Ha) as Hlen. simpl in Hlen.
  unfold hasId at 1 in Hlen. rewrite Nat.eqb_refl in Hlen. simpl in Hlen.
  pose proof (Hin y (Msg.id a) Hy Hid). lia.
Qed.

Lemma settled_keep (t : nat) (h : list ChatMessage) :
  (forall x, In x h -> Msg.id x = t -> Chat.flag (Msg.isLoading x) = true) ->
  settledMessages (keep t h) = settledMessages h.
Proof.
  unfold settledMessages, keep.
  induction h as [|a h IH]; intros H; [reflexivity|].
  simpl. destruct (Nat.eqb_spec (Msg.id a) t) as [E|_]; simpl.
  - rewrite (H a (or_introl eq_refl) E). simpl.
    apply IH. intros x Hx. apply H. now right.
  - rewrite IH; [reflexivity|]. intros x Hx. apply H. now right.
Qed.

Lemma only_message (t : nat) (h : list ChatMessage) (msg x : ChatMessage) :
  filter (hasId t) h = [msg] -> In x h -> Msg.id x = t -> x = msg.
Proof.
  intros Hf Hx Hid.
  assert (Hin : In x (filter (hasId t) h)).
  { apply filter_In. split; [exact Hx|]. unfold hasId.
    now apply Nat.eqb_eq. }
  rewrite Hf in Hin. destruct Hin as [<-|[]]. reflexivity.
Qed.

Lemma NoDup_ids_filter (p : ChatMessage -> bool) (h : list ChatMessage) :
  NoDup (ids h) -> NoDup (ids (filter p h)).
Proof.
  unfold ids. induction h as [|a h IH]; intros H; [constructor|].
  simpl in *. inversion H as [|? ? Hnot Hrest]; subst.
  destruct (p a); [|now apply IH].
  simpl. constructor; [|now apply IH].
  intros Hin. apply Hnot. apply in_map_iff in Hin as [y [Hid Hy]].
  apply filter_In in Hy as [Hy _]. apply in_map_iff. now exists y.
Qed.

Lemma NoDup_snoc (l : list nat) (x : nat) :
  NoDup l -> ~ In x l -> NoDup (l ++ [x]).
Proof.
  induction 1 as [|a l Ha Hl IH]; intros Hx; simpl.
  - constructor; [intros []|constructor].
  - constructor.
    + intros Hin. apply in_app_or in Hin as [Hin|[<-|[]]].
      * now apply Ha.
      * apply Hx. now left.
    + apply IH. intros Hin. apply Hx. now right.
Qed.

Lemma steps_health_settled (now0 : jstring) (sc sc' : Screen) :
  steps now0 sc sc' -> healthPending sc = false -> healthPending sc' = false.
Proof.
  induction 1 as [|sc sc' sc'' _ IH St]; intros Hh; [exact Hh|].
  exact (proj1 (step_available now0 sc' sc'' St (IH Hh))).
Qed.

Lemma step_ids_unique (now0 : jstring) (sc sc' : Screen) :
  step now0 sc sc' -> Inv sc ->
  healthPending sc = false ->
  NoDup (ids (chatHistory (state sc))) ->
  NoDup (ids (chatHistory (state sc'))).
Proof.
  intros St I Hh N. pose proof (step_cases now0 sc sc' St) as C.
  cbv zeta in C. set (h := chatHistory (state sc)) in *.
  destruct C as [[E Ep]|[[now1 [now2 [E Ep]]]|[[t [reply [Hin [E [Hid [Hl Ep]]]]]]
                |[msg [Hp _]]]]].
  - now rewrite E.
  - rewrite E. unfold ids. rewrite map_app. simpl. fold h.
    assert (Hb : forall n, In n (map Msg.id h) -> n <= List.length h).
    { intros n Hn. apply in_map_iff in Hn as [x [<- Hx]].
      exact (inv_bound I x Hx). }
    change (map Msg.id h ++ [List.length h + 1; List.length h + 2])
      with (map Msg.id h ++ [List.length h + 1] ++ [List.length h + 2]).
    rewrite app_assoc. apply NoDup_snoc; [apply NoDup_snoc; [exact N|]|].
    + intros Hn. apply Hb in Hn. lia.
    + intros Hn. apply in_app_or in Hn as [Hn|[Hn|[]]]; [|lia].
      apply Hb in Hn. lia.
  - rewrite E. unfold ids. rewrite map_app. simpl.
    apply NoDup_snoc.
    + exact (NoDup_ids_filter _ h N).
    + intros Hn. apply in_map_iff in Hn as [x [Hx Hk]].
      apply keep_In in Hk as [_ Hne]. congruence.
  - rewrite Hp in Hh. discriminate.
Qed.

(** X2. In every state the screen can reach, the greeting of the first
    render is still the first message of the history, and every id lies
    between 1 and the length of the history. *)
Theorem greeting_stays_first_ids_bounded :
  forall (now0 : jstring) (sc : Screen),
    reachable now0 sc ->
    (exists rest, chatHistory (state sc) = welcome now0 :: rest)
    /\ (forall msg, In msg (chatHistory (state sc)) ->
                    1 <= Msg.id msg <= List.length (chatHistory (state sc))).
Proof.
  intros now0 sc R.
  pose proof (reachable_Inv R) as I. pose proof (reachable_Tidy now0 sc R) as T.
  split; [exact (tidy_welcome T)|].
  intros msg Hm. split; [exact (tidy_positive T msg Hm)|exact (inv_bound I msg Hm)].
Qed.

Lemma greeting_stays_first_ids_bounded_witness :
  let now0 := js "09:00" in
  let sc1 := mkScreen (final (setMessage (js "hi") (state (mount now0))))
               [] true in
  let sc2 := mkScreen
               (final (sendMessage_begin (state sc1) (js "09:01")
                         (js "09:01") (state sc1)))
               [3] true in
  exists rest, chatHistory (state sc2) = welcome now0 :: rest.
Proof.
  intros now0 sc1 sc2.
  assert (R : reachable now0 sc2).
  { apply reach_step with sc1.
    - apply reach_step with (mount now0).
      + apply reach_mount.
      + exact (step_edit now0 (mount now0) (js "hi")).
    - exact (step_send now0 sc1 (js "09:01") (js "09:01")). }
  exact (proj1 (greeting_stays_first_ids_bounded now0 sc2 R)).
Defined.

(** X3. Spinners and pending requests go together.  In every reachable
    state a message is shown with a spinner exactly when its id is the
    [tempId] of a request that has not settled, and there are as many
    spinners as such requests: once every request has settled, no
    spinner is left. *)
Theorem spinners_match_pending :
  forall (now0 : jstring) (sc : Screen),
    reachable now0 sc ->
    (forall msg, In msg (chatHistory (state sc)) ->
                 (Chat.flag (Msg.isLoading msg) = true
                  <-> In (Msg.id msg) (pending sc)))
    /\ List.length (spinners (chatHistory (state sc)))
       = List.length (pending sc).
Proof.
  intros now0 sc R.
  pose proof (reachable_Inv R) as I. pose proof (reachable_Tidy now0 sc R) as T.
  set (h := chatHistory (state sc)).
  destruct T as [_ _ Tl Tq]. fold h in Tl, Tq. split.
  - intros msg Hm. split; [now apply Tl|].
    intros Hp. destruct (Tq _ Hp) as [x [Hf Hload]].
    now rewrite (only_message _ h x msg Hf Hm eq_refl).
  - assert (N : NoDup (map Msg.id (spinners h))).
    { apply spinner_ids_unique. intros x Hx.
      apply filter_In in Hx as [Hx Hload].
      destruct (Tq _ (Tl x Hx Hload)) as [y [Hf _]]. now rewrite Hf. }
    assert (I1 : incl (map Msg.id (spinners h)) (pending sc)).
    { intros t Ht. apply in_map_iff in Ht as [x [<- Hx]].
      apply filter_In in Hx as [Hx Hload]. now apply Tl. }
    assert (I2 : incl (pending sc) (map Msg.id (spinners h))).
    { intros t Ht. destruct (Tq t Ht) as [x [Hf Hload]].
      apply filter_single in Hf as [Hx Hid].
      apply in_map_iff. exists x. split; [exact Hid|].
      apply filter_In. now split. }
    pose proof (NoDup_incl_length N I1) as L1.
    pose proof (NoDup_incl_length (inv_nodup I) I2) as L2.
    rewrite length_map in L1, L2. now apply Nat.le_antisymm.
Qed.

Lemma spinners_match_pending_witness :
  let now0 := js "09:00" in
  let sc1 := mkScreen (final (setMessage (js "hi") (state (mount now0))))
               [] true in
  let sc2 := mkScreen
               (final (sendMessage_begin (state sc1) (js "09:01")
                         (js "09:01") (state sc1)))
               [3] true in
  List.length (spinners (chatHistory (state sc2))) = 1.
Proof.
  intros now0 sc1 sc2.
  assert (R : reachable now0 sc2).
  { apply reach_step with sc1.
    - apply reach_step with (mount now0).
      + apply reach_mount.
      + exact (step_edit now0 (mount now0) (js "hi")).
    - exact (step_send now0 sc1 (js "09:01") (js "09:01")). }
  exact (proj2 (spinners_match_pending now0 sc2 R)).
Defined.

(** X4. The conversation is append-only.  A step of a reachable screen
    never removes or reorders a message that is not a loading message:
    the messages without spinner after the step are those before it,
    followed by what the step added; and the history never gets
    shorter.  Ids can repeat, but a loading message never shares its id
    with another message, so the filter that removes it removes nothing
    else. *)
Theorem settled_messages_append_only :
  forall (now0 : jstring) (sc sc' : Screen),
    reachable now0 sc ->
    step now0 sc sc' ->
    (exists added,
        settledMessages (chatHistory (state sc'))
        = settledMessages (chatHistory (state sc)) ++ added)
    /\ List.length (chatHistory (state sc))
       <= List.length (chatHistory (state sc')).
Proof.
  intros now0 sc sc' R St.
  pose proof (reachable_Tidy now0 sc R) as T.
  pose proof (step_cases now0 sc sc' St) as C.
  cbv zeta in C. set (h := chatHistory (state sc)) in *.
  destruct C as [[E Ep]|[[now1 [now2 [E Ep]]]|[[t [reply [Hin [E [Hid [Hl Ep]]]]]]
                |[msg [Hp [E [Hid [Hl Ep]]]]]]]]; rewrite E.
  - split; [|lia]. exists []. now rewrite app_nil_r.
  - split; [|rewrite length_app; lia].
    exists [newMessage (state sc) now1].
    unfold settledMessages. now rewrite filter_app.
  - destruct (tidy_pending T t Hin) as [old [Hf Hload]]. fold h in Hf.
    split.
    + exists [reply]. unfold settledMessages at 1. rewrite filter_app.
      fold (settledMessages (keep t h)). rewrite settled_keep.
      * simpl. now rewrite Hl.
      * intros x Hx Hx'. now rewrite (only_message t h old x Hf Hx Hx').
    + pose proof (keep_length t h) as Hlen. rewrite Hf in Hlen.
      rewrite length_app. simpl in *. lia.
  - split; [|rewrite length_app; lia].
    exists [msg]. unfold settledMessages. rewrite filter_app. simpl.
    now rewrite Hl.
Qed.

Lemma settled_messages_append_only_witness :
  let now0 := js "09:00" in
  let sc1 := mkScreen (final (setMessage (js "hi") (state (mount now0))))
               [] true in
  let sc2 := mkScreen
               (final (sendMessage_begin (state sc1) (js "09:01")
                         (js "09:01") (state sc1)))
               [3] true in
  List.length (chatHistory (state sc1))
  <= List.length (chatHistory (state sc2)).
Proof.
  intros now0 sc1 sc2.
  assert (R : reachable now0 sc1).
  { apply reach_step with (mount now0).
    - apply reach_mount.
    - exact (step_edit now0 (mount now0) (js "hi")). }
  exact (proj2 (settled_messages_append_only now0 sc1 sc2 R
                  (step_send now0 sc1 (js "09:01") (js "09:01")))).
Defined.

(** X5. The three outcomes of the health check.  It never throws and
    leaves the input alone.  When the body says the agent is
    "available", the server is marked available and nothing else
    happens.  When the body has another [agent_status], the server is
    marked unavailable and a warning message is appended, without any
    alert.  When the request, the parsing of the body or the reading of
    [agent_status] throws, the server is marked unavailable, an error
    message is appended and exactly one alert is raised.  The appended
    message is numbered from the history of the first render. *)
Theorem health_check_outcomes :
  forall (snapshot : list ChatMessage) (fetched : Result Response)
         (now : jstring) (s : State),
    let run := checkApiStatus_resume snapshot fetched now s in
    outcome run = Ok tt
    /\ message (final run) = message s
    /\ isLoading (final run) = isLoading s
    /\ match agentStatus fetched with
       | Some true =>
           apiAvailable (final run) = true
           /\ chatHistory (final run) = chatHistory s
           /\ actions run = []
       | Some false =>
           apiAvailable (final run) = false
           /\ actions run = []
           /\ exists msg,
               chatHistory (final run) = chatHistory s ++ [msg]
               /\ Msg.id msg = List.length snapshot + 1
               /\ Chat.flag (Msg.isWarning msg) = true
               /\ Chat.flag (Msg.isError msg) = false
       | None =>
           apiAvailable (final run) = false
           /\ (exists title text, actions run = [ActAlert title text])
           /\ exists msg,
               chatHistory (final run) = chatHistory s ++ [msg]
               /\ Msg.id msg = List.length snapshot + 1
               /\ Chat.flag (Msg.isWarning msg) = false
               /\ Chat.flag (Msg.isError msg) = true
       end.
Proof.
  intros snapshot fetched now s. unfold agentStatus. ChatFacts.run.
  destruct fetched as [response|e]; ChatFacts.reduce.
  2:{ repeat split; eexists; try eexists; repeat split. }
  destruct (json response) as [data|e]; ChatFacts.reduce.
  2:{ repeat split; eexists; try eexists; repeat split. }
  destruct (get data "agent_status") as [v|e]; ChatFacts.reduce.
  2:{ repeat split; eexists; try eexists; repeat split. }
  destruct (strict_eq_string v (js "available")); ChatFacts.reduce.
  - repeat split.
  - repeat split. eexists. repeat split.
Qed.

(** X6. The health check is the only thing that sets [apiAvailable].
    Once it has settled, no sequence of steps changes the flag; and when
    it has found the server unavailable, pressing send never starts a
    request again: the set of pending requests can only shrink.  The
    screen has no retry. *)
Theorem availability_is_settled_once :
  forall (now0 : jstring) (sc sc' : Screen),
    steps now0 sc sc' ->
    healthPending sc = false ->
    healthPending sc' = false
    /\ apiAvailable (state sc') = apiAvailable (state sc)
    /\ (apiAvailable (state sc) = false ->
        incl (pending sc') (pending sc)).
Proof.
  intros now0 sc sc' Ss Hh.
  induction Ss as [sc|sc sc' sc'' _ IH St].
  - repeat split; [exact Hh|]. intros _. apply incl_refl.
  - destruct (IH Hh) as [Hh' [Ha Hi]].
    destruct (step_available now0 sc' sc'' St Hh') as [Hh'' [Ha' Hi']].
    split; [exact Hh''|]. split; [congruence|].
    intros Hf. apply incl_tran with (pending sc').
    + apply Hi'. congruence.
    + now apply Hi.
Qed.

Lemma availability_is_settled_once_witness :
  let now0 := js "09:00" in
  let sc0 := mkScreen
               (final (checkApiStatus_resume
                         (chatHistory (initialState now0))
                         (Throw (TypeError "Network request failed"))
                         (js "09:00") (state (mount now0))))
               [] false in
  let sc1 := mkScreen (final (setMessage (js "hi") (state sc0))) [] false in
  let sc2 := mkScreen
               (final (sendMessage_begin (state sc1) (js "09:01")
                         (js "09:01") (state sc1)))
               [] false in
  apiAvailable (state sc2) = false /\ pending sc2 = [].
Proof.
  intros now0 sc0 sc1 sc2.
  assert (Ss : steps now0 sc0 sc2).
  { apply steps_step with sc1.
    - apply steps_step with sc0.
      + apply steps_refl.
      + exact (step_edit now0 sc0 (js "hi")).
    - exact (step_send now0 sc1 (js "09:01") (js "09:01")). }
  destruct (availability_is_settled_once now0 sc0 sc2 Ss eq_refl)
    as [_ [Ha Hi]].
  split; [exact Ha|].
  specialize (Hi eq_refl).
  destruct (pending sc2) as [|t l]; [reflexivity|].
  destruct (Hi t (or_introl eq_refl)).
Defined.

(** X7. Which replies break the render.  The message [sendMessage]
    appends when its request settles is rendered through [replace];
    that throws exactly when the body has a true [success] and a
    [message] that is not a string, which the handler stores as it
    is. *)
Theorem reply_breaks_render_iff :
  forall (tempId : nat) (fetched : Result Response) (now : jstring)
         (s : State),
  exists reply,
    chatHistory (final (sendMessage_resume tempId fetched now s))
    = keep tempId (chatHistory s) ++ [reply]
    /\ ((exists e, renderMessage reply = Throw e)
        <-> exists response data v text,
          fetched = Ok response /\ json response = Ok data
          /\ get data "success" = Ok v /\ truthy v = true
          /\ get data "message" = Ok text
          /\ forall str, text <> JsString str).
Proof.
  intros tempId fetched now s.
  destruct (resume_reply tempId fetched now s)
    as [reply [E [Hid [Hl [_ Htext]]]]].
  exists reply. split; [now rewrite E|]. split.
  - intros [e He]. unfold renderMessage in He. rewrite Hl in He.
    assert (Hn : isText reply = false).
    { unfold isText. destruct (Msg.message reply); try reflexivity.
      discriminate. }
    destruct (Htext Hn) as [response [data [v [text [F [Hj [Hs [Hv [Ht Hr]]]]]]]]].
    exists response, data, v, text. repeat split; try assumption.
    intros str ->. rewrite Hr in Hn. discriminate.
  - intros [response [data [v [text [F [Hj [Hs [Hv [Ht Hn]]]]]]]]].
    subst fetched.
    rewrite (@resume_success tempId response data v text now s Hj Hs Hv Ht)
      in E.
    injection E as E. apply app_inv_head in E. injection E as <-.
    unfold renderMessage, botReply. cbn [Msg.isLoading Msg.message Chat.flag].
    destruct text; try (eexists; reflexivity).
    exfalso. now apply (Hn s0).
Qed.

(** X8. What a settling request does to the counts.  In a reachable
    state, whatever a pending request settles with, the history keeps
    its length (the reply takes the place of the loading message, at
    the end), and the number of error-flagged messages grows by one when
    the body has no true [success], and not at all otherwise. *)
Theorem reply_replaces_spinner :
  forall (now0 : jstring) (sc : Screen) (tempId : nat)
         (fetched : Result Response) (now : jstring),
    reachable now0 sc ->
    In tempId (pending sc) ->
    let h := chatHistory (state sc) in
    let h' := chatHistory
                (final (sendMessage_resume tempId fetched now (state sc))) in
    List.length h' = List.length h
    /\ errorCount h'
       = errorCount h + (if chatSucceeds fetched then 0 else 1)
    /\ List.length (spinners h') + 1 = List.length (spinners h).
Proof.
  intros now0 sc tempId fetched now R Hin h h'.
  pose proof (reachable_Inv R) as I.
  pose proof (reachable_Tidy now0 sc R) as T.
  destruct (resume_reply tempId fetched now (state sc))
    as [reply [E [Hid [Hl [He _]]]]].
  assert (E' : h' = keep tempId h ++ [reply]) by (subst h'; now rewrite E).
  destruct (inv_pending I tempId Hin) as [_ [old [Hold Herr]]].
  destruct (tidy_pending T tempId Hin) as [old' [Hold' Hload]].
  fold h in Hold, Hold'. rewrite Hold in Hold'. injection Hold' as <-.
  pose proof (keep_length tempId h) as Hlen.
  pose proof (keep_errorCount tempId h) as Hcnt.
  rewrite Hold in Hlen, Hcnt. simpl in Hlen.
  unfold errorCount at 1 in Hcnt. simpl in Hcnt. rewrite Herr in Hcnt.
  simpl in Hcnt. rewrite E'. split; [|split].
  - rewrite length_app. simpl. lia.
  - rewrite errorCount_app. unfold errorCount at 2. simpl. rewrite He.
    destruct (chatSucceeds fetched); simpl; lia.
  - assert (Hs : List.length (spinners (filter (hasId tempId) h))
                 + List.length (spinners (keep tempId h))
                 = List.length (spinners h)).
    { unfold spinners, keep, hasId. clear.
      induction h as [|x h IH]; [reflexivity|].
      simpl. destruct (Msg.id x =? tempId); simpl;
        destruct (Chat.flag (Msg.isLoading x)); simpl; lia. }
    rewrite Hold in Hs. unfold spinners at 1 in Hs. simpl in Hs.
    rewrite Hload in Hs. simpl in Hs.
    unfold spinners at 1. rewrite filter_app. simpl. rewrite Hl.
    rewrite length_app. simpl.
    change (filter (fun msg => Chat.flag (Msg.isLoading msg))
              (keep tempId h)) with (spinners (keep tempId h)).
    lia.
Qed.

Lemma reply_replaces_spinner_witness :
  let now0 := js "09:00" in
  let sc1 := mkScreen (final (setMessage (js "hi") (state (mount now0))))
               [] true in
  let sc2 := mkScreen
               (final (sendMessage_begin (state sc1) (js "09:01")
                         (js "09:01") (state sc1)))
               [3] true in
  List.length
    (chatHistory
       (final (sendMessage_resume 3
                 (Throw (TypeError "Network request failed")) (js "09:02")
                 (state sc2))))
  = List.length (chatHistory (state sc2)).
Proof.
  intros now0 sc1 sc2.
  assert (R : reachable now0 sc2).
  { apply reach_step with sc1.
    - apply reach_step with (mount now0).
      + apply reach_mount.
      + exact (step_edit now0 (mount now0) (js "hi")).
    - exact (step_send now0 sc1 (js "09:01") (js "09:01")). }
  refine (proj1 (reply_replaces_spinner now0 sc2 3
                   (Throw (TypeError "Network request failed")) (js "09:02")
                   R _)).
  simpl. now left.
Defined.

(** X9. Ids repeat only through the health check.  From a reachable
    state in which the health check has settled and the ids of the
    history are pairwise different, every sequence of steps leads to a
    history whose ids are pairwise different. *)
Theorem ids_unique_once_health_settled :
  forall (now0 : jstring) (sc sc' : Screen),
    reachable now0 sc ->
    healthPending sc = false ->
    NoDup (ids (chatHistory (state sc))) ->
    steps now0 sc sc' ->
    NoDup (ids (chatHistory (state sc'))).
Proof.
  intros now0 sc sc' R Hh N Ss.
  induction Ss as [sc|sc sc' sc'' Ss IH St]; [exact N|].
  pose proof (steps_reachable now0 sc sc' Ss R) as R'.
  pose proof (steps_health_settled now0 sc sc' Ss Hh) as Hh'.
  exact (step_ids_unique now0 sc' sc'' St (reachable_Inv R') Hh'
           (IH R Hh N)).
Qed.

Lemma ids_unique_once_health_settled_witness :
  let now0 := js "09:00" in
  let healthy :=
    Ok (mkResponse 200 (Ok [])
          (Ok (JsObject [(js "agent_status", JsString (js "available"))]))) in
  let sc0 := mkScreen
               (final (checkApiStatus_resume
                         (chatHistory (initialState now0)) healthy
                         (js "09:00") (state (mount now0))))
               [] false in
  let sc1 := mkScreen (final (setMessage (js "hi") (state sc0))) [] false in
  let sc2 := mkScreen
               (final (sendMessage_begin (state sc1) (js "09:01")
                         (js "09:01") (state sc1)))
               [3] false in
  NoDup (ids (chatHistory (state sc2))).
Proof.
  intros now0 healthy sc0 sc1 sc2.
  assert (R : reachable now0 sc0).
  { apply reach_step with (mount now0).
    - apply reach_mount.
    - exact (step_health now0 (mount now0) healthy (js "09:00") eq_refl). }
  assert (Ss : steps now0 sc0 sc2).
  { apply steps_step with sc1.
    - apply steps_step with sc0.
      + apply steps_refl.
      + exact (step_edit now0 sc0 (js "hi")).
    - exact (step_send now0 sc1 (js "09:01") (js "09:01")). }
  refine (ids_unique_once_health_settled now0 sc0 sc2 R eq_refl _ Ss).
  simpl. constructor; [intros []|constructor].
Defined.

End ChatExtra.

(* ================================================================== *)
(** ** More on the workouts screen *)

Module WorkoutsExtra.

#[local] Unset Implicit Arguments.
Import Workouts WorkoutsFacts.



Lemma jstring_eqb_eq (a b : jstring) : jstring_eqb a b = true <-> a = b.
Proof.
  revert b. induction a as [|x a IH]; intros [|y b]; simpl;
    try (split; [discriminate|discriminate]); [tauto|].
  unfold char_eqb. rewrite andb_true_iff, N.eqb_eq, IH.
  split; [intros [-> ->]; reflexivity|intros H; now inversion H].
Qed.

(** X10. [apiRequest] and its timer.  Whatever happens, the state is left
    alone, one timer and one [fetch] are started, and the last thing
    done is to clear the timer.  The timer is cleared once when the
    body is returned and when the [fetch] rejects or is aborted, and
    twice (after the [fetch] and again in the handler of the exception)
    when a response arrives whose status is not 2xx or whose body is not
    JSON.  The call throws exactly when the request fails. *)
Theorem apiRequest_clears_timer :
  forall (S : Type) (endpoint method : jstring) (data : option Body)
         (timeout : N) (net : Settled) (s : S),
    let run := apiRequest endpoint method data timeout net s in
    final run = s
    /\ (exists rest,
           actions run
           = ActSetTimeout AbortRequest timeout
               :: ActFetch (API_BASE_URL ++ endpoint) method data
               :: rest ++ [ActClearTimeout])
    /\ count isTimer (actions run) = 1
    /\ count isFetch (actions run) = 1
    /\ count isClearTimeout (actions run)
       = match net with
         | Fetched (Ok _) => if requestFails net then 2 else 1
         | _ => 1
         end
    /\ (requestFails net = true <-> exists e, outcome run = Throw e).
Proof.
  intros S endpoint method data timeout net s.
  destruct net as [|[response|e]].
  - cbv zeta. rewrite apiRequest_timeout.
    unfold final, actions, outcome. cbn [fst snd].
    split; [reflexivity|]. split; [now exists [ActAbort]|].
    do 3 (split; [reflexivity|]). split; [eauto|reflexivity].
  - unfold apiRequest, tryCatch, bind, settle, throw, perform, final,
      actions, outcome, requestFails.
    cbn [fst snd].
    destruct (ok response) eqn:Hok; cbn [negb fst snd orb].
    + destruct (json response) as [d|e] eqn:Hj; cbn [fst snd app].
      * split; [reflexivity|]. split; [now exists []|].
        do 3 (split; [reflexivity|]).
        split; [discriminate|]. intros [e He]. discriminate.
      * destruct (jstring_eqb (err_name e) (js "AbortError"));
          cbn [fst snd app];
          (split; [reflexivity|]); (split; [now exists [ActClearTimeout]|]);
          do 3 (split; [reflexivity|]); (split; [eauto|reflexivity]).
    + destruct (text response) as [d|e]; cbn [fst snd app];
        destruct (jstring_eqb _ (js "AbortError"));
        cbn [fst snd app];
        (split; [reflexivity|]); (split; [now exists [ActClearTimeout]|]);
        do 3 (split; [reflexivity|]); (split; [eauto|reflexivity]).
  - unfold apiRequest, tryCatch, bind, settle, throw, perform, final,
      actions, outcome, requestFails.
    cbn [fst snd].
    destruct (jstring_eqb (err_name e) (js "AbortError"));
      cbn [fst snd app];
      (split; [reflexivity|]); (split; [now exists []|]);
      do 3 (split; [reflexivity|]); (split; [eauto|reflexivity]).
Qed.

(** X11. The health check of the workouts screen never throws, never
    changes the state, and makes one request; it raises no alert when
    the server answers that its agent is "available", and exactly one
    alert in every other case. *)
Theorem checkServerHealth_alerts_unless_available :
  forall (net : Settled) (s : State),
    let run := checkServerHealth net s in
    outcome run = Ok tt
    /\ final run = s
    /\ count isFetch (actions run) = 1
    /\ count isAlert (actions run)
       = if serverAvailable net then 0 else 1.
Proof.
  intros net s.
  destruct (apiRequest_shape State (js "/health") (js "GET") None 30000 net s)
    as [res [rest [E [Hf [Ha [_ Hr]]]]]].
  unfold checkServerHealth, tryCatch, bind, settle, ret, perform,
    final, outcome, actions.
  rewrite E. cbn [fst snd].
  destruct res as [response|e].
  - destruct Hr as [r0 [-> [Hok Hj]]]. unfold serverAvailable.
    rewrite Hok, Hj. cbn [andb].
    destruct (get response "agent_status") as [v|e]; reduce.
    + destruct (strict_eq_string v (js "available")); reduce;
        repeat split; tally.
    + repeat split; tally.
  - assert (Hs : serverAvailable net = false).
    { unfold serverAvailable, requestFails in *.
      destruct net as [|[response|e0]]; try reflexivity.
      destruct (ok response); [|reflexivity].
      destruct (json response); [discriminate|reflexivity]. }
    rewrite Hs. reduce. repeat split; tally.
Qed.



Lemma analysis_fails (response : Response) (data : JsValue) :
  analysisSucceeds (Fetched (Ok response)) = false ->
  ok response = true -> json response = Ok data ->
  match get data "success" with
  | Ok v => truthy v = false
  | Throw _ => True
  end.
Proof.
  unfold analysisSucceeds. intros H Hok Hj. rewrite Hok, Hj in H.
  destruct (get data "success"); [exact H|exact I].
Qed.


Section WithPlatform.

Variable platform : Platform.

Lemma loadReport_result (data url path : JsValue)
    (reportFetched : Result Response) (s : State) :
  get data "report_url" = Ok url ->
  get data "report_path" = Ok path ->
  exists html log,
    loadReport platform data reportFetched s
    = (Ok tt,
       mkState (openWorkout s) (isLoading s) (modalVisible s)
         (selectedExercise s) (analysisResult s) (showResult s) html
         (showReportModal s),
       log)
    /\ count isAlert log = 0
    /\ count isFetch log = (if truthy url then 1 else 0)
    /\ htmlLoaded html
       = if truthy url then negb (emptyReport reportFetched)
         else if truthy path then true
              else htmlLoaded (reportHtml s).
Proof.
  intros Hu Hp.
  unfold loadReport, tryCatch, bind, settle, ret, perform, setReportHtml,
    update, emptyReport.
  rewrite Hu. cbn [fst snd].
  destruct (truthy url); cbn [fst snd].
  - destruct reportFetched as [response|e]; cbn [fst snd].
    + destruct (ok response); cbn [fst snd andb negb].
      * destruct (text response) as [[|c t]|e]; cbn [fst snd];
          do 2 eexists; (split; [reflexivity|]); repeat split; reflexivity.
      * do 2 eexists. split; [reflexivity|]. repeat split; reflexivity.
    + do 2 eexists. split; [reflexivity|]. repeat split; reflexivity.
  - rewrite Hp. cbn [fst snd]. destruct (truthy path); cbn [fst snd].
    + do 2 eexists. split; [reflexivity|]. repeat split; reflexivity.
    + exists (reportHtml s), []. split; [now destruct s|].
      repeat split; reflexivity.
Qed.

(** X12. An upload that fails.  When the file is missing or cannot be
    inspected, or when the analysis request fails or its body has no
    true [success], [uploadVideo] returns normally after exactly one
    alert.  The analysis result shown before stays as it was, but the
    text of its report, reset before the request, is gone: the panel of
    the earlier result has lost its report button.  Without a file no
    request is made at all. *)
Theorem uploadVideo_failure_keeps_result_drops_report :
  forall (closure : State) (videoUri : jstring) (fileInfo : Result bool)
         (net : Settled) (reportFetched : Result Response) (s : State),
    fileInfo <> Ok true \/ analysisSucceeds net = false ->
    let run := uploadVideo platform closure videoUri fileInfo net
                 reportFetched s in
    outcome run = Ok tt
    /\ final run
       = mkState (openWorkout s) false false (selectedExercise s)
           (analysisResult s) (showResult s) None false
    /\ count isAlert (actions run) = 1
    /\ count isFetch (actions run)
       = match fileInfo with Ok true => 1 | _ => 0 end
    /\ reportButtonRendered (final run) = false.
Proof.
  intros closure videoUri fileInfo net reportFetched s H.
  assert (B : forall s0 : State,
             reportButtonRendered
               (mkState (openWorkout s0) false false (selectedExercise s0)
                  (analysisResult s0) (showResult s0) None false) = false).
  { intros s0. unfold reportButtonRendered. cbn [reportHtml analysisResult].
    destruct (get (analysisResult s0) "report_path");
      destruct (get (analysisResult s0) "report_url");
      cbn [htmlLoaded]; rewrite ?andb_false_r; reflexivity. }
  destruct (apiRequest_shape State (js "/analyze-exercise") (js "POST")
              (Some (videoForm videoUri (js "video.mp4")
                       (selectedExercise closure)))
              120000 net
              (mkState (openWorkout s) true false (selectedExercise s)
                 (analysisResult s) (showResult s) None false))
    as [res [rest [E [Hf [Ha [_ Hr]]]]]].
  unfold uploadVideo, setIsLoading, setModalVisible, setAnalysisResult,
    setShowResult, setReportHtml, setShowReportModal,
    tryFinally, tryCatch, bind, settle, ret, throw, update, perform,
    final, outcome, actions.
  cbn [fst snd].
  destruct fileInfo as [[|]|e]; reduce.
  2,3: (split; [reflexivity|]); (split; [reflexivity|]);
       (split; [reflexivity|]); (split; [reflexivity|]); apply B.
  destruct H as [H|H]; [now elim H|].
  rewrite E. cbn [fst snd].
  destruct res as [data|e]; reduce.
  2:{ split; [reflexivity|]. split; [reflexivity|].
      split; [tally|]. split; [tally|]. apply B. }
  destruct Hr as [response [-> [Hok Hj]]].
  pose proof (analysis_fails response data H Hok Hj) as Hs.
  destruct (get data "success") as [v|e] eqn:Gs; reduce.
  - rewrite Hs. reduce.
    destruct (ChatFacts.get_total data "success" "message" Gs) as [t Ht].
    rewrite Ht. reduce.
    split; [reflexivity|]. split; [reflexivity|].
    split; [tally|]. split; [tally|]. apply B.
  - split; [reflexivity|]. split; [reflexivity|].
    split; [tally|]. split; [tally|]. apply B.
Qed.






End WithPlatform.

Lemma reportButton_parts (s : State) :
  reportButtonRendered s = true ->
  truthy (analysisResult s) = true /\ htmlLoaded (reportHtml s) = true.
Proof.
  unfold reportButtonRendered, resultPanelRendered. intros H.
  apply andb_true_iff in H as [H1 H2].
  apply andb_true_iff in H1 as [_ H1]. split; [exact H1|].
  destruct (get (analysisResult s) "report_path"); [|discriminate].
  destruct (get (analysisResult s) "report_url"); [|discriminate].
  now apply andb_true_iff in H2 as [_ H2].
Qed.

(** X16. The report modal.  Where the report button is rendered, its
    handler opens the modal and never raises its alert, whose branch is
    dead: the button exists only with a loaded report.  The modal is
    then on screen.  When the web view of the modal reports an error,
    one alert is raised and the modal is closed, with the result and the
    report left in place, so that the button is still there. *)
Theorem report_modal_opens_and_closes :
  forall (s : State) (description : option jstring),
    reportButtonRendered s = true ->
    let opened := viewReport s s in
    let failed := handleWebViewError description (final opened) in
    outcome opened = Ok tt
    /\ actions opened = []
    /\ reportModalRendered (final opened) = true
    /\ outcome failed = Ok tt
    /\ count isAlert (actions failed) = 1
    /\ reportModalRendered (final failed) = false
    /\ reportButtonRendered (final failed) = true
    /\ analysisResult (final failed) = analysisResult s
    /\ reportHtml (final failed) = reportHtml s.
Proof.
  intros s description H.
  destruct (reportButton_parts s H) as [Ht Hh].
  unfold viewReport, handleWebViewError, setShowReportModal, bind, perform,
    update, final, outcome, actions, reportModalRendered.
  rewrite Hh.
  cbn [fst snd analysisResult reportHtml showReportModal app].
  rewrite Ht, Hh.
  do 5 (split; [reflexivity|]). split; [reflexivity|].
  split; [|split; reflexivity].
  unfold reportButtonRendered, resultPanelRendered in *.
  cbn [analysisResult showResult reportHtml]. exact H.
Qed.

Lemma report_modal_opens_and_closes_witness :
  let result :=
    JsObject [(js "success", JsBool true);
              (js "report_path", JsString (js "/reports/squat_1.html"))] in
  let s := mkState None false false (js "squat") result true
             (Some (js "<html></html>")) false in
  reportModalRendered (final (viewReport s s)) = true.
Proof.
  intros result s.
  exact (proj1 (proj2 (proj2
           (report_modal_opens_and_closes s None eq_refl)))).
Defined.

(** X17. [toggleWorkout].  A press opens the workout unless it is the
    one already open, which it closes; a second press after the screen
    has rendered again undoes the first when no other workout was
    open; a second press handled by the same render changes nothing
    more. *)
Theorem toggleWorkout_presses :
  forall (workout : jstring) (s : State),
    let s1 := final (toggleWorkout s workout s) in
    openWorkout s1
    = (if match openWorkout s with
          | Some w => jstring_eqb w workout
          | None => false
          end
       then None else Some workout)
    /\ (openWorkout s = None \/ openWorkout s = Some workout ->
        final (toggleWorkout s1 workout s1) = s)
    /\ final (toggleWorkout s workout s1) = s1.
Proof.
  intros workout s.
  assert (R : jstring_eqb workout workout = true)
    by now apply jstring_eqb_eq.
  cbv zeta. unfold toggleWorkout, setOpenWorkout, update, final.
  destruct s as [[w|] l m e a r h p]; cbn [fst snd openWorkout].
  - destruct (jstring_eqb w workout) eqn:E; cbn [fst snd openWorkout].
    + apply jstring_eqb_eq in E. subst w.
      split; [reflexivity|]. split; [|reflexivity]. intros _. reflexivity.
    + rewrite R. cbn [fst snd openWorkout].
      split; [reflexivity|]. split; [|reflexivity].
      intros [H|H]; [discriminate|]. injection H as ->.
      rewrite R in E. discriminate.
  - rewrite R. cbn [fst snd openWorkout].
    split; [reflexivity|]. split; [|reflexivity]. intros _. reflexivity.
Qed.

Section WithPlatform.

Variable platform : Platform.

Lemma loadReport_frame (data v : JsValue) (reportFetched : Result Response)
    (s : State) :
  get data "success" = Ok v ->
  exists html log,
    loadReport platform data reportFetched s
    = (Ok tt,
       mkState (openWorkout s) (isLoading s) (modalVisible s)
         (selectedExercise s) (analysisResult s) (showResult s) html
         (showReportModal s),
       log).
Proof.
  intros Hs.
  destruct (ChatFacts.get_total data "success" "report_url" Hs) as [u Hu].
  destruct (ChatFacts.get_total data "success" "report_path" Hs) as [p Hp].
  destruct (loadReport_result platform data u p reportFetched s Hu Hp)
    as [html [log [E _]]].
  now exists html, log.
Qed.

(** What [uploadVideo] leaves of the state, and its request. *)
Lemma uploadVideo_shape (closure : State) (videoUri : jstring)
    (fileInfo : Result bool) (net : Settled)
    (reportFetched : Result Response) (s : State) :
  exists result shown html log,
    uploadVideo platform closure videoUri fileInfo net reportFetched s
    = (Ok tt,
       mkState (openWorkout s) false false (selectedExercise s) result
         shown html false,
       log)
    /\ (fileInfo = Ok true ->
        In (ActFetch (API_BASE_URL ++ js "/analyze-exercise") (js "POST")
              (Some (videoForm videoUri (js "video.mp4")
                       (selectedExercise closure))))
           log).
Proof.
  destruct (apiRequest_shape State (js "/analyze-exercise") (js "POST")
              (Some (videoForm videoUri (js "video.mp4")
                       (selectedExercise closure)))
              120000 net
              (mkState (openWorkout s) true false (selectedExercise s)
                 (analysisResult s) (showResult s) None false))
    as [res [rest [E [_ [_ [_ Hr]]]]]].
  unfold uploadVideo, setIsLoading, setModalVisible, setAnalysisResult,
    setShowResult, setReportHtml, setShowReportModal,
    tryFinally, tryCatch, bind, settle, ret, throw, update, perform.
  reduce.
  destruct fileInfo as [[|]|e]; reduce.
  2,3: do 4 eexists; split; [reflexivity|discriminate].
  rewrite E. reduce.
  destruct res as [data|e]; reduce.
  2:{ do 4 eexists. split; [reflexivity|]. intros _. right. now left. }
  destruct (get data "success") as [v|e] eqn:Gs; reduce.
  2:{ do 4 eexists. split; [reflexivity|]. intros _. right. now left. }
  destruct (truthy v); reduce.
  - match goal with
    | |- context [loadReport platform data reportFetched ?s0] =>
        destruct (loadReport_frame data v reportFetched s0 Gs)
          as [html [log L]]; rewrite L
    end.
    reduce.
    do 4 eexists. split; [reflexivity|]. intros _. right. now left.
  - destruct (ChatFacts.get_total data "success" "message" Gs) as [t Ht].
    rewrite Ht. reduce.
    do 4 eexists. split; [reflexivity|]. intros _. right. now left.
Qed.

(** X18. From the card to the request.  Pressing the analyse button of a
    card selects the exercise of the card and opens the modal; an upload
    started from the render that follows posts that exercise as
    [exercise_type], and, however it ends, it never throws, leaves the
    selection and the open workout alone, and ends with the modal
    closed, the loading flag cleared and the report modal closed. *)
Theorem card_exercise_is_posted :
  forall (exercise videoUri : jstring) (fileInfo : Result bool)
         (net : Settled) (reportFetched : Result Response) (s : State),
    let s1 := final (openAnalysisModal exercise s) in
    let run := uploadVideo platform s1 videoUri fileInfo net
                 reportFetched s1 in
    modalVisible s1 = true
    /\ selectedExercise s1 = exercise
    /\ outcome run = Ok tt
    /\ (fileInfo = Ok true ->
        In (ActFetch (API_BASE_URL ++ js "/analyze-exercise") (js "POST")
              (Some (videoForm videoUri (js "video.mp4") exercise)))
           (actions run))
    /\ selectedExercise (final run) = exercise
    /\ openWorkout (final run) = openWorkout s
    /\ modalVisible (final run) = false
    /\ isLoading (final run) = false
    /\ showReportModal (final run) = false.
Proof.
  intros exercise videoUri fileInfo net reportFetched s s1 run.
  destruct (uploadVideo_shape s1 videoUri fileInfo net reportFetched s1)
    as [result [shown [html [log [E Hin]]]]].
  subst run. rewrite E. unfold final, outcome, actions. cbn [fst snd].
  repeat split. exact Hin.
Qed.

(** X19. The two pickers.  [pickVideo] and [recordVideo] never throw.
    When the picker itself fails they raise their own alert and change
    nothing; when the user cancels, or no asset comes back, they do
    nothing at all; otherwise they do what [uploadVideo] does with the
    first asset, and nothing [uploadVideo] runs into reaches the alert
    of the picker. *)
Theorem pickers_upload_first_asset :
  forall (closure : State) (picked : Result PickerResult)
         (fileInfo : Result bool) (net : Settled)
         (reportFetched : Result Response) (s : State),
    let expected (failure : jstring) :=
      match picked with
      | Throw _ => (Ok tt, s, [ActAlert (js "错误") (JsString failure)])
      | Ok result =>
          if canceled result then (Ok tt, s, [])
          else match assets result with
               | Some (videoUri :: _) =>
                   uploadVideo platform closure videoUri fileInfo net
                     reportFetched s
               | _ => (Ok tt, s, [])
               end
      end in
    pickVideo platform closure picked fileInfo net reportFetched s
    = expected (js "选择视频时出错")
    /\ recordVideo platform closure picked fileInfo net reportFetched s
       = expected (js "录制视频时出错")
    /\ outcome (pickVideo platform closure picked fileInfo net
                  reportFetched s) = Ok tt
    /\ outcome (recordVideo platform closure picked fileInfo net
                  reportFetched s) = Ok tt.
Proof.
  intros closure picked fileInfo net reportFetched s expected.
  assert (G : forall failure,
             withPickedVideo platform failure closure picked fileInfo net
               reportFetched s = expected failure
             /\ outcome (expected failure) = Ok tt).
  { intros failure. subst expected.
    unfold withPickedVideo, tryCatch, bind, settle, ret, perform, outcome.
    cbn [fst snd].
    destruct picked as [result|e]; cbn [fst snd]; [|split; reflexivity].
    destruct (canceled result); cbn [negb fst snd]; [split; reflexivity|].
    destruct (assets result) as [[|videoUri l]|]; try (split; reflexivity).
    destruct (uploadVideo_shape closure videoUri fileInfo net reportFetched
                s) as [result' [shown [html [log [E _]]]]].
    rewrite E. split; reflexivity. }
  unfold pickVideo, recordVideo.
  destruct (G (js "选择视频时出错")) as [E1 O1].
  destruct (G (js "录制视频时出错")) as [E2 O2].
  rewrite E1, E2. repeat split; assumption.
Qed.

End WithPlatform.

Lemma uploadVideo_failure_keeps_result_drops_report_witness :
  let platform :=
    mkPlatform (fun _ => js "0") (fun s => Ok s) (fun s => Ok s) in
  let old :=
    JsObject [(js "success", JsBool true);
              (js "report_path", JsString (js "/reports/squat_1.html"))] in
  let s := mkState None false true (js "squat") old true
             (Some (js "<html></html>")) false in
  let run := uploadVideo platform s (js "file:///clip.mp4") (Ok true)
               TimerFires (Throw AbortError) s in
  reportButtonRendered s = true
  /\ analysisResult (final run) = old
  /\ reportButtonRendered (final run) = false.
Proof.
  intros platform old s run.
  destruct (uploadVideo_failure_keeps_result_drops_report platform s
              (js "file:///clip.mp4") (Ok true) TimerFires
              (Throw AbortError) s (or_intror eq_refl))
    as [_ [E [_ [_ B]]]].
  split; [reflexivity|]. split; [|exact B].
  subst run. now rewrite E.
Defined.



Section Simulation.

Variable platform : Platform.


(** X21. A mock result that never shows.  When the platform throws
    while encoding or decoding the mock report,
    [simulateAnalysisResult] throws in its turn, after having set the
    loading flag and before starting its timer: nothing in the function
    clears the flag again. *)
Theorem simulation_stuck_when_encoding_throws :
  forall (exerciseType : jstring) (rnd : nat -> spec_float) (s : State)
         (e : JsError),
    encodeURIComponent platform
      (simulatedHtml platform exerciseType
         (errors_detected exerciseType rnd)) = Throw e
    \/ (exists encoded,
           encodeURIComponent platform
             (simulatedHtml platform exerciseType
                (errors_detected exerciseType rnd)) = Ok encoded
           /\ decodeURIComponent platform encoded = Throw e) ->
    let run := simulateAnalysisResult platform exerciseType rnd s in
    outcome run = Throw e
    /\ actions run = []
    /\ isLoading (final run) = true
    /\ reportHtml (final run) = None.
Proof.
  intros exerciseType rnd s e H run. subst run.
  unfold simulateAnalysisResult, setModalVisible, setIsLoading,
    setReportHtml, setShowReportModal, bind, settle, ret, perform, update,
    final, outcome, actions.
  cbn [fst snd].
  destruct H as [He|[encoded [He Hd]]]; rewrite He.
  - repeat split.
  - change (js "data:text/html," ++ encoded)
      with (100%N :: (skipn 1 (js "data:text/html,") ++ encoded)).
    cbn [fst snd].
    replace (substring_from (List.length (js "data:text/html,"))
               (100%N :: (skipn 1 (js "data:text/html,") ++ encoded)))
      with encoded by reflexivity.
    rewrite Hd. repeat split.
Qed.

End Simulation.


Lemma simulation_stuck_when_encoding_throws_witness :
  let platform :=
    mkPlatform (fun _ => js "0")
      (fun _ => Throw (mkError (js "URIError") (js "URI malformed")))
      (fun s => Ok s) in
  let half := fun _ : nat => S754_finite false 4503599627370496 (-53) in
  let run := simulateAnalysisResult platform (js "plank") half
               initialState in
  isLoading (final run) = true.
Proof.
  intros platform half run.
  exact (proj1 (proj2 (proj2
           (simulation_stuck_when_encoding_throws platform (js "plank") half
              initialState (mkError (js "URIError") (js "URI malformed"))
              (or_introl eq_refl))))).
Defined.

End WorkoutsExtra.

(* ================================================================== *)
(** ** The mock result *)

Module MockExtra.

#[local] Unset Implicit Arguments.
Import Workouts NumberFacts.
Local Open Scope Z_scope.







End MockExtra.

(* ================================================================== *)
(** ** More on the profile screen *)

Module ProfileExtra.

#[local] Unset Implicit Arguments.
Import Profile.

(** X23. Opening and closing a report.  Pressing a report that has a
    [report_url] raises no alert and puts the modal with that URL on
    screen; closing it, by its button or by the back gesture, takes the
    modal off the screen and forgets the URL, and leaves the list and
    its loading flag alone.  From a state with the modal closed, the two
    together change nothing. *)
Theorem report_opens_and_closes :
  forall (report url : JsValue) (s : State),
    get report "report_url" = Ok url ->
    truthy url = true ->
    let opened := handleReportItemPress report s in
    let closed := closeReport (final opened) in
    outcome opened = Ok tt
    /\ actions opened = []
    /\ currentReportUrl (final opened) = url
    /\ reportModalShown (final opened) = true
    /\ outcome closed = Ok tt
    /\ reportModalShown (final closed) = false
    /\ final closed
       = mkState (reports s) (loading s) false JsNull (isWebViewLoading s)
    /\ (isReportModalVisible s = false -> currentReportUrl s = JsNull ->
        final closed = s).
Proof.
  intros report url s Hu Ht.
  destruct (ChatFacts.get_total report "report_url" "filename" Hu)
    as [w Hw].
  unfold handleReportItemPress, closeReport, setCurrentReportUrl,
    setIsReportModalVisible, bind, settle, perform, update, final, outcome,
    actions, reportModalShown.
  rewrite Hw, Hu. cbn [fst snd]. rewrite Ht.
  cbn [fst snd reports loading isReportModalVisible currentReportUrl
       isWebViewLoading app].
  rewrite Ht.
  do 7 (split; [reflexivity|]).
  intros Hv Hn. destruct s as [r l v u wl]. cbn in *. now subst.
Qed.

Lemma report_opens_and_closes_witness :
  let report :=
    JsObject [(js "filename", JsString (js "squat_1.html"));
              (js "report_url", JsString (js "http://10.38.86.85:5000/r"))] in
  let s := mkState [report] false false JsNull false in
  final (closeReport (final (handleReportItemPress report s))) = s.
Proof.
  intros report s.
  exact (proj2 (proj2 (proj2 (proj2 (proj2 (proj2 (proj2
           (report_opens_and_closes report
              (JsString (js "http://10.38.86.85:5000/r")) s
              eq_refl eq_refl))))))) eq_refl eq_refl).
Defined.


End ProfileExtra.

